(** * Brillix backend: registration, login and business preferences

    A shallow embedding of the controllers of the backend
    ([authController.js], [businessController.js]) and of the two Mongoose
    models they work on ([User], [Business]), followed by the properties
    of the specification that concern them.

    Conventions.
    - A MongoDB collection is a finite map from [_id] to document.
    - A Mongoose document in memory is its fields together with [isNew]
      and the list of modified paths; [save] inserts a new document and,
      for one that was read from the store, sends the modified paths, or
      nothing when there is none.
    - [undefined] is [None].  A scalar field of a request body is a string
      when it is present; an element of a preference collection is an
      object whose fields are optional.
    - A string is the sequence of bytes of its UTF-8 form.  [trim], the
      two case mappings and [length] are those of the engine and are taken
      as given ([Js.Strings]).
    - What the process cannot decide itself is read from a [World]:
      the clock, the salt [bcrypt.genSalt] draws, and whether each
      successive write is accepted by the validators, the indexes and the
      store. *)

From Stdlib Require Import ZArith Ascii String.
From stdpp Require Import base option list gmap strings pretty.

Open Scope string_scope.

(** ** JavaScript primitives *)

Module Js.

(** The methods of [String.prototype] that the code calls, and [length].
    They are those of the engine: [trim] removes the white space and the
    line terminators of the language at both ends, the case mappings are
    the full Unicode ones, and [length] counts UTF-16 code units.  They
    are taken as given, the way bcrypt is. *)
Class Strings := {
  trim : string -> string;
  toLowerCase : string -> string;
  toUpperCase : string -> string;
  length : string -> nat
}.

(** What the properties rely on: a case mapping neither makes nor removes
    white space at the ends of a string; trimming or mapping twice is
    trimming or mapping once; only the empty string has an empty upper
    case; the empty string is trimmed and has length 0. *)
Class Lawful `{Strings} : Prop := {
  trim_trim s : trim (trim s) = trim s;
  trim_toLowerCase s : trim (toLowerCase s) = toLowerCase (trim s);
  trim_toUpperCase s : trim (toUpperCase s) = toUpperCase (trim s);
  toLowerCase_twice s : toLowerCase (toLowerCase s) = toLowerCase s;
  toUpperCase_twice s : toUpperCase (toUpperCase s) = toUpperCase s;
  toUpperCase_empty s : toUpperCase s = "" -> s = "";
  trim_empty : trim "" = "";
  length_empty : length "" = 0%nat
}.

(** Truthiness of a value that is [undefined] or a string. *)
Definition truthy (v : option string) : bool :=
  match v with
  | Some s => negb (String.eqb s "")
  | None => false
  end.

(** Truthiness of an object or an array: always, whatever it holds
    ([![]] and [!{}] are [false]). *)
Definition truthy_object {A} (x : A) : bool := true.

(** [a || b] on strings. *)
Definition or_else (v : option string) (d : string) : string :=
  match v with
  | Some s => if String.eqb s "" then d else s
  | None => d
  end.

(** [a || b] where [b] may itself be [undefined]. *)
Definition or_opt (v w : option string) : option string :=
  if truthy v then v else w.

(** [Array.prototype.indexOf] with strict equality; [None] is -1. *)
Fixpoint indexOf {A} `{EqDecision A} (l : list A) (x : A) : option nat :=
  match l with
  | [] => None
  | y :: l' => if decide (y = x) then Some 0%nat else S <$> indexOf l' x
  end.

(** [Array.prototype.filter] with the two-argument callback
    [(element, index) => ...]; [i] is the index of the head. *)
Fixpoint filter_from {A} (p : A -> nat -> bool) (i : nat) (l : list A)
  : list A :=
  match l with
  | [] => []
  | x :: l' =>
      if p x i then x :: filter_from p (S i) l' else filter_from p (S i) l'
  end.

Definition filter_idx {A} (p : A -> nat -> bool) (l : list A) : list A :=
  filter_from p 0 l.

(** [Array.prototype.join]: [undefined] elements print as nothing. *)
Fixpoint join (sep : string) (l : list (option string)) : string :=
  match l with
  | [] => ""
  | [x] => default "" x
  | x :: l' => default "" x ++ sep ++ join sep l'
  end.

(** The idiom of the three duplicate checks:
    [keys.filter((k, index) => keys.indexOf(k) !== index)]. *)
Definition duplicates {A} `{EqDecision A} (keys : list A) : list A :=
  filter_idx (fun k i => negb (bool_decide (indexOf keys k = Some i))) keys.

End Js.

(** ** The world outside the process *)

(** Errors that reach a [catch] block. *)
Inductive Error :=
| ValidationError (messages : list string)   (* error.name === 'ValidationError' *)
| DuplicateKey (field : string)              (* error.code === 11000 *)
| StoreFailure (reason : string)             (* any other error of the store *)
| TypeError (reason : string).               (* thrown by the interpreter *)

(** What happens to one write handed to Mongoose.  [Invalid] is the verdict
    of the schema validators, which are consulted only when the save asks
    for validation; the other refusals come from the store. *)
Inductive WriteOutcome :=
| Accepted
| Invalid (messages : list string)
| Duplicate (field : string)
| Unavailable (reason : string).

Record World := {
  now : Z;                          (* [new Date()], [Date.now] *)
  salt : string;                    (* what [bcrypt.genSalt] returns *)
  outcomes : list WriteOutcome;     (* fate of the successive writes *)
  JWT_SECRET : string;
  JWT_EXPIRE : option string
}.

(** Fate of the [k]-th write of the request; writes beyond the schedule
    are accepted. *)
Definition outcome (w : World) (k : nat) : WriteOutcome :=
  default Accepted (outcomes w !! k).

(** The verdict of the validators, which run before the hooks of
    [pre('save')], and that of the store, which comes after them. *)
Definition invalid (validateBeforeSave : bool) (o : WriteOutcome)
  : option Error :=
  match o with
  | Invalid ms => if validateBeforeSave then Some (ValidationError ms) else None
  | _ => None
  end.

Definition rejected (o : WriteOutcome) : option Error :=
  match o with
  | Duplicate f => Some (DuplicateKey f)
  | Unavailable r => Some (StoreFailure r)
  | _ => None
  end.

(** The error, if any, that a write with this outcome ends in. *)
Definition refusal (validateBeforeSave : bool) (o : WriteOutcome)
  : option Error :=
  match invalid validateBeforeSave o with
  | Some e => Some e
  | None => rejected o
  end.

(** The two libraries the controllers call. *)
Class Libs := {
  bcrypt_hash : string -> string -> string;        (* plaintext, salt *)
  bcrypt_compare : string -> string -> bool;       (* candidate, hash *)
  jwt_sign : nat -> string -> string -> Z -> string (* id, secret, expiresIn, iat *)
}.

(** ** Mongoose documents *)

Record Doc (A : Type) := mkDoc {
  _id : nat;
  fields : A;
  isNew : bool;
  modifiedPaths : list string
}.
Arguments mkDoc {A}.
Arguments _id {A}.
Arguments fields {A}.
Arguments isNew {A}.
Arguments modifiedPaths {A}.

Definition isModified {A} (path : string) (d : Doc A) : bool :=
  bool_decide (path ∈ modifiedPaths d).

(** [doc.path = v]: the path is marked modified when the value changes. *)
Definition assign {A} (path : string) (changed : bool) (f : A -> A) (d : Doc A)
  : Doc A :=
  {| _id := _id d; fields := f (fields d); isNew := isNew d;
     modifiedPaths :=
       if changed then path :: modifiedPaths d else modifiedPaths d |}.

(** A document as [find] returns it. *)
Definition hydrate {A} (id : nat) (x : A) : Doc A :=
  {| _id := id; fields := x; isNew := false; modifiedPaths := [] |}.

(** A document after a successful [save]. *)
Definition saved {A} (d : Doc A) (x : A) : Doc A :=
  {| _id := _id d; fields := x; isNew := false; modifiedPaths := [] |}.

(** One field of the document that an update leaves in the store: that
    of the document in memory when [path] is among the paths sent, the
    stored one otherwise. *)
Definition sent {T A} (paths : list string) (src dst : T) (path : string)
    (proj : T -> A) : A :=
  if bool_decide (path ∈ paths) then proj src else proj dst.

(** [DocumentNotFoundError]: [save] found no document under the [_id]. *)
Definition not_found : string := "No document found for query".

(** ** The User model *)

Module User.

Section WithStrings.
Context `{Js.Strings}.

Inductive Role := Owner | Admin | Manager | Employee.

Definition role_name (r : Role) : string :=
  match r with
  | Owner => "owner" | Admin => "admin"
  | Manager => "manager" | Employee => "employee"
  end.

Record t := {
  firstName : string;
  lastName : string;
  email : string;
  password : option string;
  phone : option string;
  business : option nat;
  role : Role;
  isActive : bool;
  isEmailVerified : bool;
  lastLogin : option Z;
  resetPasswordToken : option string;
  resetPasswordExpire : option Z;
  createdAt : option Z;
  updatedAt : option Z
}.

(** Setters of the [email] path: [lowercase: true, trim: true]. *)
Definition cast_email (e : string) : string := Js.trim (Js.toLowerCase e).

(** [new User({ firstName, lastName, email, password, phone, role })]. *)
Definition create (id : nat) (firstName lastName email password : string)
    (phone : option string) (role : Role) : Doc t :=
  {| _id := id;
     fields :=
       {| firstName := Js.trim firstName;
          lastName := Js.trim lastName;
          email := cast_email email;
          password := Some password;
          phone := Js.trim <$> phone;
          business := None;
          role := role;
          isActive := true;
          isEmailVerified := false;
          lastLogin := None;
          resetPasswordToken := None;
          resetPasswordExpire := None;
          createdAt := None;
          updatedAt := None |};
     isNew := true;
     modifiedPaths :=
       ["firstName"; "lastName"; "email"; "password"]
       ++ match phone with Some _ => ["phone"] | None => [] end ++ ["role"] |}.

Definition with_password (p : option string) (u : t) : t :=
  {| firstName := firstName u; lastName := lastName u; email := email u;
     password := p; phone := phone u; business := business u;
     role := role u; isActive := isActive u;
     isEmailVerified := isEmailVerified u; lastLogin := lastLogin u;
     resetPasswordToken := resetPasswordToken u;
     resetPasswordExpire := resetPasswordExpire u;
     createdAt := createdAt u; updatedAt := updatedAt u |}.

Definition with_business (b : option nat) (u : t) : t :=
  {| firstName := firstName u; lastName := lastName u; email := email u;
     password := password u; phone := phone u; business := b;
     role := role u; isActive := isActive u;
     isEmailVerified := isEmailVerified u; lastLogin := lastLogin u;
     resetPasswordToken := resetPasswordToken u;
     resetPasswordExpire := resetPasswordExpire u;
     createdAt := createdAt u; updatedAt := updatedAt u |}.

Definition with_lastLogin (l : option Z) (u : t) : t :=
  {| firstName := firstName u; lastName := lastName u; email := email u;
     password := password u; phone := phone u; business := business u;
     role := role u; isActive := isActive u;
     isEmailVerified := isEmailVerified u; lastLogin := l;
     resetPasswordToken := resetPasswordToken u;
     resetPasswordExpire := resetPasswordExpire u;
     createdAt := createdAt u; updatedAt := updatedAt u |}.

(** [timestamps: true]. *)
Definition stamp (new : bool) (time : Z) (u : t) : t :=
  {| firstName := firstName u; lastName := lastName u; email := email u;
     password := password u; phone := phone u; business := business u;
     role := role u; isActive := isActive u;
     isEmailVerified := isEmailVerified u; lastLogin := lastLogin u;
     resetPasswordToken := resetPasswordToken u;
     resetPasswordExpire := resetPasswordExpire u;
     createdAt := if new then Some time else createdAt u;
     updatedAt := Some time |}.

(** [user.password = v], [user.business = v], [user.lastLogin = v]. *)
Definition set_password (v : option string) (d : Doc t) : Doc t :=
  assign "password" (negb (bool_decide (password (fields d) = v)))
    (with_password v) d.

Definition set_business (v : option nat) (d : Doc t) : Doc t :=
  assign "business" (negb (bool_decide (business (fields d) = v)))
    (with_business v) d.

Definition set_lastLogin (v : option Z) (d : Doc t) : Doc t :=
  assign "lastLogin" (negb (bool_decide (lastLogin (fields d) = v)))
    (with_lastLogin v) d.

(** [userSchema.pre('save')]: hash the password only if it was modified.
    [bcrypt.hash] throws when it is given [undefined]. *)
Definition pre_save `{Libs} (w : World) (d : Doc t) : Error + Doc t :=
  if negb (isModified "password" d) then inr d
  else
    match password (fields d) with
    | Some plain =>
        let s := salt w in
        inr (assign "password" true
               (with_password (Some (bcrypt_hash plain s))) d)
    | None => inl (TypeError "Illegal arguments: undefined, string")
    end.

(** The stored document after [updateOne({ _id }, { $set: ... })] with the
    paths [paths] of [src]. *)
Definition merge (paths : list string) (src dst : t) : t :=
  {| firstName := sent paths src dst "firstName" firstName;
     lastName := sent paths src dst "lastName" lastName;
     email := sent paths src dst "email" email;
     password := sent paths src dst "password" password;
     phone := sent paths src dst "phone" phone;
     business := sent paths src dst "business" business;
     role := sent paths src dst "role" role;
     isActive := sent paths src dst "isActive" isActive;
     isEmailVerified := sent paths src dst "isEmailVerified" isEmailVerified;
     lastLogin := sent paths src dst "lastLogin" lastLogin;
     resetPasswordToken :=
       sent paths src dst "resetPasswordToken" resetPasswordToken;
     resetPasswordExpire :=
       sent paths src dst "resetPasswordExpire" resetPasswordExpire;
     createdAt := sent paths src dst "createdAt" createdAt;
     updatedAt := sent paths src dst "updatedAt" updatedAt |}.

(** [doc.save({ validateBeforeSave })] as the [k]-th write of the request,
    against the collection [coll].  The validators run first, then the
    hook.  A new document is inserted whole.  For a document that was
    read from the store Mongoose looks it up again and sends the modified
    paths, with [updatedAt]; when no path is modified it sends nothing,
    and the time stamp stays. *)
Definition save `{Libs} (w : World) (k : nat) (validateBeforeSave : bool)
    (d : Doc t) (coll : gmap nat t) : Error + (Doc t * gmap nat t) :=
  match invalid validateBeforeSave (outcome w k) with
  | Some e => inl e
  | None =>
      match pre_save w d with
      | inl e => inl e
      | inr d1 =>
          if isNew d1 then
            match rejected (outcome w k) with
            | Some e => inl e
            | None =>
                let u := stamp true (now w) (fields d1) in
                inr (saved d1 u, <[_id d1 := u]> coll)
            end
          else
            match coll !! _id d1, modifiedPaths d1 with
            | None, _ => inl (StoreFailure not_found)
            | Some stored, [] => inr (saved d1 (fields d1), coll)
            | Some stored, paths =>
                match rejected (outcome w k) with
                | Some e => inl e
                | None =>
                    let u := stamp false (now w) (fields d1) in
                    inr (saved d1 u,
                         <[_id d1 := merge ("updatedAt" :: paths) u stored]>
                           coll)
                end
            end
      end
  end.

(** [userSchema.methods.comparePassword]. *)
Definition comparePassword `{Libs} (candidate : string) (u : t) : Error + bool :=
  match password u with
  | Some h => inr (bcrypt_compare candidate h)
  | None => inl (TypeError "Illegal arguments: string, undefined")
  end.

Record public := {
  pub_id : nat;
  pub_firstName : string;
  pub_lastName : string;
  pub_email : string;
  pub_phone : option string;
  pub_role : Role;
  pub_business : option nat;
  pub_isActive : bool;
  pub_isEmailVerified : bool;
  pub_createdAt : option Z
}.

(** [userSchema.methods.toPublicProfile]. *)
Definition toPublicProfile (d : Doc t) : public :=
  let u := fields d in
  {| pub_id := _id d; pub_firstName := firstName u;
     pub_lastName := lastName u; pub_email := email u;
     pub_phone := phone u; pub_role := role u;
     pub_business := business u; pub_isActive := isActive u;
     pub_isEmailVerified := isEmailVerified u;
     pub_createdAt := createdAt u |}.

(** [User.findOne({ email })]: the filter goes through the setters of the
    path, as the stored value did. *)
Definition findOne_email (e : string) (coll : gmap nat t) : option (Doc t) :=
  (fun r => hydrate r.2.1 r.2.2)
    <$> list_find (fun p => email p.2 = cast_email e) (map_to_list coll).

Definition findById (id : nat) (coll : gmap nat t) : option (Doc t) :=
  hydrate id <$> coll !! id.

End WithStrings.

End User.

(** ** Preferences: categories, units, product types *)

Module Category.

Section WithStrings.
Context `{Js.Strings}.

(** An element of [req.body.categories].  A date is a number of
    milliseconds; [0] is falsy. *)
Record input := {
  in_name : option string;
  in_description : option string;
  in_icon : option string;
  in_color : option string;
  in_isActive : option bool;
  in_createdAt : option Z
}.

(** A stored element. *)
Record t := {
  name : string;
  description : string;
  icon : string;
  color : string;
  isActive : bool;
  createdAt : Z
}.

(** [c.name?.toLowerCase().trim()]. *)
Definition key_of_input (c : input) : option string :=
  (fun n => Js.trim (Js.toLowerCase n)) <$> in_name c.

Definition key (c : t) : string := Js.trim (Js.toLowerCase (name c)).

(** [!category.name || category.name.trim() === ''] *)
Definition missing_name (c : input) : bool :=
  negb (Js.truthy (in_name c))
  || String.eqb (Js.trim (default "" (in_name c))) "".

(** The object literal built by [categories.map(cat => ({ ... }))];
    [cat.name.trim()] throws on [undefined]. *)
Definition normalize (time : Z) (c : input) : option t :=
  match in_name c with
  | None => None
  | Some n =>
      Some {| name := Js.trim n;
              description := Js.or_else (Js.trim <$> in_description c) "";
              icon := Js.or_else (Js.trim <$> in_icon c) "ðŸ“¦";
              color := Js.or_else (Js.trim <$> in_color c) "#6366f1";
              isActive := default true (in_isActive c);
              createdAt :=
                match in_createdAt c with
                | Some z => if (z =? 0)%Z then time else z
                | None => time
                end |}
  end.

(** Setters of the sub-schema, applied when the array is assigned. *)
Definition cast (c : t) : t :=
  {| name := Js.trim (name c); description := Js.trim (description c);
     icon := Js.trim (icon c); color := Js.trim (color c);
     isActive := isActive c; createdAt := createdAt c |}.

End WithStrings.

End Category.

Module Unit.

Section WithStrings.
Context `{Js.Strings}.

Record input := {
  in_name : option string;
  in_abbreviation : option string;
  in_type : option string;
  in_isActive : option bool;
  in_createdAt : option Z
}.

Record t := {
  name : string;
  abbreviation : string;
  type : string;
  isActive : bool;
  createdAt : Z
}.

(** [u.abbreviation?.toUpperCase().trim()]. *)
Definition key_of_input (u : input) : option string :=
  (fun a => Js.trim (Js.toUpperCase a)) <$> in_abbreviation u.

Definition key (u : t) : string := Js.trim (Js.toUpperCase (abbreviation u)).

Definition missing_name (u : input) : bool :=
  negb (Js.truthy (in_name u))
  || String.eqb (Js.trim (default "" (in_name u))) "".

Definition missing_abbreviation (u : input) : bool :=
  negb (Js.truthy (in_abbreviation u))
  || String.eqb (Js.trim (default "" (in_abbreviation u))) "".

Definition normalize (time : Z) (u : input) : option t :=
  match in_name u, in_abbreviation u with
  | Some n, Some a =>
      Some {| name := Js.trim n;
              abbreviation := Js.trim (Js.toUpperCase a);
              type := Js.or_else (in_type u) "quantity";
              isActive := default true (in_isActive u);
              createdAt :=
                match in_createdAt u with
                | Some z => if (z =? 0)%Z then time else z
                | None => time
                end |}
  | _, _ => None
  end.

(** [trim: true] on the name, [trim: true, uppercase: true] on the
    abbreviation. *)
Definition cast (u : t) : t :=
  {| name := Js.trim (name u);
     abbreviation := Js.toUpperCase (Js.trim (abbreviation u));
     type := type u; isActive := isActive u; createdAt := createdAt u |}.

End WithStrings.

End Unit.

Module ProductType.

Section WithStrings.
Context `{Js.Strings}.

Record input := {
  in_name : option string;
  in_description : option string;
  in_requiresSerialNumber : option bool;
  in_requiresExpiryDate : option bool;
  in_trackInventory : option bool;
  in_isActive : option bool;
  in_createdAt : option Z
}.

Record t := {
  name : string;
  description : string;
  requiresSerialNumber : bool;
  requiresExpiryDate : bool;
  trackInventory : bool;
  isActive : bool;
  createdAt : Z
}.

(** [pt.name?.toLowerCase().trim()]. *)
Definition key_of_input (p : input) : option string :=
  (fun n => Js.trim (Js.toLowerCase n)) <$> in_name p.

Definition key (p : t) : string := Js.trim (Js.toLowerCase (name p)).

Definition missing_name (p : input) : bool :=
  negb (Js.truthy (in_name p))
  || String.eqb (Js.trim (default "" (in_name p))) "".

(** [pt.requiresSerialNumber || false] and its neighbours. *)
Definition normalize (time : Z) (p : input) : option t :=
  match in_name p with
  | None => None
  | Some n =>
      Some {| name := Js.trim n;
              description := Js.or_else (Js.trim <$> in_description p) "";
              requiresSerialNumber :=
                match in_requiresSerialNumber p with
                | Some b => b || false
                | None => false
                end;
              requiresExpiryDate :=
                match in_requiresExpiryDate p with
                | Some b => b || false
                | None => false
                end;
              trackInventory :=
                match in_trackInventory p with
                | Some b => b
                | None => true
                end;
              isActive :=
                match in_isActive p with
                | Some b => b
                | None => true
                end;
              createdAt :=
                match in_createdAt p with
                | Some z => if (z =? 0)%Z then time else z
                | None => time
                end |}
  end.

Definition cast (p : t) : t :=
  {| name := Js.trim (name p); description := Js.trim (description p);
     requiresSerialNumber := requiresSerialNumber p;
     requiresExpiryDate := requiresExpiryDate p;
     trackInventory := trackInventory p;
     isActive := isActive p; createdAt := createdAt p |}.

End WithStrings.

End ProductType.

Module Preferences.

Section WithStrings.
Context `{Js.Strings}.

(** The nested path [preferences] of a document: an object holding three
    document arrays. *)
Record t := {
  categories : list Category.t;
  units : list Unit.t;
  productTypes : list ProductType.t
}.

(** What Mongoose gives a document built from an object without
    [preferences]: the nested path is an object and every array path
    takes its implicit default, the empty array (Mongoose guide,
    SchemaTypes, Arrays: arrays implicitly have a default value of [[]]). *)
Definition schema_default : t :=
  {| categories := []; units := []; productTypes := [] |}.

(** The literal of [businessSchema.pre('save')]; the sub-schema defaults
    fill [isActive] and [createdAt]. *)
Definition bootstrap (time : Z) : t :=
  {| categories :=
       [ {| Category.name := "Electronics";
            Category.description := "Electronic devices and accessories";
            Category.icon := "💻"; Category.color := "#3b82f6";
            Category.isActive := true; Category.createdAt := time |};
         {| Category.name := "Clothing";
            Category.description := "Apparel and fashion items";
            Category.icon := "👕"; Category.color := "#ec4899";
            Category.isActive := true; Category.createdAt := time |};
         {| Category.name := "Food & Beverages";
            Category.description := "Food items and drinks";
            Category.icon := "🍔"; Category.color := "#f59e0b";
            Category.isActive := true; Category.createdAt := time |} ];
     units :=
       [ {| Unit.name := "Piece"; Unit.abbreviation := "PCS";
            Unit.type := "quantity";
            Unit.isActive := true; Unit.createdAt := time |};
         {| Unit.name := "Kilogram"; Unit.abbreviation := "KG";
            Unit.type := "weight";
            Unit.isActive := true; Unit.createdAt := time |};
         {| Unit.name := "Liter"; Unit.abbreviation := "L";
            Unit.type := "volume";
            Unit.isActive := true; Unit.createdAt := time |};
         {| Unit.name := "Dozen"; Unit.abbreviation := "DZ";
            Unit.type := "quantity";
            Unit.isActive := true; Unit.createdAt := time |} ];
     productTypes :=
       [ {| ProductType.name := "Physical Product";
            ProductType.description := "Tangible goods that can be shipped";
            ProductType.requiresSerialNumber := false;
            ProductType.requiresExpiryDate := false;
            ProductType.trackInventory := true;
            ProductType.isActive := true;
            ProductType.createdAt := time |};
         {| ProductType.name := "Perishable";
            ProductType.description := "Products with expiry dates";
            ProductType.requiresSerialNumber := false;
            ProductType.requiresExpiryDate := true;
            ProductType.trackInventory := true;
            ProductType.isActive := true;
            ProductType.createdAt := time |};
         {| ProductType.name := "Service";
            ProductType.description := "Non-physical services";
            ProductType.requiresSerialNumber := false;
            ProductType.requiresExpiryDate := false;
            ProductType.trackInventory := false;
            ProductType.isActive := true;
            ProductType.createdAt := time |} ] |}.

Definition set_categories (v : list Category.t) (p : t) : t :=
  {| categories := Category.cast <$> v; units := units p;
     productTypes := productTypes p |}.

Definition set_units (v : list Unit.t) (p : t) : t :=
  {| categories := categories p; units := Unit.cast <$> v;
     productTypes := productTypes p |}.

Definition set_productTypes (v : list ProductType.t) (p : t) : t :=
  {| categories := categories p; units := units p;
     productTypes := ProductType.cast <$> v |}.

End WithStrings.

End Preferences.

(** ** The Business model *)

Module Business.

Section WithStrings.
Context `{Js.Strings}.

Record t := {
  name : string;
  description : option string;
  industry : string;
  email : option string;
  phone : option string;
  website : option string;
  address : gmap string string;
  registrationNumber : option string;
  taxId : option string;
  currency : string;
  timezone : string;
  preferences : Preferences.t;
  owner : nat;
  isActive : bool;
  subscriptionStatus : string;
  subscriptionPlan : string;
  logo : option string;
  totalEmployees : Z;
  totalRevenue : Z;
  createdAt : option Z;
  updatedAt : option Z
}.

Definition cast_email (e : string) : string := Js.trim (Js.toLowerCase e).

(** The paths of the nested [address]; other keys are dropped by the
    schema and every kept value is trimmed. *)
Definition address_paths : list string :=
  ["street"; "city"; "state"; "country"; "postalCode"].

Definition cast_address (a : gmap string string) : gmap string string :=
  Js.trim <$> filter (fun kv => kv.1 ∈ address_paths) a.

(** [new Business({ name, industry, email, phone, preferences, owner })];
    [preferences] is [None] when the object has no such key. *)
Definition create (id : nat) (name industry : string)
    (email phone : option string) (preferences : option Preferences.t)
    (owner : nat) : Doc t :=
  {| _id := id;
     fields :=
       {| name := Js.trim name;
          description := None;
          industry := industry;
          email := cast_email <$> email;
          phone := Js.trim <$> phone;
          website := None;
          address := {[ "country" := "Nigeria" ]};
          registrationNumber := None;
          taxId := None;
          currency := "NGN";
          timezone := "Africa/Lagos";
          preferences := default Preferences.schema_default preferences;
          owner := owner;
          isActive := true;
          subscriptionStatus := "trial";
          subscriptionPlan := "free";
          logo := None;
          totalEmployees := 1;
          totalRevenue := 0;
          createdAt := None;
          updatedAt := None |};
     isNew := true;
     modifiedPaths :=
       ["name"; "industry"]
       ++ match email with Some _ => ["email"] | None => [] end
       ++ match phone with Some _ => ["phone"] | None => [] end
       ++ match preferences with Some _ => ["preferences"] | None => [] end
       ++ ["owner"] |}.

(** Functional updates, one per assigned path. *)
Definition with_name (v : string) (b : t) : t :=
  {| name := v; description := description b; industry := industry b;
     email := email b; phone := phone b; website := website b;
     address := address b; registrationNumber := registrationNumber b;
     taxId := taxId b; currency := currency b; timezone := timezone b;
     preferences := preferences b; owner := owner b;
     isActive := isActive b; subscriptionStatus := subscriptionStatus b;
     subscriptionPlan := subscriptionPlan b; logo := logo b;
     totalEmployees := totalEmployees b; totalRevenue := totalRevenue b;
     createdAt := createdAt b; updatedAt := updatedAt b |}.

Definition with_description (v : option string) (b : t) : t :=
  {| name := name b; description := v; industry := industry b;
     email := email b; phone := phone b; website := website b;
     address := address b; registrationNumber := registrationNumber b;
     taxId := taxId b; currency := currency b; timezone := timezone b;
     preferences := preferences b; owner := owner b;
     isActive := isActive b; subscriptionStatus := subscriptionStatus b;
     subscriptionPlan := subscriptionPlan b; logo := logo b;
     totalEmployees := totalEmployees b; totalRevenue := totalRevenue b;
     createdAt := createdAt b; updatedAt := updatedAt b |}.

Definition with_industry (v : string) (b : t) : t :=
  {| name := name b; description := description b; industry := v;
     email := email b; phone := phone b; website := website b;
     address := address b; registrationNumber := registrationNumber b;
     taxId := taxId b; currency := currency b; timezone := timezone b;
     preferences := preferences b; owner := owner b;
     isActive := isActive b; subscriptionStatus := subscriptionStatus b;
     subscriptionPlan := subscriptionPlan b; logo := logo b;
     totalEmployees := totalEmployees b; totalRevenue := totalRevenue b;
     createdAt := createdAt b; updatedAt := updatedAt b |}.

Definition with_email (v : option string) (b : t) : t :=
  {| name := name b; description := description b; industry := industry b;
     email := v; phone := phone b; website := website b;
     address := address b; registrationNumber := registrationNumber b;
     taxId := taxId b; currency := currency b; timezone := timezone b;
     preferences := preferences b; owner := owner b;
     isActive := isActive b; subscriptionStatus := subscriptionStatus b;
     subscriptionPlan := subscriptionPlan b; logo := logo b;
     totalEmployees := totalEmployees b; totalRevenue := totalRevenue b;
     createdAt := createdAt b; updatedAt := updatedAt b |}.

Definition with_phone (v : option string) (b : t) : t :=
  {| name := name b; description := description b; industry := industry b;
     email := email b; phone := v; website := website b;
     address := address b; registrationNumber := registrationNumber b;
     taxId := taxId b; currency := currency b; timezone := timezone b;
     preferences := preferences b; owner := owner b;
     isActive := isActive b; subscriptionStatus := subscriptionStatus b;
     subscriptionPlan := subscriptionPlan b; logo := logo b;
     totalEmployees := totalEmployees b; totalRevenue := totalRevenue b;
     createdAt := createdAt b; updatedAt := updatedAt b |}.

Definition with_website (v : option string) (b : t) : t :=
  {| name := name b; description := description b; industry := industry b;
     email := email b; phone := phone b; website := v;
     address := address b; registrationNumber := registrationNumber b;
     taxId := taxId b; currency := currency b; timezone := timezone b;
     preferences := preferences b; owner := owner b;
     isActive := isActive b; subscriptionStatus := subscriptionStatus b;
     subscriptionPlan := subscriptionPlan b; logo := logo b;
     totalEmployees := totalEmployees b; totalRevenue := totalRevenue b;
     createdAt := createdAt b; updatedAt := updatedAt b |}.

Definition with_address (v : gmap string string) (b : t) : t :=
  {| name := name b; description := description b; industry := industry b;
     email := email b; phone := phone b; website := website b;
     address := v; registrationNumber := registrationNumber b;
     taxId := taxId b; currency := currency b; timezone := timezone b;
     preferences := preferences b; owner := owner b;
     isActive := isActive b; subscriptionStatus := subscriptionStatus b;
     subscriptionPlan := subscriptionPlan b; logo := logo b;
     totalEmployees := totalEmployees b; totalRevenue := totalRevenue b;
     createdAt := createdAt b; updatedAt := updatedAt b |}.

Definition with_registrationNumber (v : option string) (b : t) : t :=
  {| name := name b; description := description b; industry := industry b;
     email := email b; phone := phone b; website := website b;
     address := address b; registrationNumber := v;
     taxId := taxId b; currency := currency b; timezone := timezone b;
     preferences := preferences b; owner := owner b;
     isActive := isActive b; subscriptionStatus := subscriptionStatus b;
     subscriptionPlan := subscriptionPlan b; logo := logo b;
     totalEmployees := totalEmployees b; totalRevenue := totalRevenue b;
     createdAt := createdAt b; updatedAt := updatedAt b |}.

Definition with_taxId (v : option string) (b : t) : t :=
  {| name := name b; description := description b; industry := industry b;
     email := email b; phone := phone b; website := website b;
     address := address b; registrationNumber := registrationNumber b;
     taxId := v; currency := currency b; timezone := timezone b;
     preferences := preferences b; owner := owner b;
     isActive := isActive b; subscriptionStatus := subscriptionStatus b;
     subscriptionPlan := subscriptionPlan b; logo := logo b;
     totalEmployees := totalEmployees b; totalRevenue := totalRevenue b;
     createdAt := createdAt b; updatedAt := updatedAt b |}.

Definition with_currency (v : string) (b : t) : t :=
  {| name := name b; description := description b; industry := industry b;
     email := email b; phone := phone b; website := website b;
     address := address b; registrationNumber := registrationNumber b;
     taxId := taxId b; currency := v; timezone := timezone b;
     preferences := preferences b; owner := owner b;
     isActive := isActive b; subscriptionStatus := subscriptionStatus b;
     subscriptionPlan := subscriptionPlan b; logo := logo b;
     totalEmployees := totalEmployees b; totalRevenue := totalRevenue b;
     createdAt := createdAt b; updatedAt := updatedAt b |}.

Definition with_timezone (v : string) (b : t) : t :=
  {| name := name b; description := description b; industry := industry b;
     email := email b; phone := phone b; website := website b;
     address := address b; registrationNumber := registrationNumber b;
     taxId := taxId b; currency := currency b; timezone := v;
     preferences := preferences b; owner := owner b;
     isActive := isActive b; subscriptionStatus := subscriptionStatus b;
     subscriptionPlan := subscriptionPlan b; logo := logo b;
     totalEmployees := totalEmployees b; totalRevenue := totalRevenue b;
     createdAt := createdAt b; updatedAt := updatedAt b |}.

Definition with_preferences (v : Preferences.t) (b : t) : t :=
  {| name := name b; description := description b; industry := industry b;
     email := email b; phone := phone b; website := website b;
     address := address b; registrationNumber := registrationNumber b;
     taxId := taxId b; currency := currency b; timezone := timezone b;
     preferences := v; owner := owner b;
     isActive := isActive b; subscriptionStatus := subscriptionStatus b;
     subscriptionPlan := subscriptionPlan b; logo := logo b;
     totalEmployees := totalEmployees b; totalRevenue := totalRevenue b;
     createdAt := createdAt b; updatedAt := updatedAt b |}.

Definition stamp (new : bool) (time : Z) (b : t) : t :=
  {| name := name b; description := description b; industry := industry b;
     email := email b; phone := phone b; website := website b;
     address := address b; registrationNumber := registrationNumber b;
     taxId := taxId b; currency := currency b; timezone := timezone b;
     preferences := preferences b; owner := owner b;
     isActive := isActive b; subscriptionStatus := subscriptionStatus b;
     subscriptionPlan := subscriptionPlan b; logo := logo b;
     totalEmployees := totalEmployees b; totalRevenue := totalRevenue b;
     createdAt := if new then Some time else createdAt b;
     updatedAt := Some time |}.

(** [!this.preferences || !this.preferences.categories]. *)
Definition preferences_unset (b : t) : bool :=
  negb (Js.truthy_object (preferences b))
  || negb (Js.truthy_object (Preferences.categories (preferences b))).

(** [businessSchema.pre('save')]. *)
Definition pre_save (w : World) (d : Doc t) : Doc t :=
  if isNew d && preferences_unset (fields d)
  then assign "preferences" true
         (with_preferences (Preferences.bootstrap (now w))) d
  else d.

(** The stored document after [updateOne({ _id }, { $set: ... })] with the
    paths [paths] of [src]; a collection of the preferences is sent with
    the whole of [preferences] or under its own path. *)
Definition merge (paths : list string) (src dst : t) : t :=
  {| name := sent paths src dst "name" name;
     description := sent paths src dst "description" description;
     industry := sent paths src dst "industry" industry;
     email := sent paths src dst "email" email;
     phone := sent paths src dst "phone" phone;
     website := sent paths src dst "website" website;
     address := sent paths src dst "address" address;
     registrationNumber :=
       sent paths src dst "registrationNumber" registrationNumber;
     taxId := sent paths src dst "taxId" taxId;
     currency := sent paths src dst "currency" currency;
     timezone := sent paths src dst "timezone" timezone;
     preferences :=
       let p := preferences src in
       let q := sent paths src dst "preferences" preferences in
       {| Preferences.categories :=
            sent paths p q "preferences.categories" Preferences.categories;
          Preferences.units :=
            sent paths p q "preferences.units" Preferences.units;
          Preferences.productTypes :=
            sent paths p q "preferences.productTypes"
              Preferences.productTypes |};
     owner := sent paths src dst "owner" owner;
     isActive := sent paths src dst "isActive" isActive;
     subscriptionStatus :=
       sent paths src dst "subscriptionStatus" subscriptionStatus;
     subscriptionPlan :=
       sent paths src dst "subscriptionPlan" subscriptionPlan;
     logo := sent paths src dst "logo" logo;
     totalEmployees := sent paths src dst "totalEmployees" totalEmployees;
     totalRevenue := sent paths src dst "totalRevenue" totalRevenue;
     createdAt := sent paths src dst "createdAt" createdAt;
     updatedAt := sent paths src dst "updatedAt" updatedAt |}.

(** [business.save()] as the [k]-th write of the request: as for an
    account, a new document is inserted whole, and of a stored one the
    modified paths are sent, with [updatedAt], or nothing when there is
    none. *)
Definition save (w : World) (k : nat) (d : Doc t) (coll : gmap nat t)
  : Error + (Doc t * gmap nat t) :=
  match invalid true (outcome w k) with
  | Some e => inl e
  | None =>
      let d1 := pre_save w d in
      if isNew d1 then
        match rejected (outcome w k) with
        | Some e => inl e
        | None =>
            let b := stamp true (now w) (fields d1) in
            inr (saved d1 b, <[_id d1 := b]> coll)
        end
      else
        match coll !! _id d1, modifiedPaths d1 with
        | None, _ => inl (StoreFailure not_found)
        | Some stored, [] => inr (saved d1 (fields d1), coll)
        | Some stored, paths =>
            match rejected (outcome w k) with
            | Some e => inl e
            | None =>
                let b := stamp false (now w) (fields d1) in
                inr (saved d1 b,
                     <[_id d1 := merge ("updatedAt" :: paths) b stored]> coll)
            end
        end
  end.

Definition findById (id : nat) (coll : gmap nat t) : option (Doc t) :=
  hydrate id <$> coll !! id.

Record public := {
  pub_id : nat;
  pub_name : string;
  pub_description : option string;
  pub_industry : string;
  pub_email : option string;
  pub_phone : option string;
  pub_website : option string;
  pub_address : gmap string string;
  pub_currency : string;
  pub_logo : option string;
  pub_subscriptionPlan : string;
  pub_createdAt : option Z
}.

(** [businessSchema.methods.toPublicProfile]. *)
Definition toPublicProfile (d : Doc t) : public :=
  let b := fields d in
  {| pub_id := _id d; pub_name := name b;
     pub_description := description b; pub_industry := industry b;
     pub_email := email b; pub_phone := phone b;
     pub_website := website b; pub_address := address b;
     pub_currency := currency b; pub_logo := logo b;
     pub_subscriptionPlan := subscriptionPlan b;
     pub_createdAt := createdAt b |}.

End WithStrings.

End Business.

(** ** The database *)

Record Db := {
  users : gmap nat User.t;
  businesses : gmap nat Business.t
}.

(** [new mongoose.Types.ObjectId()]: an identifier no document of the
    collection carries. *)
Definition ObjectId {A} (coll : gmap nat A) : nat := fresh (dom coll).

(** ** Documents after [populate] and [select] *)

Module Populated.

(** [.select('-password')]: the document without its hash. *)
Definition without_password (d : Doc User.t) : Doc User.t :=
  {| _id := _id d; fields := User.with_password None (fields d);
     isNew := isNew d; modifiedPaths := modifiedPaths d |}.

(** [.populate('business')]: the document the reference points to, or
    [null]. *)
Definition business_of (d : Doc User.t) (db : Db) : option (Doc Business.t) :=
  User.business (fields d) ≫= fun id => Business.findById id (businesses db).

(** [.populate('business', 'name industry subscriptionPlan')]. *)
Record summary := {
  sum_id : nat;
  sum_name : string;
  sum_industry : string;
  sum_subscriptionPlan : string
}.

Definition summary_of (b : Doc Business.t) : summary :=
  {| sum_id := _id b; sum_name := Business.name (fields b);
     sum_industry := Business.industry (fields b);
     sum_subscriptionPlan := Business.subscriptionPlan (fields b) |}.

(** [req.user] as [protect] leaves it. *)
Record user := {
  account : Doc User.t;
  business : option summary
}.

(** [toPublicProfile] of a user whose [business] is populated: the field
    holds the document, not its identifier. *)
Record profile := {
  pub_id : nat;
  pub_firstName : string;
  pub_lastName : string;
  pub_email : string;
  pub_phone : option string;
  pub_role : User.Role;
  pub_business : option (Doc Business.t);
  pub_isActive : bool;
  pub_isEmailVerified : bool;
  pub_createdAt : option Z
}.

Definition toPublicProfile (d : Doc User.t) (b : option (Doc Business.t))
  : profile :=
  let u := fields d in
  {| pub_id := _id d; pub_firstName := User.firstName u;
     pub_lastName := User.lastName u; pub_email := User.email u;
     pub_phone := User.phone u; pub_role := User.role u;
     pub_business := b; pub_isActive := User.isActive u;
     pub_isEmailVerified := User.isEmailVerified u;
     pub_createdAt := User.createdAt u |}.

End Populated.

(** ** Replies *)

Record Stats := {
  totalCategories : nat;
  activeCategories : nat;
  totalUnits : nat;
  activeUnits : nat;
  totalProductTypes : nat;
  activeProductTypes : nat
}.

Inductive Payload :=
| Session (token : string) (user : User.public) (business : Business.public)
| PopulatedSession (token : string) (user : Populated.profile)
    (business : Business.public)
| Token (token : string)
| PreferencesView (preferences : Preferences.t) (stats : Stats)
| BusinessView (business : Business.public).

(** The body of [res.status(n).json({ success, message, errors, data })]. *)
Record Json := {
  status : nat;
  success : bool;
  message : string;
  errors : list string;
  data : option Payload
}.

(** A handler either answers or calls [next(error)]. *)
Inductive Reply :=
| Send (r : Json)
| Next (e : Error).

Definition failure (code : nat) (msg : string) : Json :=
  {| status := code; success := false; message := msg; errors := [];
     data := None |}.

Definition ok (code : nat) (msg : string) (d : Payload) : Json :=
  {| status := code; success := true; message := msg; errors := [];
     data := Some d |}.

(** Sequencing of steps that may throw (or, in a handler, return early). *)
#[global] Instance sum_bind {E} : MBind (sum E) :=
  fun A B f m => match m with inl e => inl e | inr a => f a end.

(** A handler that reads: [res.status(200).json({ success: true, data })],
    an error body, or [next(error)]. *)
Inductive ReadReply (D : Type) :=
| Data (d : D)
| Refuse (r : Json)
| Throw (e : Error).
Arguments Data {D}.
Arguments Refuse {D}.
Arguments Throw {D}.

(** ** authController.js *)

Module authController.

Section WithStrings.
Context `{Js.Strings}.

(** [generateToken]. *)
Definition generateToken `{Libs} (w : World) (id : nat) : string :=
  jwt_sign id (JWT_SECRET w) (Js.or_else (JWT_EXPIRE w) "7d") (now w).

Definition msg_required : string :=
  "Please provide all required fields: firstName, lastName, email, password, businessName".

Definition msg_exists : string := "User with this email already exists".

(** The body of the [try] block of [register] after the two guards, run
    against the session's view of the database.  Writes 0, 1 and 2 are
    the three saves and write 3 is [commitTransaction]. *)
Definition register_transaction `{Libs} (w : World)
    (firstName lastName email password businessName : string)
    (phone industry businessEmail businessPhone : option string)
    (session : Db) : Error + (Doc User.t * Doc Business.t * Db) :=
  let tempUser :=
    User.create (ObjectId (users session))
      firstName lastName email password phone User.Owner in
  '(tempUser, users1) ← User.save w 0 false tempUser (users session);
  let business :=
    Business.create (ObjectId (businesses session))
      businessName
      (Js.or_else industry "other")
      (Js.or_opt businessEmail (Some email))
      (Js.or_opt businessPhone phone)
      None
      (_id tempUser) in
  '(business, businesses1) ← Business.save w 1 business (businesses session);
  let tempUser := User.set_business (Some (_id business)) tempUser in
  let tempUser := User.set_lastLogin (Some (now w)) tempUser in
  '(tempUser, users2) ← User.save w 2 true tempUser users1;
  match refusal true (outcome w 3) with
  | Some e => inl e
  | None =>
      inr (tempUser, business,
           {| users := users2; businesses := businesses1 |})
  end.

(** The [catch] block of [register], after the transaction is aborted. *)
Definition register_catch (e : Error) : Reply :=
  match e with
  | ValidationError messages =>
      Send {| status := 400; success := false;
              message := "Validation error"; errors := messages;
              data := None |}
  | DuplicateKey field =>
      Send (failure 400 ("A user with this " ++ field ++ " already exists"))
  | _ => Next e
  end.

(** [exports.register].  The second component is the database other
    requests see afterwards: the session's writes on commit, the
    database as it was on abort. *)
Definition register `{Libs} (w : World) (body : gmap string string)
    (db : Db) : Reply * Db :=
  match body !! "firstName", body !! "lastName", body !! "email",
        body !! "password", body !! "businessName" with
  | Some firstName, Some lastName, Some email, Some password,
    Some businessName =>
      if negb (Js.truthy (Some firstName)) || negb (Js.truthy (Some lastName))
         || negb (Js.truthy (Some email)) || negb (Js.truthy (Some password))
         || negb (Js.truthy (Some businessName))
      then (Send (failure 400 msg_required), db)
      else
        match User.findOne_email email (users db) with
        | Some existingUser => (Send (failure 400 msg_exists), db)
        | None =>
            match register_transaction w
                    firstName lastName email password businessName
                    (body !! "phone") (body !! "industry")
                    (body !! "businessEmail") (body !! "businessPhone")
                    db with
            | inr (tempUser, business, committed) =>
                let token := generateToken w (_id tempUser) in
                (Send (ok 201 "Registration successful"
                         (Session token
                            (User.toPublicProfile tempUser)
                            (Business.toPublicProfile business))),
                 committed)
            | inl error => (register_catch error, db)
            end
        end
  | _, _, _, _, _ => (Send (failure 400 msg_required), db)
  end.

Definition msg_invalid : string := "Invalid credentials".

Definition msg_deactivated : string :=
  "Your account has been deactivated. Please contact support.".

(** [exports.login]. *)
Definition login `{Libs} (w : World) (body : gmap string string) (db : Db)
  : Reply * Db :=
  match body !! "email", body !! "password" with
  | Some email, Some password =>
      if negb (Js.truthy (Some email)) || negb (Js.truthy (Some password))
      then (Send (failure 400 "Please provide email and password"), db)
      else
        match User.findOne_email email (users db) with
        | None => (Send (failure 401 msg_invalid), db)
        | Some user =>
            (* [.populate('business')] *)
            let populated :=
              User.business (fields user)
                ≫= fun id => Business.findById id (businesses db) in
            if negb (User.isActive (fields user))
            then (Send (failure 401 msg_deactivated), db)
            else
              match User.comparePassword password (fields user) with
              | inl e => (Next e, db)
              | inr false => (Send (failure 401 msg_invalid), db)
              | inr true =>
                  match populated with
                  | None =>
                      (Send (failure 403
                         "No business associated with this account. Please contact support."),
                       db)
                  | Some business =>
                      if negb (Business.isActive (fields business))
                      then (Send (failure 403
                              "Your business account is not active. Please contact support."),
                            db)
                      else
                        let token := generateToken w (_id user) in
                        let user := User.set_lastLogin (Some (now w)) user in
                        match User.save w 0 true user (users db) with
                        | inl e => (Next e, db)
                        | inr (user, users1) =>
                            let user := User.set_password None user in
                            (* [user.business] is the populated document *)
                            (Send (ok 200 "Login successful"
                                     (PopulatedSession token
                                        (Populated.toPublicProfile user
                                           (Some business))
                                        (Business.toPublicProfile business))),
                             {| users := users1;
                                businesses := businesses db |})
                        end
                  end
              end
        end
  | _, _ => (Send (failure 400 "Please provide email and password"), db)
  end.

(** [exports.updatePassword]; [id] is [req.user.id]. *)
Definition updatePassword `{Libs} (w : World) (id : nat)
    (body : gmap string string) (db : Db) : Reply * Db :=
  match body !! "currentPassword", body !! "newPassword" with
  | Some currentPassword, Some newPassword =>
      if negb (Js.truthy (Some currentPassword))
         || negb (Js.truthy (Some newPassword))
      then (Send (failure 400
              "Please provide current password and new password"), db)
      else if (Js.length newPassword <? 6)%nat
      then (Send (failure 400
              "New password must be at least 6 characters long"), db)
      else
        match User.findById id (users db) with
        | None => (Send (failure 404 "User not found"), db)
        | Some user =>
            match User.comparePassword currentPassword (fields user) with
            | inl e => (Next e, db)
            | inr false =>
                (Send (failure 401 "Current password is incorrect"), db)
            | inr true =>
                let user := User.set_password (Some newPassword) user in
                match User.save w 0 true user (users db) with
                | inl e => (Next e, db)
                | inr (user, users1) =>
                    let token := generateToken w (_id user) in
                    (Send (ok 200 "Password updated successfully"
                             (Token token)),
                     {| users := users1; businesses := businesses db |})
                end
            end
        end
  | _, _ =>
      (Send (failure 400
         "Please provide current password and new password"), db)
  end.

(** The [data] of [getMe]. *)
Record MeData := {
  me_user : Populated.profile;
  me_business : option Business.public
}.

(** [exports.getMe]; [id] is [req.user.id]. *)
Definition getMe (id : nat) (db : Db) : ReadReply MeData :=
  match User.findById id (users db) with
  | None => Refuse (failure 404 "User not found")
  | Some user =>
      let user := Populated.without_password user in
      let business := Populated.business_of user db in
      Data {| me_user := Populated.toPublicProfile user business;
              me_business := Business.toPublicProfile <$> business |}
  end.

End WithStrings.

End authController.

(** ** businessController.js *)

Module businessController.

(** A field of the body that is expected to hold an array: absent, some
    other value (of which only the truthiness matters), or an array. *)
Inductive field (A : Type) :=
| Undefined
| Other (truthy : bool)
| Array (items : list A).
Arguments Undefined {A}.
Arguments Other {A}.
Arguments Array {A}.

Section WithStrings.
Context `{Js.Strings}.

(** [if (x)]: every array is truthy, the empty one too. *)
Definition supplied {A} (x : field A) : bool :=
  match x with
  | Undefined => false
  | Other t => t
  | Array _ => true
  end.

Record PreferencesBody := {
  categories : field Category.input;
  units : field Unit.input;
  productTypes : field ProductType.input
}.

(** [for (const category of categories) { if (...) return ... }] *)
Fixpoint check_categories (l : list Category.input) : option string :=
  match l with
  | [] => None
  | c :: l' =>
      if Category.missing_name c then Some "Each category must have a name"
      else check_categories l'
  end.

Fixpoint check_units (l : list Unit.input) : option string :=
  match l with
  | [] => None
  | u :: l' =>
      if Unit.missing_name u then Some "Each unit must have a name"
      else if Unit.missing_abbreviation u
      then Some "Each unit must have an abbreviation"
      else check_units l'
  end.

Fixpoint check_productTypes (l : list ProductType.input) : option string :=
  match l with
  | [] => None
  | p :: l' =>
      if ProductType.missing_name p
      then Some "Each product type must have a name"
      else check_productTypes l'
  end.

Definition undefined_trim : Error :=
  TypeError "Cannot read properties of undefined".

(** Whether assigning the array [v] to a path that holds [old] modifies
    it.  The elements of [v] become new subdocuments, each with an [_id]
    of its own, so [v] equals what is there only when both are empty. *)
Definition replaces {A B} (v : list A) (old : list B) : bool :=
  match v, old with
  | [], [] => false
  | _, _ => true
  end.

(** [business.preferences.<path> = v]. *)
Definition set_preferences (path : string) (changed : bool)
    (f : Preferences.t -> Preferences.t) (business : Doc Business.t)
  : Doc Business.t :=
  assign path changed
    (fun b => Business.with_preferences (f (Business.preferences b)) b)
    business.

(** The block [if (categories) { ... }] of [updatePreferences]: [inl] is
    an early return. *)
Definition update_categories (w : World) (categories : field Category.input)
    (business : Doc Business.t) : Reply + Doc Business.t :=
  match categories with
  | Undefined | Other false => inr business
  | Other true => inl (Send (failure 400 "Categories must be an array"))
  | Array categories =>
      let categoryNames := Category.key_of_input <$> categories in
      let duplicates := Js.duplicates categoryNames in
      if (0 <? length duplicates)%nat
      then inl (Send (failure 400
             ("Duplicate category names found: " ++ Js.join ", " duplicates)))
      else
        match check_categories categories with
        | Some msg => inl (Send (failure 400 msg))
        | None =>
            match mapM (Category.normalize (now w)) categories with
            | None => inl (Next undefined_trim)
            | Some v =>
                inr (set_preferences "preferences.categories"
                       (replaces v
                          (Preferences.categories
                             (Business.preferences (fields business))))
                       (Preferences.set_categories v) business)
            end
        end
  end.

Definition update_units (w : World) (units : field Unit.input)
    (business : Doc Business.t) : Reply + Doc Business.t :=
  match units with
  | Undefined | Other false => inr business
  | Other true => inl (Send (failure 400 "Units must be an array"))
  | Array units =>
      let unitAbbreviations := Unit.key_of_input <$> units in
      let duplicates := Js.duplicates unitAbbreviations in
      if (0 <? length duplicates)%nat
      then inl (Send (failure 400
             ("Duplicate unit abbreviations found: "
              ++ Js.join ", " duplicates)))
      else
        match check_units units with
        | Some msg => inl (Send (failure 400 msg))
        | None =>
            match mapM (Unit.normalize (now w)) units with
            | None => inl (Next undefined_trim)
            | Some v =>
                inr (set_preferences "preferences.units"
                       (replaces v
                          (Preferences.units
                             (Business.preferences (fields business))))
                       (Preferences.set_units v) business)
            end
        end
  end.

Definition update_productTypes (w : World)
    (productTypes : field ProductType.input) (business : Doc Business.t)
  : Reply + Doc Business.t :=
  match productTypes with
  | Undefined | Other false => inr business
  | Other true => inl (Send (failure 400 "Product types must be an array"))
  | Array productTypes =>
      let typeNames := ProductType.key_of_input <$> productTypes in
      let duplicates := Js.duplicates typeNames in
      if (0 <? length duplicates)%nat
      then inl (Send (failure 400
             ("Duplicate product type names found: "
              ++ Js.join ", " duplicates)))
      else
        match check_productTypes productTypes with
        | Some msg => inl (Send (failure 400 msg))
        | None =>
            match mapM (ProductType.normalize (now w)) productTypes with
            | None => inl (Next undefined_trim)
            | Some v =>
                inr (set_preferences "preferences.productTypes"
                       (replaces v
                          (Preferences.productTypes
                             (Business.preferences (fields business))))
                       (Preferences.set_productTypes v) business)
            end
        end
  end.

Definition count_active {A} (active : A -> bool) (l : list A) : nat :=
  length (List.filter active l).

(** The [stats] object of the success reply. *)
Definition stats_of (p : Preferences.t) : Stats :=
  let cs := Preferences.categories p in
  let us := Preferences.units p in
  let ps := Preferences.productTypes p in
  {| totalCategories := length cs;
     activeCategories := count_active Category.isActive cs;
     totalUnits := length us;
     activeUnits := count_active Unit.isActive us;
     totalProductTypes := length ps;
     activeProductTypes := count_active ProductType.isActive ps |}.

Definition msg_nothing : string :=
  "At least one preference field (categories, units, or productTypes) must be provided".

(** [exports.updatePreferences]; [id] is [req.user.business._id]. *)
Definition updatePreferences (w : World) (id : nat) (body : PreferencesBody)
    (db : Db) : Reply * Db :=
  match Business.findById id (businesses db) with
  | None => (Send (failure 404 "Business not found"), db)
  | Some business =>
      if negb (supplied (categories body)) && negb (supplied (units body))
         && negb (supplied (productTypes body))
      then (Send (failure 400 msg_nothing), db)
      else
        match
          business ← update_categories w (categories body) business;
          business ← update_units w (units body) business;
          update_productTypes w (productTypes body) business
        with
        | inl reply => (reply, db)
        | inr business =>
            match Business.save w 0 business (businesses db) with
            | inl e => (Next e, db)
            | inr (business, businesses1) =>
                let p := Business.preferences (fields business) in
                (Send (ok 200 "Preferences updated successfully"
                         (PreferencesView p (stats_of p))),
                 {| users := users db; businesses := businesses1 |})
            end
        end
  end.

Record ProfileBody := {
  scalars : gmap string string;
  address : option (gmap string string)
}.

(** [business.path = v]: the value goes through the setters of the path
    ([f] stores the result) and the path is marked modified when what is
    stored then differs from what was there. *)
Definition set_path {B} `{EqDecision B} (path : string)
    (proj : Business.t -> B) (f : Business.t -> Business.t)
    (d : Doc Business.t) : Doc Business.t :=
  assign path (negb (bool_decide (proj (f (fields d)) = proj (fields d)))) f d.

(** [if (v) business.path = v] *)
Definition set_if_truthy {B} `{EqDecision B} (path : string)
    (proj : Business.t -> B) (v : option string)
    (f : string -> Business.t -> Business.t) (d : Doc Business.t)
  : Doc Business.t :=
  match v with
  | Some s => if Js.truthy v then set_path path proj (f s) d else d
  | None => d
  end.

(** [if (v !== undefined) business.path = v] *)
Definition set_if_defined {B} `{EqDecision B} (path : string)
    (proj : Business.t -> B) (v : option string)
    (f : option string -> Business.t -> Business.t) (d : Doc Business.t)
  : Doc Business.t :=
  match v with
  | Some s => set_path path proj (f (Some s)) d
  | None => d
  end.

(** The eleven assignments of [updateProfile], with the setters of the
    schema ([trim], and [lowercase] for the email). *)
Definition apply_profile (body : ProfileBody) (business : Doc Business.t)
  : Doc Business.t :=
  let get := fun k => scalars body !! k in
  let business :=
    set_if_truthy "name" Business.name (get "name")
      (fun s => Business.with_name (Js.trim s)) business in
  let business :=
    set_if_defined "description" Business.description (get "description")
      (fun v => Business.with_description (Js.trim <$> v)) business in
  let business :=
    set_if_truthy "industry" Business.industry (get "industry")
      Business.with_industry business in
  let business :=
    set_if_truthy "email" Business.email (get "email")
      (fun s => Business.with_email (Some (Business.cast_email s)))
      business in
  let business :=
    set_if_defined "phone" Business.phone (get "phone")
      (fun v => Business.with_phone (Js.trim <$> v)) business in
  let business :=
    set_if_defined "website" Business.website (get "website")
      (fun v => Business.with_website (Js.trim <$> v)) business in
  let business :=
    match address body with
    | Some address =>
        (* [{ ...business.address, ...address }] *)
        set_path "address" Business.address
          (fun b => Business.with_address
             (Business.cast_address (address ∪ Business.address b)) b)
          business
    | None => business
    end in
  let business :=
    set_if_truthy "currency" Business.currency (get "currency")
      Business.with_currency business in
  let business :=
    set_if_truthy "timezone" Business.timezone (get "timezone")
      Business.with_timezone business in
  let business :=
    set_if_defined "registrationNumber" Business.registrationNumber
      (get "registrationNumber")
      (fun v => Business.with_registrationNumber (Js.trim <$> v))
      business in
  set_if_defined "taxId" Business.taxId (get "taxId")
    (fun v => Business.with_taxId (Js.trim <$> v)) business.

(** [exports.updateProfile]; [id] is [req.user.business._id]. *)
Definition updateProfile (w : World) (id : nat) (body : ProfileBody)
    (db : Db) : Reply * Db :=
  match Business.findById id (businesses db) with
  | None => (Send (failure 404 "Business not found"), db)
  | Some business =>
      let business := apply_profile body business in
      match Business.save w 0 business (businesses db) with
      | inl e => (Next e, db)
      | inr (business, businesses1) =>
          (Send (ok 200 "Business profile updated successfully"
                   (BusinessView (Business.toPublicProfile business))),
           {| users := users db; businesses := businesses1 |})
      end
  end.

(** [exports.getPreferences]; [id] is [req.user.business._id]. *)
Definition getPreferences (w : World) (id : nat) (db : Db) : Reply * Db :=
  match Business.findById id (businesses db) with
  | None => (Send (failure 404 "Business not found"), db)
  | Some business =>
      let respond (business : Doc Business.t) (db : Db) :=
        let p := Business.preferences (fields business) in
        (Send (ok 200 "Preferences retrieved successfully"
                 (PreferencesView p (stats_of p))), db) in
      if negb (Js.truthy_object (Business.preferences (fields business)))
      then
        let business :=
          assign "preferences" true
            (Business.with_preferences
               {| Preferences.categories := []; Preferences.units := [];
                  Preferences.productTypes := [] |}) business in
        match Business.save w 0 business (businesses db) with
        | inl e => (Next e, db)
        | inr (business, businesses1) =>
            respond business
              {| users := users db; businesses := businesses1 |}
        end
      else respond business db
  end.

(** The [data] of [getProfile]. *)
Record ProfileData := {
  profile_business : Business.public;
  owner_name : string;
  owner_email : string
}.

(** [exports.getProfile]; [.populate('owner', ...)] leaves [null] when the
    owner is gone, and reading a field of it throws. *)
Definition getProfile (id : nat) (db : Db) : ReadReply ProfileData :=
  match Business.findById id (businesses db) with
  | None => Refuse (failure 404 "Business not found")
  | Some business =>
      match User.findById (Business.owner (fields business)) (users db) with
      | None =>
          Throw (TypeError "Cannot read properties of null (reading 'firstName')")
      | Some owner =>
          Data {| profile_business := Business.toPublicProfile business;
                  owner_name :=
                    User.firstName (fields owner) ++ " "
                    ++ User.lastName (fields owner);
                  owner_email := User.email (fields owner) |}
      end
  end.

End WithStrings.

End businessController.

(** ** middleware/auth.js *)

#[global] Instance role_eq_dec : EqDecision User.Role.
Proof. solve_decision. Defined.

Module auth.

(** [String.prototype.split] on a one-character separator. *)
Fixpoint split (sep : ascii) (s : string) : list string :=
  match s with
  | EmptyString => [EmptyString]
  | String a s' =>
      if Ascii.eqb a sep then EmptyString :: split sep s'
      else
        match split sep s' with
        | x :: l => String a x :: l
        | [] => [String a EmptyString]
        end
  end.

(** [jwt.verify(token, secret)] at a given time: the [id] of the payload,
    or [None] when it throws. *)
Class Verifier := {
  jwt_verify : string -> string -> Z -> option nat
}.

(** The [token] variable of [protect] and [optionalAuth]:
    [authorization.split(' ')[1]] under the guard
    [authorization && authorization.startsWith('Bearer')]. *)
Definition token_of (authorization : option string) : option string :=
  match authorization with
  | Some h =>
      if Js.truthy (Some h) && String.prefix "Bearer" h
      then split " " h !! 1%nat
      else None
  | None => None
  end.

Definition msg_no_token : string :=
  "Not authorized to access this route. No token provided.".

(** [exports.protect]: [inl] is the 401 it answers with, [inr] the
    [req.user] it hands to [next()]. *)
Definition protect `{Verifier} (w : World) (authorization : option string)
    (db : Db) : Json + Populated.user :=
  let token := token_of authorization in
  if negb (Js.truthy token) then inl (failure 401 msg_no_token)
  else
    match jwt_verify (default "" token) (JWT_SECRET w) (now w) with
    | None => inl (failure 401 "Not authorized. Invalid token.")
    | Some id =>
        match User.findById id (users db) with
        | None => inl (failure 401 "User no longer exists")
        | Some user =>
            let business :=
              Populated.summary_of <$> Populated.business_of user db in
            let user := Populated.without_password user in
            if negb (User.isActive (fields user))
            then inl (failure 401 "Your account has been deactivated")
            else inr {| Populated.account := user;
                        Populated.business := business |}
        end
    end.

(** [exports.authorize(...roles)]: [None] is [next()]. *)
Definition authorize (roles : list User.Role) (user : Populated.user)
  : option Json :=
  let role := User.role (fields (Populated.account user)) in
  if negb (bool_decide (role ∈ roles))
  then Some (failure 403
         ("User role '" ++ User.role_name role
          ++ "' is not authorized to access this route"))
  else None.

(** [exports.optionalAuth]: the [req.user] it attaches, if any; it always
    calls [next()]. *)
Definition optionalAuth `{Verifier} (w : World)
    (authorization : option string) (db : Db) : option (Doc User.t) :=
  let token := token_of authorization in
  if Js.truthy token then
    match jwt_verify (default "" token) (JWT_SECRET w) (now w) with
    | None => None
    | Some id =>
        match User.findById id (users db) with
        | Some user =>
            let user := Populated.without_password user in
            if User.isActive (fields user) then Some user else None
        | None => None
        end
    end
  else None.

End auth.

(** ** routes/businessRoutes.js and the protected routes of authRoutes.js *)

Module routes.

Section WithStrings.
Context `{Js.Strings}.

(** [req.user.business._id]; the read throws when the business did not
    populate. *)
Definition business_id (user : Populated.user) : Error + nat :=
  match Populated.business user with
  | Some b => inr (Populated.sum_id b)
  | None => inl (TypeError "Cannot read properties of null (reading '_id')")
  end.

(** [router.get('/profile', businessController.getProfile)] behind
    [router.use(protect)]. *)
Definition get_profile `{auth.Verifier} (w : World)
    (authorization : option string) (db : Db)
  : ReadReply businessController.ProfileData :=
  match auth.protect w authorization db with
  | inl r => Refuse r
  | inr user =>
      match business_id user with
      | inl e => Throw e
      | inr id => businessController.getProfile id db
      end
  end.

(** [router.put('/profile', authorize('owner'), updateProfile)]. *)
Definition put_profile `{auth.Verifier} (w : World)
    (authorization : option string) (body : businessController.ProfileBody)
    (db : Db) : Reply * Db :=
  match auth.protect w authorization db with
  | inl r => (Send r, db)
  | inr user =>
      match auth.authorize [User.Owner] user with
      | Some r => (Send r, db)
      | None =>
          match business_id user with
          | inl e => (Next e, db)
          | inr id => businessController.updateProfile w id body db
          end
      end
  end.

(** [router.get('/preferences', businessController.getPreferences)]. *)
Definition get_preferences `{auth.Verifier} (w : World)
    (authorization : option string) (db : Db) : Reply * Db :=
  match auth.protect w authorization db with
  | inl r => (Send r, db)
  | inr user =>
      match business_id user with
      | inl e => (Next e, db)
      | inr id => businessController.getPreferences w id db
      end
  end.

(** [router.put('/preferences', authorize('owner'), preferencesValidation,
    validate, updatePreferences)].  The verdict of the express-validator
    chain is taken as given: [validation body] is the 400 it answers
    with, if any. *)
Definition put_preferences `{auth.Verifier} (w : World)
    (validation : businessController.PreferencesBody -> option Json)
    (authorization : option string)
    (body : businessController.PreferencesBody) (db : Db) : Reply * Db :=
  match auth.protect w authorization db with
  | inl r => (Send r, db)
  | inr user =>
      match auth.authorize [User.Owner] user with
      | Some r => (Send r, db)
      | None =>
          match validation body with
          | Some r => (Send r, db)
          | None =>
              match business_id user with
              | inl e => (Next e, db)
              | inr id => businessController.updatePreferences w id body db
              end
          end
      end
  end.

(** [router.get('/me', protect, authController.getMe)]. *)
Definition get_me `{auth.Verifier} (w : World)
    (authorization : option string) (db : Db)
  : ReadReply authController.MeData :=
  match auth.protect w authorization db with
  | inl r => Refuse r
  | inr user => authController.getMe (_id (Populated.account user)) db
  end.

(** [router.put('/update-password', protect, updatePassword)]. *)
Definition put_update_password `{Libs} `{auth.Verifier} (w : World)
    (authorization : option string) (body : gmap string string) (db : Db)
  : Reply * Db :=
  match auth.protect w authorization db with
  | inl r => (Send r, db)
  | inr user =>
      authController.updatePassword w (_id (Populated.account user)) body db
  end.

End WithStrings.

End routes.

Import businessController.

(** ** Vocabulary of the specification *)

Section Vocabulary.
Context `{Js.Strings}.

(** [x] occurs at two positions of [l]. *)
Definition repeated {A} (l : list A) (x : A) : Prop :=
  exists i j, i < j /\ l !! i = Some x /\ l !! j = Some x.

(** The account and the business a registration stores. *)
Definition registered_user `{Libs} (w : World)
    (firstName lastName email password : string) (phone : option string)
    (bid : nat) : User.t :=
  {| User.firstName := Js.trim firstName;
     User.lastName := Js.trim lastName;
     User.email := User.cast_email email;
     User.password := Some (bcrypt_hash password (salt w));
     User.phone := Js.trim <$> phone;
     User.business := Some bid;
     User.role := User.Owner;
     User.isActive := true;
     User.isEmailVerified := false;
     User.lastLogin := Some (now w);
     User.resetPasswordToken := None;
     User.resetPasswordExpire := None;
     User.createdAt := Some (now w);
     User.updatedAt := Some (now w) |}.

Definition registered_business (w : World) (businessName email : string)
    (phone industry businessEmail businessPhone : option string)
    (uid : nat) : Business.t :=
  {| Business.name := Js.trim businessName;
     Business.description := None;
     Business.industry := Js.or_else industry "other";
     Business.email :=
       Business.cast_email <$> Js.or_opt businessEmail (Some email);
     Business.phone := Js.trim <$> Js.or_opt businessPhone phone;
     Business.website := None;
     Business.address := {[ "country" := "Nigeria" ]};
     Business.registrationNumber := None;
     Business.taxId := None;
     Business.currency := "NGN";
     Business.timezone := "Africa/Lagos";
     Business.preferences := Preferences.schema_default;
     Business.owner := uid;
     Business.isActive := true;
     Business.subscriptionStatus := "trial";
     Business.subscriptionPlan := "free";
     Business.logo := None;
     Business.totalEmployees := 1;
     Business.totalRevenue := 0;
     Business.createdAt := Some (now w);
     Business.updatedAt := Some (now w) |}.

Definition required_fields : list string :=
  ["firstName"; "lastName"; "email"; "password"; "businessName"].

(** The request carries every required field, with a value that passes
    the guard of [register]. *)
Definition complete (body : gmap string string) : Prop :=
  Forall (fun k => Js.truthy (body !! k) = true) required_fields.

(** An account with the email of the request exists; emails are compared
    as the schema stores them. *)
Definition email_taken (body : gmap string string) (db : Db) : Prop :=
  exists e id u,
    body !! "email" = Some e /\ users db !! id = Some u
    /\ User.email u = User.cast_email e.

(** No store operation fails. *)
Definition no_write_fails (w : World) : Prop :=
  forall k, outcome w k = Accepted.

(** The [k]-th write of a registration is refused; the first save skips
    validation. *)
Definition refused (w : World) (k : nat) : Prop :=
  is_Some (refusal (bool_decide (k <> 0)) (outcome w k)).

(** Every account with this email is active. *)
Definition active_if_present (db : Db) (email : string) : Prop :=
  forall id u, users db !! id = Some u ->
    User.email u = User.cast_email email -> User.isActive u = true.

(** An account with this email exists and every such account is
    deactivated. *)
Definition all_deactivated (db : Db) (email : string) : Prop :=
  (exists id u, users db !! id = Some u
     /\ User.email u = User.cast_email email)
  /\ forall id u, users db !! id = Some u ->
       User.email u = User.cast_email email -> User.isActive u = false.

(** The password matches the stored hash of no account with this email. *)
Definition password_mismatch `{Libs} (db : Db) (email password : string)
  : Prop :=
  forall id u, users db !! id = Some u ->
    User.email u = User.cast_email email ->
    exists h, User.password u = Some h /\ bcrypt_compare password h = false.

(** A name (or abbreviation) that passes the required-field check. *)
Definition named (v : option string) : Prop :=
  exists s, v = Some s /\ Js.trim s <> "".

(** The normalized uniqueness keys of a submitted collection. *)
Definition category_keys (f : field Category.input) : list (option string) :=
  match f with Array l => Category.key_of_input <$> l | _ => [] end.

Definition unit_keys (f : field Unit.input) : list (option string) :=
  match f with Array l => Unit.key_of_input <$> l | _ => [] end.

Definition type_keys (f : field ProductType.input) : list (option string) :=
  match f with Array l => ProductType.key_of_input <$> l | _ => [] end.

(** Some supplied collection has two elements with the same key. *)
Definition duplicate_in (body : PreferencesBody) : Prop :=
  (exists k, repeated (category_keys (categories body)) k)
  \/ (exists k, repeated (unit_keys (units body)) k)
  \/ (exists k, repeated (type_keys (productTypes body)) k).

(** A collection that the handler lets through: not supplied, or an array
    with distinct keys whose elements carry the required fields. *)
Definition categories_pass (f : field Category.input) : Prop :=
  match f with
  | Undefined | Other false => True
  | Other true => False
  | Array l =>
      NoDup (Category.key_of_input <$> l)
      /\ Forall (fun c => named (Category.in_name c)) l
  end.

Definition units_pass (f : field Unit.input) : Prop :=
  match f with
  | Undefined | Other false => True
  | Other true => False
  | Array l =>
      NoDup (Unit.key_of_input <$> l)
      /\ Forall (fun u => named (Unit.in_name u)
                          /\ named (Unit.in_abbreviation u)) l
  end.

(** The keys of every stored collection are pairwise distinct. *)
Definition distinct_keys (p : Preferences.t) : Prop :=
  NoDup (Category.key <$> Preferences.categories p)
  /\ NoDup (Unit.key <$> Preferences.units p)
  /\ NoDup (ProductType.key <$> Preferences.productTypes p).

(** The field is supplied as the empty string, or is absent. *)
Definition ignored_or_absent (body : ProfileBody) (k : string) : Prop :=
  scalars body !! k = Some "" \/ scalars body !! k = None.

(** The document in memory has the stored fields on every path that is
    not marked modified: what holds of a document read from the store and
    then assigned to. *)
Definition account_tracks (d : Doc User.t) (stored : User.t) : Prop :=
  User.merge (modifiedPaths d) (fields d) stored = fields d.

Definition business_tracks (d : Doc Business.t) (stored : Business.t)
  : Prop :=
  Business.merge (modifiedPaths d) (fields d) stored = fields d.

(** [with_] stores a value under the path [path] of a business, which
    [proj] reads. *)
Definition writes {B} (path : string) (proj : Business.t -> B)
    (with_ : B -> Business.t -> Business.t) : Prop :=
  (forall x, with_ (proj x) x = x)
  /\ (forall v x, proj (with_ v x) = v)
  /\ forall v paths x dst,
       Business.merge (path :: paths) (with_ v x) dst
       = with_ v (Business.merge paths x dst).

(** The databases the handlers can produce from an empty one. *)
Inductive reachable `{Libs} : Db -> Prop :=
| reach_empty :
    reachable {| users := ∅; businesses := ∅ |}
| reach_register w body db :
    reachable db -> reachable (authController.register w body db).2
| reach_login w body db :
    reachable db -> reachable (authController.login w body db).2
| reach_updatePassword w id body db :
    reachable db -> reachable (authController.updatePassword w id body db).2
| reach_updatePreferences w id body db :
    reachable db -> reachable (updatePreferences w id body db).2
| reach_updateProfile w id body db :
    reachable db -> reachable (updateProfile w id body db).2.

(** Every stored business has pairwise distinct keys. *)
Definition all_distinct (db : Db) : Prop :=
  forall id b, businesses db !! id = Some b ->
    distinct_keys (Business.preferences b).

(** ** Vocabulary of the routes and of the invariants *)

Definition spaceless (t : string) : Prop :=
  Forall (fun a => a <> " "%char) (list_ascii_of_string t).

Definition authenticates `{auth.Verifier} (w : World)
    (authorization : option string) (db : Db) (id : nat) (u : User.t)
  : Prop :=
  exists token,
    auth.token_of authorization = Some token /\ token <> ""
    /\ auth.jwt_verify token (JWT_SECRET w) (now w) = Some id
    /\ users db !! id = Some u /\ User.isActive u = true.

(** The handler answered with [success: true]. *)
Definition succeeded (r : Reply) : bool :=
  match r with
  | Send j => success j
  | Next _ => false
  end.

(** The hash an accepted change of password stores. *)
Definition rotated `{Libs} (w : World) (u : User.t) (newPassword : string) : string :=
  if decide (User.password u = Some newPassword) then newPassword
  else bcrypt_hash newPassword (salt w).

(** A populated profile with the business reduced to its identifier. *)
Definition depopulate (p : Populated.profile) : User.public :=
  {| User.pub_id := Populated.pub_id p;
     User.pub_firstName := Populated.pub_firstName p;
     User.pub_lastName := Populated.pub_lastName p;
     User.pub_email := Populated.pub_email p;
     User.pub_phone := Populated.pub_phone p;
     User.pub_role := Populated.pub_role p;
     User.pub_business := _id <$> Populated.pub_business p;
     User.pub_isActive := Populated.pub_isActive p;
     User.pub_isEmailVerified := Populated.pub_isEmailVerified p;
     User.pub_createdAt := Populated.pub_createdAt p |}.


(** The names, and for units the abbreviations, that a submitted
    collection is stored under. *)
Definition category_names (l : list Category.input) : list string :=
  (fun c => Js.trim (default "" (Category.in_name c))) <$> l.

Definition unit_names (l : list Unit.input) : list string :=
  (fun u => Js.trim (default "" (Unit.in_name u))) <$> l.

Definition unit_abbreviations (l : list Unit.input) : list string :=
  (fun u => Js.toUpperCase (Js.trim (default "" (Unit.in_abbreviation u))))
    <$> l.

Definition type_names (l : list ProductType.input) : list string :=
  (fun p => Js.trim (default "" (ProductType.in_name p))) <$> l.

(** Every account refers to a stored business that it owns, and every
    business is owned by a stored account that refers to it. *)
Definition linked (db : Db) : Prop :=
  (forall id u, users db !! id = Some u ->
     exists bid b, User.business u = Some bid
       /\ businesses db !! bid = Some b /\ Business.owner b = id)
  /\ (forall bid b, businesses db !! bid = Some b ->
        exists u, users db !! Business.owner b = Some u
          /\ User.business u = Some bid).

(** No two accounts have the same email. *)
Definition unique_emails (db : Db) : Prop :=
  forall id1 id2 u1 u2,
    users db !! id1 = Some u1 -> users db !! id2 = Some u2 ->
    User.email u1 = User.email u2 -> id1 = id2.

(** An account as the handlers leave it. *)
Definition standing (u : User.t) : Prop :=
  User.role u = User.Owner /\ User.isActive u = true
  /\ is_Some (User.password u)
  /\ User.cast_email (User.email u) = User.email u.

(** A stored string that is trimmed and not empty. *)
Definition tidy (s : string) : Prop := Js.trim s = s /\ s <> "".

Definition tidy_unit (u : Unit.t) : Prop :=
  tidy (Unit.name u) /\ tidy (Unit.abbreviation u)
  /\ Js.toUpperCase (Unit.abbreviation u) = Unit.abbreviation u.

Definition tidy_preferences (p : Preferences.t) : Prop :=
  Forall (fun c => tidy (Category.name c)) (Preferences.categories p)
  /\ Forall tidy_unit (Preferences.units p)
  /\ Forall (fun t => tidy (ProductType.name t)) (Preferences.productTypes p).

(** What holds of every database the handlers can produce. *)
Definition consistent (db : Db) : Prop :=
  linked db /\ unique_emails db
  /\ (forall id u, users db !! id = Some u -> standing u)
  /\ (forall id b, businesses db !! id = Some b ->
        Business.isActive b = true
        /\ tidy_preferences (Business.preferences b)).

End Vocabulary.

(** ** Sample data

    A toy instance of the libraries and the data of the scenarios of the
    specification, on which the properties below are also run. *)

Definition sample_libs : Libs :=
  {| bcrypt_hash := fun plain salt => salt ++ plain;
     bcrypt_compare := fun candidate hash =>
       String.eqb
         (String.substring 29 (String.length hash - 29) hash) candidate;
     jwt_sign := fun id secret expiresIn iat =>
       secret ++ "." ++ expiresIn ++ "." ++ pretty id |}.

(** The built-ins on the ASCII range, where they agree with those of the
    engine: the six white-space characters and the letters [A-Z], [a-z];
    other bytes are kept, and the length is the number of bytes.  The
    sample data is ASCII. *)
Module AsciiText.

(** The white space of the ASCII range. *)
Definition is_space (a : ascii) : bool :=
  match a with
  | " "%char | "009"%char | "010"%char | "011"%char | "012"%char
  | "013"%char => true
  | _ => false
  end.

Fixpoint trimStart (s : string) : string :=
  match s with
  | String a s' => if is_space a then trimStart s' else s
  | EmptyString => EmptyString
  end.

Fixpoint trimEnd (s : string) : string :=
  match s with
  | EmptyString => EmptyString
  | String a s' =>
      match trimEnd s' with
      | EmptyString => if is_space a then EmptyString else String a EmptyString
      | t => String a t
      end
  end.

Definition trim (s : string) : string := trimEnd (trimStart s).

Definition is_upper (a : ascii) : bool :=
  let n := nat_of_ascii a in (65 <=? n)%nat && (n <=? 90)%nat.

Definition is_lower (a : ascii) : bool :=
  let n := nat_of_ascii a in (97 <=? n)%nat && (n <=? 122)%nat.

(** Case mapping of one character; bytes outside [A-Za-z] are kept. *)
Definition lower_char (a : ascii) : ascii :=
  if is_upper a then ascii_of_nat (nat_of_ascii a + 32) else a.

Definition upper_char (a : ascii) : ascii :=
  if is_lower a then ascii_of_nat (nat_of_ascii a - 32) else a.

Fixpoint map_chars (f : ascii -> ascii) (s : string) : string :=
  match s with
  | EmptyString => EmptyString
  | String a s' => String (f a) (map_chars f s')
  end.

Definition toLowerCase : string -> string := map_chars lower_char.
Definition toUpperCase : string -> string := map_chars upper_char.

Definition strings : Js.Strings :=
  {| Js.trim := trim; Js.toLowerCase := toLowerCase;
     Js.toUpperCase := toUpperCase; Js.length := String.length |}.

End AsciiText.

Section Sample.
#[local] Existing Instance sample_libs.
#[local] Existing Instance AsciiText.strings.

Definition sample_world : World :=
  {| now := 1700000000000;
     salt := "$2a$10$N9qo8uLOickgx2ZMRZoMye";
     outcomes := [];
     JWT_SECRET := "secret";
     JWT_EXPIRE := None |}.

(** A minute later. *)
Definition later_world : World :=
  {| now := 1700000060000;
     salt := "$2a$10$N9qo8uLOickgx2ZMRZoMye";
     outcomes := [];
     JWT_SECRET := "secret";
     JWT_EXPIRE := None |}.

Definition empty_db : Db := {| users := ∅; businesses := ∅ |}.

Definition john : gmap string string :=
  list_to_map
    [ ("firstName", "John"); ("lastName", "Doe");
      ("email", "john@example.com"); ("password", "Password123");
      ("phone", "+2348012345678");
      ("businessName", "John's Electronics"); ("industry", "retail") ].

Definition john_account : User.t :=
  registered_user sample_world "John" "Doe" "john@example.com"
    "Password123" (Some "+2348012345678") 0.

Definition john_business : Business.t :=
  registered_business sample_world "John's Electronics" "john@example.com"
    (Some "+2348012345678") (Some "retail") None None 0.

Definition john_session : Payload :=
  Session (authController.generateToken sample_world 0)
    (User.toPublicProfile (hydrate 0 john_account))
    (Business.toPublicProfile (hydrate 0 john_business)).

(** The database after John registered. *)
Definition john_db : Db :=
  {| users := {[ 0 := john_account ]};
     businesses := {[ 0 := john_business ]} |}.

(** The same with the bootstrap preferences in place. *)
Definition stocked_business : Business.t :=
  Business.with_preferences (Preferences.bootstrap 0) john_business.

Definition stocked_db : Db :=
  {| users := {[ 0 := john_account ]};
     businesses := {[ 0 := stocked_business ]} |}.

(** An account switched off by an administrator. *)
Definition deactivated (u : User.t) : User.t :=
  {| User.firstName := User.firstName u; User.lastName := User.lastName u;
     User.email := User.email u; User.password := User.password u;
     User.phone := User.phone u; User.business := User.business u;
     User.role := User.role u; User.isActive := false;
     User.isEmailVerified := User.isEmailVerified u;
     User.lastLogin := User.lastLogin u;
     User.resetPasswordToken := User.resetPasswordToken u;
     User.resetPasswordExpire := User.resetPasswordExpire u;
     User.createdAt := User.createdAt u; User.updatedAt := User.updatedAt u |}.

(** The database after John registered and was deactivated. *)
Definition inactive_db : Db :=
  {| users := {[ 0 := deactivated john_account ]};
     businesses := {[ 0 := john_business ]} |}.

Definition credentials (email password : string) : gmap string string :=
  {[ "email" := email; "password" := password ]}.

Definition unit_input (name abbreviation : string) : Unit.input :=
  {| Unit.in_name := Some name; Unit.in_abbreviation := Some abbreviation;
     Unit.in_type := None; Unit.in_isActive := None;
     Unit.in_createdAt := None |}.

(** [units: [{name:"Box", abbreviation:"bx"}, {name:"Pack", abbreviation:"BX"}]] *)
Definition box_pack : PreferencesBody :=
  {| categories := Undefined;
     units := Array [unit_input "Box" "bx"; unit_input "Pack" "BX"];
     productTypes := Undefined |}.

(** The same units with [categories: [{name: "   "}]]. *)
Definition unnamed_box_pack : PreferencesBody :=
  {| categories :=
       Array [ {| Category.in_name := Some "   ";
                  Category.in_description := None;
                  Category.in_icon := None; Category.in_color := None;
                  Category.in_isActive := None;
                  Category.in_createdAt := None |} ];
     units := Array [unit_input "Box" "bx"; unit_input "Pack" "BX"];
     productTypes := Undefined |}.

Definition only_box : PreferencesBody :=
  {| categories := Undefined;
     units := Array [unit_input "Box" "bx"];
     productTypes := Undefined |}.

(** [productTypes: [{name:"Gadget"}]] *)
Definition gadget : PreferencesBody :=
  {| categories := Undefined;
     units := Undefined;
     productTypes :=
       Array [ {| ProductType.in_name := Some "Gadget";
                  ProductType.in_description := None;
                  ProductType.in_requiresSerialNumber := None;
                  ProductType.in_requiresExpiryDate := None;
                  ProductType.in_trackInventory := None;
                  ProductType.in_isActive := None;
                  ProductType.in_createdAt := None |} ] |}.

(** [{name: "", description: ""}] *)
Definition blank_profile : ProfileBody :=
  {| scalars := {[ "name" := ""; "description" := "" ]};
     address := None |}.

(** The verifier that goes with [sample_libs]: it reads back the
    identifiers up to 15 from a token signed with the same secret for
    seven days. *)
Definition sample_verifier : auth.Verifier :=
  {| auth.jwt_verify := fun token secret time =>
       snd <$> list_find
                 (fun id => token = secret ++ ".7d." ++ pretty id)
                 (seq 0 16) |}.

(** The token John was given, and the header that carries it. *)
Definition john_token : string := "secret.7d.0".

Definition john_header : option string := Some "Bearer secret.7d.0".

(** [req.user] for that header. *)
Definition john_request : Populated.user :=
  {| Populated.account := Populated.without_password (hydrate 0 john_account);
     Populated.business :=
       Some (Populated.summary_of (hydrate 0 john_business)) |}.

(** The same database with John taken on as an employee. *)
Definition employed (u : User.t) : User.t :=
  {| User.firstName := User.firstName u; User.lastName := User.lastName u;
     User.email := User.email u; User.password := User.password u;
     User.phone := User.phone u; User.business := User.business u;
     User.role := User.Employee; User.isActive := User.isActive u;
     User.isEmailVerified := User.isEmailVerified u;
     User.lastLogin := User.lastLogin u;
     User.resetPasswordToken := User.resetPasswordToken u;
     User.resetPasswordExpire := User.resetPasswordExpire u;
     User.createdAt := User.createdAt u; User.updatedAt := User.updatedAt u |}.

Definition staff_db : Db :=
  {| users := {[ 0 := employed john_account ]};
     businesses := {[ 0 := john_business ]} |}.

(** [{name: " Doe & Sons ", address: {city: " Lagos "}}] *)
Definition renaming : ProfileBody :=
  {| scalars := {[ "name" := " Doe & Sons " ]};
     address := Some {[ "city" := " Lagos " ]} |}.

(** The business after that update, made a minute after the
    registration. *)
Definition renamed_business : Business.t :=
  Business.stamp false (now later_world)
    (fields (apply_profile renaming (hydrate 0 john_business))).

Definition renamed_db : Db :=
  {| users := users john_db; businesses := {[ 0 := renamed_business ]} |}.

(** The preferences after the replace [only_box]. *)
Definition boxed : Preferences.t :=
  {| Preferences.categories := [];
     Preferences.units :=
       [ {| Unit.name := "Box"; Unit.abbreviation := "BX";
            Unit.type := "quantity"; Unit.isActive := true;
            Unit.createdAt := now sample_world |} ];
     Preferences.productTypes := [] |}.

Definition boxed_db : Db :=
  {| users := users john_db;
     businesses :=
       {[ 0 := Business.stamp false (now sample_world)
                 (Business.with_preferences boxed john_business) ]} |}.

(** [{currentPassword: "Password123", newPassword: "Secret456"}] *)
Definition new_password : gmap string string :=
  {[ "currentPassword" := "Password123"; "newPassword" := "Secret456" ]}.

(** John's registration again, the email written otherwise. *)
Definition john_again : gmap string string :=
  <["email" := " John@Example.COM "]> john.


(** A store that refuses the second write of a request as invalid, and
    one whose validators would object to the first. *)
Definition strict_world : World :=
  {| now := 1700000000000;
     salt := "$2a$10$N9qo8uLOickgx2ZMRZoMye";
     outcomes := [Accepted; Invalid ["Business name is required"]];
     JWT_SECRET := "secret";
     JWT_EXPIRE := None |}.

Definition fussy_world : World :=
  {| now := 1700000000000;
     salt := "$2a$10$N9qo8uLOickgx2ZMRZoMye";
     outcomes := [Invalid ["Path `business` is required."]];
     JWT_SECRET := "secret";
     JWT_EXPIRE := None |}.

End Sample.

(** * Properties *)

(** ** Strings *)

(** The functions of the sample data obey the laws. *)
Section AsciiStrings.

Implicit Types (s : string) (a : ascii).

Lemma is_space_lower a :
  AsciiText.is_space (AsciiText.lower_char a) = AsciiText.is_space a.
Proof. destruct a as [[] [] [] [] [] [] [] []]; reflexivity. Qed.

Lemma is_space_upper a :
  AsciiText.is_space (AsciiText.upper_char a) = AsciiText.is_space a.
Proof. destruct a as [[] [] [] [] [] [] [] []]; reflexivity. Qed.

Lemma upper_char_idemp a :
  AsciiText.upper_char (AsciiText.upper_char a) = AsciiText.upper_char a.
Proof. destruct a as [[] [] [] [] [] [] [] []]; reflexivity. Qed.

Lemma lower_char_idemp a :
  AsciiText.lower_char (AsciiText.lower_char a) = AsciiText.lower_char a.
Proof. destruct a as [[] [] [] [] [] [] [] []]; reflexivity. Qed.

Lemma map_chars_idemp f s :
  (forall a, f (f a) = f a) ->
  AsciiText.map_chars f (AsciiText.map_chars f s) = AsciiText.map_chars f s.
Proof.
  intros Hf. induction s as [|a s IH]; simpl; [done|]. by rewrite Hf, IH.
Qed.

Lemma map_chars_nil f s : AsciiText.map_chars f s = "" -> s = "".
Proof. by destruct s. Qed.

Section Map.
Variable f : ascii -> ascii.
Hypothesis f_space : forall a, AsciiText.is_space (f a) = AsciiText.is_space a.

Lemma trimStart_map s :
  AsciiText.trimStart (AsciiText.map_chars f s)
  = AsciiText.map_chars f (AsciiText.trimStart s).
Proof.
  induction s as [|a s IH]; simpl; [done|].
  rewrite f_space. by destruct (AsciiText.is_space a).
Qed.

Lemma trimEnd_map s :
  AsciiText.trimEnd (AsciiText.map_chars f s)
  = AsciiText.map_chars f (AsciiText.trimEnd s).
Proof.
  induction s as [|a s IH]; simpl; [done|].
  rewrite IH, f_space.
  destruct (AsciiText.trimEnd s); simpl; [|done].
  by destruct (AsciiText.is_space a).
Qed.

Lemma trim_map s :
  AsciiText.trim (AsciiText.map_chars f s)
  = AsciiText.map_chars f (AsciiText.trim s).
Proof. unfold AsciiText.trim. by rewrite trimStart_map, trimEnd_map. Qed.
End Map.

Lemma trimEnd_idemp s :
  AsciiText.trimEnd (AsciiText.trimEnd s) = AsciiText.trimEnd s.
Proof.
  induction s as [|a s IH]; simpl; [done|].
  destruct (AsciiText.trimEnd s) as [|b t] eqn:E.
  - destruct (AsciiText.is_space a) eqn:Ea; simpl; [done|]. by rewrite Ea.
  - change (AsciiText.trimEnd (String a (String b t))) with
      (match AsciiText.trimEnd (String b t) with
       | EmptyString =>
           if AsciiText.is_space a then EmptyString else String a EmptyString
       | u => String a u
       end).
    by rewrite IH.
Qed.

(** A string that does not start with white space keeps its head under
    [trimEnd]. *)
Lemma trimStart_trimEnd s :
  AsciiText.trimStart s = s ->
  AsciiText.trimStart (AsciiText.trimEnd s) = AsciiText.trimEnd s.
Proof.
  destruct s as [|a s]; simpl; [done|].
  destruct (AsciiText.is_space a) eqn:Ea.
  - intros H. exfalso.
    assert (Hlen : forall u,
              String.length (AsciiText.trimStart u) <= String.length u).
    { induction u as [|c u IHu]; simpl; [lia|].
      destruct (AsciiText.is_space c); simpl; lia. }
    specialize (Hlen s). rewrite H in Hlen. simpl in Hlen. lia.
  - intros _. destruct (AsciiText.trimEnd s); simpl; by rewrite Ea.
Qed.

Lemma trimStart_idemp s :
  AsciiText.trimStart (AsciiText.trimStart s) = AsciiText.trimStart s.
Proof.
  induction s as [|a s IH]; simpl; [done|].
  destruct (AsciiText.is_space a) eqn:Ea; [done|]. simpl. by rewrite Ea.
Qed.

Lemma ascii_trim_idemp s :
  AsciiText.trim (AsciiText.trim s) = AsciiText.trim s.
Proof.
  unfold AsciiText.trim.
  rewrite (trimStart_trimEnd (AsciiText.trimStart s))
    by apply trimStart_idemp.
  apply trimEnd_idemp.
Qed.

Lemma ascii_lawful : @Js.Lawful AsciiText.strings.
Proof.
  split; simpl.
  - apply ascii_trim_idemp.
  - intros s. apply (trim_map _ is_space_lower).
  - intros s. apply (trim_map _ is_space_upper).
  - intros s. apply map_chars_idemp, lower_char_idemp.
  - intros s. apply map_chars_idemp, upper_char_idemp.
  - intros s. apply map_chars_nil.
  - reflexivity.
  - reflexivity.
Qed.

End AsciiStrings.

(** What follows from the laws. *)
Section Strings.
Context `{Js.Lawful}.

Implicit Types (s : string).

Lemma trim_idemp s : Js.trim (Js.trim s) = Js.trim s.
Proof. apply Js.trim_trim. Qed.

Lemma toUpperCase_idemp s :
  Js.toUpperCase (Js.toUpperCase s) = Js.toUpperCase s.
Proof. apply Js.toUpperCase_twice. Qed.

Lemma toLowerCase_idemp s :
  Js.toLowerCase (Js.toLowerCase s) = Js.toLowerCase s.
Proof. apply Js.toLowerCase_twice. Qed.

Lemma trim_upper s : Js.trim (Js.toUpperCase s) = Js.toUpperCase (Js.trim s).
Proof. apply Js.trim_toUpperCase. Qed.

Lemma trim_lower_trim s :
  Js.trim (Js.toLowerCase (Js.trim s)) = Js.trim (Js.toLowerCase s).
Proof. by rewrite !Js.trim_toLowerCase, trim_idemp. Qed.

Lemma trim_upper_trim s :
  Js.trim (Js.toUpperCase (Js.trim s)) = Js.trim (Js.toUpperCase s).
Proof. by rewrite !Js.trim_toUpperCase, trim_idemp. Qed.

Lemma truthy_Some s : Js.truthy (Some s) = true <-> s <> "".
Proof.
  simpl. destruct (String.eqb_spec s ""); simpl; split; congruence.
Qed.

End Strings.

(** ** The duplicate check *)

Section Duplicates.

Context {A : Type} `{EqDecision A}.
Implicit Types (l : list A) (x : A).

Lemma indexOf_Some l x i :
  Js.indexOf l x = Some i <->
  l !! i = Some x /\ forall j, j < i -> l !! j <> Some x.
Proof.
  revert i. induction l as [|y l IH]; intros i; simpl.
  - split; [done|]. by intros [? _].
  - destruct (decide (y = x)) as [->|Hne].
    + split.
      * intros [= <-]. split; [done|]. intros j Hj. lia.
      * intros [Hi Hfirst]. destruct i as [|i]; [done|].
        exfalso. apply (Hfirst 0); [lia|done].
    + destruct i as [|i].
      * split.
        -- destruct (Js.indexOf l x); simpl; discriminate.
        -- intros [[= ?] _]. done.
      * split.
        -- intros Hidx.
           destruct (Js.indexOf l x) as [k|] eqn:E; simpl in Hidx; [|done].
           injection Hidx as ->. destruct (proj1 (IH i) eq_refl) as [E1 E2].
           split; [done|]. intros [|j] Hj; simpl; [congruence|].
           apply E2. lia.
        -- intros [Hi Hfirst].
           assert (Hi' : Js.indexOf l x = Some i).
           { apply IH. split; [done|]. intros j Hj.
             apply (Hfirst (S j)). lia. }
           by rewrite Hi'.
Qed.

(** [indexOf] finds the first occurrence of anything that occurs. *)
Lemma indexOf_first l x j :
  l !! j = Some x -> exists i, Js.indexOf l x = Some i /\ i <= j.
Proof.
  revert j. induction l as [|y l IH]; intros j Hj; [done|]. simpl.
  destruct (decide (y = x)) as [->|Hne].
  - exists 0. split; [done|lia].
  - destruct j as [|j]; simpl in Hj; [congruence|].
    destruct (IH j Hj) as (i & -> & Hle). exists (S i). split; [done|lia].
Qed.

Lemma elem_of_filter_from (p : A -> nat -> bool) i l x :
  x ∈ Js.filter_from p i l <->
  exists j, l !! j = Some x /\ p x (i + j) = true.
Proof.
  revert i. induction l as [|y l IH]; intros i; simpl.
  - split; [by intros ?%elem_of_nil | by intros (j & ? & _)].
  - assert (Htail :
      (exists j, l !! j = Some x /\ p x (S i + j) = true) <->
      (exists j, (y :: l) !! S j = Some x /\ p x (i + S j) = true)).
    { split; intros (j & Hj & Hp); exists j; split; try done;
        by replace (i + S j) with (S i + j) in * by lia. }
    destruct (p y i) eqn:Hy.
    + rewrite elem_of_cons, IH. split.
      * intros [->|(j & Hj & Hp)].
        -- exists 0. split; [done|]. by rewrite Nat.add_0_r.
        -- exists (S j). split; [done|].
           by replace (i + S j) with (S i + j) by lia.
      * intros ([|j] & Hj & Hp).
        -- left. simpl in Hj. congruence.
        -- right. exists j. split; [done|].
           by replace (S i + j) with (i + S j) by lia.
    + rewrite IH. split.
      * intros (j & Hj & Hp). exists (S j). split; [done|].
        by replace (i + S j) with (S i + j) by lia.
      * intros ([|j] & Hj & Hp).
        -- simpl in Hj. injection Hj as ->.
           rewrite Nat.add_0_r in Hp. congruence.
        -- exists j. split; [done|].
           by replace (S i + j) with (i + S j) by lia.
Qed.

(** The values the check reports are exactly those that occur twice. *)
Lemma elem_of_duplicates l x : x ∈ Js.duplicates l <-> repeated l x.
Proof.
  unfold Js.duplicates, Js.filter_idx. rewrite elem_of_filter_from. split.
  - intros (j & Hj & Hp). simpl in Hp.
    destruct (indexOf_first l x j Hj) as (i & Hi & Hle).
    rewrite Hi in Hp. apply negb_true_iff, bool_decide_eq_false in Hp.
    assert (i < j) by (destruct (decide (i = j)); [congruence|lia]).
    apply indexOf_Some in Hi as [Hi _]. by exists i, j.
  - intros (i & j & Hlt & Hi & Hj). exists j. split; [done|]. simpl.
    apply negb_true_iff, bool_decide_eq_false. intros Hidx.
    apply indexOf_Some in Hidx as [_ Hfirst]. by apply (Hfirst i).
Qed.

Lemma NoDup_not_repeated l : NoDup l <-> forall x, ~ repeated l x.
Proof.
  rewrite NoDup_alt. split.
  - intros Hnd x (i & j & Hlt & Hi & Hj).
    specialize (Hnd i j x Hi Hj). lia.
  - intros Hrep i j x Hi Hj.
    destruct (Nat.lt_total i j) as [Hlt|[Heq|Hgt]]; [|done|].
    + exfalso. apply (Hrep x). by exists i, j.
    + exfalso. apply (Hrep x). by exists j, i.
Qed.

Lemma duplicates_nil l : Js.duplicates l = [] <-> NoDup l.
Proof.
  rewrite NoDup_not_repeated. split.
  - intros Hnil x Hx. apply elem_of_duplicates in Hx.
    rewrite Hnil in Hx. by apply elem_of_nil in Hx.
  - intros Hrep. destruct (Js.duplicates l) as [|x d] eqn:E; [done|].
    exfalso. apply (Hrep x), elem_of_duplicates. rewrite E. left.
Qed.

Lemma duplicates_length l :
  (0 <? length (Js.duplicates l))%nat = false <-> NoDup l.
Proof.
  rewrite <- duplicates_nil.
  destruct (Js.duplicates l); simpl; split; done.
Qed.

End Duplicates.

(** ** Saving a document *)

Section Saving.
Context `{Js.Strings} `{Libs}.

Lemma sent_here {T A} paths (src dst : T) path (proj : T -> A) :
  sent (path :: paths) src dst path proj = proj src.
Proof. unfold sent. rewrite bool_decide_eq_true_2; [done|left]. Qed.

Lemma sent_there {T A} paths (src dst : T) path path' (proj : T -> A) :
  path <> path' ->
  sent (path' :: paths) src dst path proj = sent paths src dst path proj.
Proof.
  intros Hne. unfold sent.
  destruct (decide (path ∈ paths)) as [Hin|Hin].
  - rewrite !bool_decide_eq_true_2; [done|done|by right].
  - rewrite !bool_decide_eq_false_2; [done|done|].
    rewrite elem_of_cons. by intros [?|?].
Qed.

Lemma sent_same {T A} paths (x : T) path (proj : T -> A) :
  sent paths x x path proj = proj x.
Proof. unfold sent. by destruct (bool_decide _). Qed.

Lemma sent_nil {T A} (src dst : T) path (proj : T -> A) :
  sent [] src dst path proj = proj dst.
Proof. reflexivity. Qed.

(** An assignment to one path and the update commute. *)
Ltac touch :=
  intros; unfold User.merge, Business.merge;
  rewrite ?sent_here; rewrite ?sent_there by done;
  unfold sent; simpl; reflexivity.

Lemma User_merge_password v paths x dst :
  User.merge ("password" :: paths) (User.with_password v x) dst
  = User.with_password v (User.merge paths x dst).
Proof. touch. Qed.

Lemma User_merge_business v paths x dst :
  User.merge ("business" :: paths) (User.with_business v x) dst
  = User.with_business v (User.merge paths x dst).
Proof. touch. Qed.

Lemma User_merge_lastLogin v paths x dst :
  User.merge ("lastLogin" :: paths) (User.with_lastLogin v x) dst
  = User.with_lastLogin v (User.merge paths x dst).
Proof. touch. Qed.

Lemma User_merge_stamp time paths x dst :
  User.merge ("updatedAt" :: paths) (User.stamp false time x) dst
  = User.stamp false time (User.merge paths x dst).
Proof. touch. Qed.

Lemma Business_merge_stamp time paths x dst :
  Business.merge ("updatedAt" :: paths) (Business.stamp false time x) dst
  = Business.stamp false time (Business.merge paths x dst).
Proof. touch. Qed.

Lemma User_with_password_same u : User.with_password (User.password u) u = u.
Proof. by destruct u. Qed.

Lemma User_with_business_same u : User.with_business (User.business u) u = u.
Proof. by destruct u. Qed.

Lemma User_with_lastLogin_same u :
  User.with_lastLogin (User.lastLogin u) u = u.
Proof. by destruct u. Qed.

Lemma account_tracks_hydrate id u : account_tracks (hydrate id u) u.
Proof. unfold account_tracks, User.merge. simpl. by destruct u. Qed.

Lemma business_tracks_hydrate id b : business_tracks (hydrate id b) b.
Proof.
  unfold business_tracks, Business.merge. simpl.
  destruct b as [? ? ? ? ? ? ? ? ? ? ? [] ? ? ? ? ? ? ? ? ?]. reflexivity.
Qed.

Lemma account_tracks_set_password v d stored :
  account_tracks d stored -> account_tracks (User.set_password v d) stored.
Proof.
  unfold account_tracks, User.set_password, assign. simpl. intros Ht.
  destruct (decide (User.password (fields d) = v)) as [<-|Hne].
  - rewrite bool_decide_eq_true_2 by done. simpl.
    by rewrite User_with_password_same.
  - rewrite bool_decide_eq_false_2 by done. simpl.
    by rewrite User_merge_password, Ht.
Qed.

Lemma account_tracks_set_business v d stored :
  account_tracks d stored -> account_tracks (User.set_business v d) stored.
Proof.
  unfold account_tracks, User.set_business, assign. simpl. intros Ht.
  destruct (decide (User.business (fields d) = v)) as [<-|Hne].
  - rewrite bool_decide_eq_true_2 by done. simpl.
    by rewrite User_with_business_same.
  - rewrite bool_decide_eq_false_2 by done. simpl.
    by rewrite User_merge_business, Ht.
Qed.

Lemma account_tracks_set_lastLogin v d stored :
  account_tracks d stored -> account_tracks (User.set_lastLogin v d) stored.
Proof.
  unfold account_tracks, User.set_lastLogin, assign. simpl. intros Ht.
  destruct (decide (User.lastLogin (fields d) = v)) as [<-|Hne].
  - rewrite bool_decide_eq_true_2 by done. simpl.
    by rewrite User_with_lastLogin_same.
  - rewrite bool_decide_eq_false_2 by done. simpl.
    by rewrite User_merge_lastLogin, Ht.
Qed.

Lemma saved_same {A} (d : Doc A) :
  isNew d = false -> modifiedPaths d = [] -> saved d (fields d) = d.
Proof. destruct d; simpl; by intros -> ->. Qed.

(** The hook keeps the identity of the document and what it tracks. *)
Lemma User_pre_save_inr w d d1 :
  User.pre_save w d = inr d1 ->
  _id d1 = _id d /\ isNew d1 = isNew d
  /\ (modifiedPaths d = [] -> d1 = d)
  /\ (modifiedPaths d <> [] -> modifiedPaths d1 <> [])
  /\ forall stored, account_tracks d stored -> account_tracks d1 stored.
Proof.
  unfold User.pre_save, isModified.
  destruct (bool_decide ("password" ∈ modifiedPaths d)) eqn:Hm; simpl.
  - destruct (User.password (fields d)) as [plain|]; [|done].
    intros [= <-]. simpl. split; [done|]. split; [done|].
    split; [intros Hnil; rewrite Hnil in Hm; done|].
    split; [done|].
    intros stored Ht. unfold account_tracks in *. simpl.
    by rewrite User_merge_password, Ht.
  - intros [= <-]. done.
Qed.

(** The three ways of a save: a new document, a stored one that was not
    modified, a stored one that was. *)
Lemma User_save_new w k v d coll :
  isNew d = true ->
  User.save w k v d coll
  = match User.pre_save w d with
    | inr d1 =>
        match refusal v (outcome w k) with
        | Some e => inl e
        | None =>
            let u := User.stamp true (now w) (fields d1) in
            inr (saved d1 u, <[_id d1 := u]> coll)
        end
    | inl e =>
        match invalid v (outcome w k) with
        | Some e' => inl e'
        | None => inl e
        end
    end.
Proof.
  intros Hnew. unfold User.save, refusal.
  destruct (invalid v (outcome w k)); [by destruct (User.pre_save w d)|].
  destruct (User.pre_save w d) as [e|d1] eqn:Hpre; [done|].
  apply User_pre_save_inr in Hpre as (_ & Hn & _). by rewrite Hn, Hnew.
Qed.

Lemma User_save_unmodified w k v d coll stored :
  isNew d = false -> modifiedPaths d = [] -> coll !! _id d = Some stored ->
  User.save w k v d coll
  = match invalid v (outcome w k) with
    | Some e => inl e
    | None => inr (d, coll)
    end.
Proof.
  intros Hnew Hmod Hstored. unfold User.save.
  destruct (invalid v (outcome w k)); [done|].
  assert (Hpre : User.pre_save w d = inr d).
  { unfold User.pre_save, isModified. by rewrite Hmod. }
  rewrite Hpre, Hnew, Hstored, Hmod. by rewrite saved_same.
Qed.

Lemma User_save_modified w k v d coll stored :
  isNew d = false -> modifiedPaths d <> [] -> coll !! _id d = Some stored ->
  account_tracks d stored ->
  User.save w k v d coll
  = match User.pre_save w d with
    | inr d1 =>
        match refusal v (outcome w k) with
        | Some e => inl e
        | None =>
            let u := User.stamp false (now w) (fields d1) in
            inr (saved d1 u, <[_id d := u]> coll)
        end
    | inl e =>
        match invalid v (outcome w k) with
        | Some e' => inl e'
        | None => inl e
        end
    end.
Proof.
  intros Hnew Hmod Hstored Ht. unfold User.save, refusal.
  destruct (invalid v (outcome w k)); [by destruct (User.pre_save w d)|].
  destruct (User.pre_save w d) as [e|d1] eqn:Hpre; [done|].
  apply User_pre_save_inr in Hpre as (Hid & Hn & _ & Hmod1 & Ht1).
  specialize (Hmod1 Hmod). specialize (Ht1 stored Ht).
  rewrite Hn, Hnew, Hid, Hstored.
  destruct (modifiedPaths d1) as [|p paths] eqn:Hp; [done|].
  destruct (rejected (outcome w k)); [done|]. cbv zeta.
  rewrite User_merge_stamp. unfold account_tracks in Ht1.
  by rewrite Hp in Ht1; rewrite Ht1.
Qed.

Lemma Business_save_new w k d coll :
  isNew d = true ->
  Business.save w k d coll
  = match refusal true (outcome w k) with
    | Some e => inl e
    | None =>
        let d1 := Business.pre_save w d in
        let b := Business.stamp true (now w) (fields d1) in
        inr (saved d1 b, <[_id d1 := b]> coll)
    end.
Proof.
  intros Hnew. unfold Business.save, refusal.
  destruct (invalid true (outcome w k)); [done|]. cbv zeta.
  assert (Hn : isNew (Business.pre_save w d) = true).
  { unfold Business.pre_save. by destruct (_ && _). }
  by rewrite Hn.
Qed.

Lemma Business_pre_save_stored w d : isNew d = false -> Business.pre_save w d = d.
Proof. intros Hnew. unfold Business.pre_save. by rewrite Hnew. Qed.

Lemma Business_save_unmodified w k d coll stored :
  isNew d = false -> modifiedPaths d = [] -> coll !! _id d = Some stored ->
  Business.save w k d coll
  = match invalid true (outcome w k) with
    | Some e => inl e
    | None => inr (d, coll)
    end.
Proof.
  intros Hnew Hmod Hstored. unfold Business.save.
  destruct (invalid true (outcome w k)); [done|]. cbv zeta.
  rewrite Business_pre_save_stored by done.
  rewrite Hnew, Hstored, Hmod. by rewrite saved_same.
Qed.

Lemma Business_save_modified w k d coll stored :
  isNew d = false -> modifiedPaths d <> [] -> coll !! _id d = Some stored ->
  business_tracks d stored ->
  Business.save w k d coll
  = match refusal true (outcome w k) with
    | Some e => inl e
    | None =>
        let b := Business.stamp false (now w) (fields d) in
        inr (saved d b, <[_id d := b]> coll)
    end.
Proof.
  intros Hnew Hmod Hstored Ht. unfold Business.save, refusal.
  destruct (invalid true (outcome w k)); [done|]. cbv zeta.
  rewrite Business_pre_save_stored by done.
  rewrite Hnew, Hstored.
  destruct (modifiedPaths d) as [|p paths] eqn:Hp; [done|].
  destruct (rejected (outcome w k)); [done|].
  rewrite Business_merge_stamp. unfold business_tracks in Ht.
  by rewrite Hp in Ht; rewrite Ht.
Qed.

(** The setters of a business. *)
Ltac writes_tac :=
  split; [by intros []|split; [done|]]; touch.

Lemma writes_name : writes "name" Business.name Business.with_name.
Proof. writes_tac. Qed.

Lemma writes_description :
  writes "description" Business.description Business.with_description.
Proof. writes_tac. Qed.

Lemma writes_industry :
  writes "industry" Business.industry Business.with_industry.
Proof. writes_tac. Qed.

Lemma writes_email : writes "email" Business.email Business.with_email.
Proof. writes_tac. Qed.

Lemma writes_phone : writes "phone" Business.phone Business.with_phone.
Proof. writes_tac. Qed.

Lemma writes_website :
  writes "website" Business.website Business.with_website.
Proof. writes_tac. Qed.

Lemma writes_address :
  writes "address" Business.address Business.with_address.
Proof. writes_tac. Qed.

Lemma writes_registrationNumber :
  writes "registrationNumber" Business.registrationNumber
    Business.with_registrationNumber.
Proof. writes_tac. Qed.

Lemma writes_taxId : writes "taxId" Business.taxId Business.with_taxId.
Proof. writes_tac. Qed.

Lemma writes_currency :
  writes "currency" Business.currency Business.with_currency.
Proof. writes_tac. Qed.

Lemma writes_timezone :
  writes "timezone" Business.timezone Business.with_timezone.
Proof. writes_tac. Qed.

Ltac writes_preferences :=
  split;
    [intros [? ? ? ? ? ? ? ? ? ? ? [] ? ? ? ? ? ? ? ? ?]; reflexivity
    |split; [reflexivity|]];
  intros; unfold Business.merge;
  rewrite ?sent_here; rewrite ?sent_there by done;
  unfold sent; simpl;
  destruct (bool_decide ("preferences" ∈ _)); reflexivity.

Lemma writes_categories :
  writes "preferences.categories"
    (fun b => Preferences.categories (Business.preferences b))
    (fun v b =>
       Business.with_preferences
         {| Preferences.categories := v;
            Preferences.units := Preferences.units (Business.preferences b);
            Preferences.productTypes :=
              Preferences.productTypes (Business.preferences b) |} b).
Proof. writes_preferences. Qed.

Lemma writes_units :
  writes "preferences.units"
    (fun b => Preferences.units (Business.preferences b))
    (fun v b =>
       Business.with_preferences
         {| Preferences.categories :=
              Preferences.categories (Business.preferences b);
            Preferences.units := v;
            Preferences.productTypes :=
              Preferences.productTypes (Business.preferences b) |} b).
Proof. writes_preferences. Qed.

Lemma writes_productTypes :
  writes "preferences.productTypes"
    (fun b => Preferences.productTypes (Business.preferences b))
    (fun v b =>
       Business.with_preferences
         {| Preferences.categories :=
              Preferences.categories (Business.preferences b);
            Preferences.units := Preferences.units (Business.preferences b);
            Preferences.productTypes := v |} b).
Proof. writes_preferences. Qed.

Lemma replaces_false {A B} (v : list A) (old : list B) :
  replaces v old = false -> v = [] /\ old = [].
Proof. by destruct v, old. Qed.

(** An assignment keeps the document in step with the stored one. *)
Lemma business_tracks_assign {B} path (proj : Business.t -> B) with_ v
    changed d stored :
  writes path proj with_ ->
  (changed = false -> proj (fields d) = v) ->
  business_tracks d stored ->
  business_tracks (assign path changed (with_ v) d) stored.
Proof.
  intros (Hsame & Hget & Hmerge) Hc Ht.
  unfold business_tracks, assign in *. simpl. destruct changed.
  - by rewrite Hmerge, Ht.
  - rewrite <- (Hc eq_refl), Hsame. done.
Qed.

End Saving.

(** ** Registration *)

Section Registration.
Context `{Js.Strings} `{Libs}.
Lemma isModified_create_password id fn ln em pw ph r :
  isModified "password" (User.create id fn ln em pw ph r) = true.
Proof.
  unfold isModified. apply bool_decide_eq_true_2. simpl. set_solver.
Qed.

Lemma register_transaction_eq w fn ln em pw bn phone ind bem bph session :
  let uid := ObjectId (users session) in
  let bid := ObjectId (businesses session) in
  let u := registered_user w fn ln em pw phone bid in
  let b := registered_business w bn em phone ind bem bph uid in
  authController.register_transaction w fn ln em pw bn phone ind bem bph session =
  match refusal false (outcome w 0) with Some e => inl e | None =>
  match refusal true (outcome w 1) with Some e => inl e | None =>
  match refusal true (outcome w 2) with Some e => inl e | None =>
  match refusal true (outcome w 3) with Some e => inl e | None =>
    inr (hydrate uid u, hydrate bid b,
         {| users := <[uid := u]> (users session);
            businesses := <[bid := b]> (businesses session) |})
  end end end end.
Proof.
  intros uid bid u b.
  unfold authController.register_transaction, mbind, sum_bind.
  rewrite User_save_new by done. unfold User.pre_save.
  rewrite isModified_create_password. cbn [negb User.create fields User.password].
  destruct (refusal false (outcome w 0)); [done|]. cbv beta iota zeta.
  rewrite Business_save_new by done.
  destruct (refusal true (outcome w 1)); [done|]. cbv beta iota zeta.
  erewrite User_save_modified;
    [|done|done|apply lookup_insert_eq
     |apply account_tracks_set_lastLogin, account_tracks_set_business,
        account_tracks_hydrate].
  unfold User.pre_save.
  change (isModified "password" _) with false.
  cbn [negb].
  destruct (refusal true (outcome w 2)); [done|].
  destruct (refusal true (outcome w 3)); [done|].
  cbv zeta. cbn [_id User.set_lastLogin User.set_business assign saved].
  rewrite insert_insert_eq. reflexivity.
Qed.

Lemma complete_inv body :
  complete body ->
  exists fn ln em pw bn,
    body !! "firstName" = Some fn /\ body !! "lastName" = Some ln
    /\ body !! "email" = Some em /\ body !! "password" = Some pw
    /\ body !! "businessName" = Some bn
    /\ Js.truthy (Some fn) = true /\ Js.truthy (Some ln) = true
    /\ Js.truthy (Some em) = true /\ Js.truthy (Some pw) = true
    /\ Js.truthy (Some bn) = true.
Proof.
  unfold complete, required_fields. rewrite !Forall_cons.
  intros (Hf & Hl & He & Hp & Hb & _).
  destruct (body !! "firstName") as [fn|]; [|done].
  destruct (body !! "lastName") as [ln|]; [|done].
  destruct (body !! "email") as [em|]; [|done].
  destruct (body !! "password") as [pw|]; [|done].
  destruct (body !! "businessName") as [bn|]; [|done].
  by exists fn, ln, em, pw, bn.
Qed.

Lemma findOne_email_None e (coll : gmap nat User.t) :
  (forall id u, coll !! id = Some u -> User.email u <> User.cast_email e) ->
  User.findOne_email e coll = None.
Proof.
  intros Hfree. unfold User.findOne_email.
  destruct (list_find _ _) as [[i [id u]]|] eqn:E; [|done].
  apply list_find_Some in E as (Hi & Hp & _). exfalso.
  apply (Hfree id u); [|done].
  apply elem_of_map_to_list. by eapply list_elem_of_lookup_2.
Qed.

Lemma findOne_email_Some e (coll : gmap nat User.t) id u :
  coll !! id = Some u -> User.email u = User.cast_email e ->
  is_Some (User.findOne_email e coll).
Proof.
  intros Hu He. unfold User.findOne_email.
  apply fmap_is_Some.
  apply (list_find_elem_of _ _ (id, u)); [|done].
  by apply elem_of_map_to_list.
Qed.

Lemma ObjectId_fresh {A} (coll : gmap nat A) : coll !! ObjectId coll = None.
Proof. apply not_elem_of_dom, is_fresh. Qed.

(** Claim C1.  A registration request that carries the five required
    fields, for an email no account has, succeeds when no write fails: each
    of the two collections gains exactly one document under a fresh
    identifier, the new account refers to the new business and the new
    business is owned by the new account.  When one of the four writes of
    the transaction (the three saves and the commit) is refused, the
    database is left as it was, so that neither record persists. *)
Theorem register_creates_pair w body db :
  complete body -> ~ email_taken body db ->
  (no_write_fails w ->
   exists uid u bid b payload,
     authController.register w body db
     = (Send (ok 201 "Registration successful" payload),
        {| users := <[uid := u]> (users db);
           businesses := <[bid := b]> (businesses db) |})
     /\ users db !! uid = None /\ businesses db !! bid = None
     /\ size (<[uid := u]> (users db)) = S (size (users db))
     /\ size (<[bid := b]> (businesses db)) = S (size (businesses db))
     /\ User.business u = Some bid /\ Business.owner b = uid)
  /\ (forall k, k < 4 -> refused w k ->
      (authController.register w body db).2 = db).
Proof.
  intros Hc Hfree.
  destruct (complete_inv body Hc)
    as (fn & ln & em & pw & bn & Hfn & Hln & Hem & Hpw & Hbn
        & Tfn & Tln & Tem & Tpw & Tbn).
  assert (Hfind : User.findOne_email em (users db) = None).
  { apply findOne_email_None. intros id u Hu He. apply Hfree.
    by exists em, id, u. }
  unfold authController.register.
  rewrite Hfn, Hln, Hem, Hpw, Hbn, Tfn, Tln, Tem, Tpw, Tbn, Hfind.
  cbn [negb orb]. rewrite register_transaction_eq. split.
  - intros Hok. unfold refusal. rewrite !Hok.
    eexists _, _, _, _, _. split; [reflexivity|].
    pose proof (ObjectId_fresh (users db)).
    pose proof (ObjectId_fresh (businesses db)).
    rewrite !map_size_insert_None by done. done.
  - intros k Hk [e He].
    destruct k as [|[|[|[|k]]]]; [| | | |lia]; simpl in He.
    all: repeat match goal with
           | |- context [match refusal ?v ?o with _ => _ end] =>
               destruct (refusal v o) eqn:?
           end; try done; try (by destruct e0); congruence.
Qed.

(** Claim C2.  When an account with the email of the request exists,
    [register] answers with a 400 failure and the database is the one it
    started from, so the numbers of accounts and of businesses are the
    same before and after; for a request that carries the required fields
    the failure is the conflict "User with this email already exists". *)
Theorem register_duplicate_email w body db :
  email_taken body db ->
  exists m,
    authController.register w body db = (Send (failure 400 m), db)
    /\ size (users (authController.register w body db).2) = size (users db)
    /\ size (businesses (authController.register w body db).2)
       = size (businesses db)
    /\ (complete body -> m = authController.msg_exists).
Proof.
  intros (e & id & u & He & Hu & Hmail).
  destruct (findOne_email_Some e (users db) id u Hu Hmail) as [d Hd].
  unfold authController.register. rewrite He, Hd.
  destruct (body !! "firstName") as [fn|] eqn:Hfn;
    destruct (body !! "lastName") as [ln|] eqn:Hln;
    destruct (body !! "password") as [pw|] eqn:Hpw;
    destruct (body !! "businessName") as [bn|] eqn:Hbn;
    try (eexists; split; [reflexivity|]; split; [done|]; split; [done|];
         intros Hc; destruct (complete_inv body Hc)
           as (? & ? & ? & ? & ? & ? & ? & ? & ? & ? & _); congruence).
  destruct (negb (Js.truthy (Some fn)) || negb (Js.truthy (Some ln))
            || negb (Js.truthy (Some e)) || negb (Js.truthy (Some pw))
            || negb (Js.truthy (Some bn))) eqn:Hguard.
  - eexists; split; [reflexivity|]; split; [done|]; split; [done|].
    intros Hc. exfalso.
    destruct (complete_inv body Hc)
      as (fn' & ln' & em' & pw' & bn' & Hfn' & Hln' & Hem' & Hpw' & Hbn'
          & Tfn & Tln & Tem & Tpw & Tbn).
    simplify_eq. rewrite Tfn, Tln, Tem, Tpw, Tbn in Hguard. done.
  - eexists; split; [reflexivity|]; done.
Qed.

Lemma register_success_inv w body db payload db' :
  authController.register w body db
  = (Send (ok 201 "Registration successful" payload), db') ->
  exists fn ln em pw bn,
    body !! "firstName" = Some fn /\ body !! "lastName" = Some ln
    /\ body !! "email" = Some em /\ body !! "password" = Some pw
    /\ body !! "businessName" = Some bn
    /\ let uid := ObjectId (users db) in
       let bid := ObjectId (businesses db) in
       let u := registered_user w fn ln em pw (body !! "phone") bid in
       let b := registered_business w bn em (body !! "phone")
                  (body !! "industry") (body !! "businessEmail")
                  (body !! "businessPhone") uid in
       payload = Session (authController.generateToken w uid)
                   (User.toPublicProfile (hydrate uid u))
                   (Business.toPublicProfile (hydrate bid b))
       /\ db' = {| users := <[uid := u]> (users db);
                   businesses := <[bid := b]> (businesses db) |}.
Proof.
  unfold authController.register.
  destruct (body !! "firstName") as [fn|]; [|done].
  destruct (body !! "lastName") as [ln|]; [|done].
  destruct (body !! "email") as [em|]; [|done].
  destruct (body !! "password") as [pw|]; [|done].
  destruct (body !! "businessName") as [bn|]; [|done].
  destruct (_ || _); [done|].
  destruct (User.findOne_email em (users db)); [done|].
  rewrite register_transaction_eq.
  repeat match goal with
    | |- context [match refusal ?v ?o with _ => _ end] =>
        let e := fresh "e" in destruct (refusal v o) as [e|];
        [by destruct e|]
    end.
  intros [= <- <-]. by exists fn, ln, em, pw, bn.
Qed.

(** Claim C9.  After every successful registration the account that was
    created, and its public view, have the role owner, and a [role] entry
    in the request body changes nothing: [register] never reads it. *)
Theorem register_role_owner w body db token user business db' :
  authController.register w body db
  = (Send (ok 201 "Registration successful" (Session token user business)),
     db') ->
  User.pub_role user = User.Owner
  /\ (exists u, users db' !! User.pub_id user = Some u
               /\ User.role u = User.Owner)
  /\ forall r,
      authController.register w (<["role" := r]> body) db
      = authController.register w body db.
Proof.
  intros Hreg.
  apply register_success_inv in Hreg
    as (fn & ln & em & pw & bn & _ & _ & _ & _ & _ & Hpay & ->).
  injection Hpay as -> -> ->. split; [done|]. split.
  - eexists. split; [apply lookup_insert_eq|done].
  - intros r. unfold authController.register.
    by rewrite !lookup_insert_ne.
Qed.

(** Claim C4, as the code behaves.  After every successful registration
    the stored business has three empty collections and not the bootstrap
    set: the document [register] builds already carries its (empty)
    arrays, so the test of the pre-save hook does not hold for it, nor
    for any other document. *)
Theorem register_preferences_empty w body db token user business db' :
  authController.register w body db
  = (Send (ok 201 "Registration successful" (Session token user business)),
     db') ->
  exists b, businesses db' !! Business.pub_id business = Some b
    /\ Preferences.categories (Business.preferences b) = []
    /\ Preferences.units (Business.preferences b) = []
    /\ Preferences.productTypes (Business.preferences b) = []
    /\ Business.preferences b <> Preferences.bootstrap (now w)
    /\ forall d, Business.pre_save w d = d.
Proof.
  intros Hreg.
  apply register_success_inv in Hreg
    as (fn & ln & em & pw & bn & _ & _ & _ & _ & _ & Hpay & ->).
  injection Hpay as -> -> ->.
  eexists. split; [apply lookup_insert_eq|]. repeat split; try done.
  intros d. unfold Business.pre_save. by rewrite andb_false_r.
Qed.
End Registration.

(** ** Login and the password hash *)

Section Login.
Context `{Js.Strings} `{Libs}.

Lemma findOne_email_inv e (coll : gmap nat User.t) d :
  User.findOne_email e coll = Some d ->
  coll !! _id d = Some (fields d) /\ User.email (fields d) = User.cast_email e
  /\ isNew d = false /\ modifiedPaths d = [].
Proof.
  unfold User.findOne_email.
  destruct (list_find _ _) as [[i [id u]]|] eqn:E; [|done].
  intros [= <-]. apply list_find_Some in E as (Hi & Hp & _).
  split; [|done]. apply elem_of_map_to_list.
  by eapply list_elem_of_lookup_2.
Qed.

(** Claim C6, amended.  For a login request with a non-empty email and
    password: if every account with that email is active and the password
    matches the hash of none of them, the answer is 401 "Invalid
    credentials" and nothing is written, the same reply whether or not an
    account with that email exists; if an account with that email exists
    and the accounts with it are deactivated, the answer is the distinct
    401 "Your account has been deactivated. Please contact support.",
    whatever the password, and nothing is written. *)
Theorem login_generic_when_active w body db email password :
  body !! "email" = Some email -> body !! "password" = Some password ->
  email <> "" -> password <> "" ->
  (active_if_present db email ->
   password_mismatch db email password ->
   authController.login w body db
   = (Send (failure 401 authController.msg_invalid), db))
  /\ (all_deactivated db email ->
      authController.login w body db
      = (Send (failure 401 authController.msg_deactivated), db)).
Proof.
  intros He Hp Te Tp. unfold authController.login.
  rewrite He, Hp.
  apply truthy_Some in Te, Tp. rewrite Te, Tp. cbn [negb orb]. split.
  - intros Hact Hmis.
    destruct (User.findOne_email email (users db)) as [d|] eqn:Hfind;
      [|done].
    apply findOne_email_inv in Hfind as (Hd & Hmail & _).
    rewrite (Hact _ _ Hd Hmail). cbn [negb].
    destruct (Hmis _ _ Hd Hmail) as (h & Hh & Hcmp).
    unfold User.comparePassword. by rewrite Hh, Hcmp.
  - intros [(id & u & Hu & Hmail) Hoff].
    destruct (findOne_email_Some email (users db) id u Hu Hmail)
      as [d Hfind].
    rewrite Hfind.
    apply findOne_email_inv in Hfind as (Hd & Hmail' & _).
    by rewrite (Hoff _ _ Hd Hmail').
Qed.

Lemma isModified_assign_ne {A} path path' c (f : A -> A) (d : Doc A) :
  path <> path' ->
  isModified path (assign path' c f d) = isModified path d.
Proof.
  intros Hne. unfold isModified, assign. simpl. destruct c; [|done].
  apply bool_decide_ext. rewrite elem_of_cons. split; [|by right].
  by intros [?|?].
Qed.

Lemma refusal_None v o :
  refusal v o = None -> invalid v o = None /\ rejected o = None.
Proof. unfold refusal. by destruct (invalid v o). Qed.

(** A save with a modified password stores the hash of the plaintext. *)
Lemma save_rehashes w k v d coll plain :
  isModified "password" d = true ->
  User.password (fields d) = Some plain ->
  refusal v (outcome w k) = None ->
  (isNew d = false -> is_Some (coll !! _id d)) ->
  exists d' coll',
    User.save w k v d coll = inr (d', coll')
    /\ User.password <$> coll' !! _id d
       = Some (Some (bcrypt_hash plain (salt w)))
    /\ User.password (fields d') = Some (bcrypt_hash plain (salt w)).
Proof.
  intros Hmod Hplain [Hinv Hrej]%refusal_None Hstored.
  unfold User.save, User.pre_save. rewrite Hinv, Hmod, Hplain.
  cbn [negb assign isNew _id fields modifiedPaths].
  destruct (isNew d).
  - rewrite Hrej. eexists _, _. split; [reflexivity|].
    by rewrite lookup_insert_eq.
  - destruct Hstored as [stored Hstored]; [done|]. rewrite Hstored, Hrej.
    eexists _, _. split; [reflexivity|].
    rewrite lookup_insert_eq. split; [|done]. cbn [fmap option_fmap option_map].
    unfold User.merge. rewrite sent_there by done. by rewrite sent_here.
Qed.

(** A save without a modified password leaves the hash in the store. *)
Lemma save_keeps_hash w k v d coll :
  isModified "password" d = false ->
  refusal v (outcome w k) = None ->
  (isNew d = false -> is_Some (coll !! _id d)) ->
  exists d' coll',
    User.save w k v d coll = inr (d', coll')
    /\ User.password <$> coll' !! _id d
       = (if isNew d then Some (User.password (fields d))
          else User.password <$> coll !! _id d)
    /\ User.password (fields d') = User.password (fields d).
Proof.
  intros Hmod [Hinv Hrej]%refusal_None Hstored.
  unfold User.save, User.pre_save. rewrite Hinv, Hmod. cbn [negb].
  destruct (isNew d).
  - rewrite Hrej. eexists _, _. split; [reflexivity|].
    by rewrite lookup_insert_eq.
  - destruct Hstored as [stored Hstored]; [done|]. rewrite Hstored.
    destruct (modifiedPaths d) as [|p paths] eqn:Hp.
    + eexists _, _. split; [reflexivity|]. by rewrite Hstored.
    + rewrite Hrej. eexists _, _. split; [reflexivity|].
      rewrite lookup_insert_eq. split; [|done].
      cbn [fmap option_fmap option_map]. f_equal.
      unfold isModified in Hmod. rewrite Hp in Hmod.
      unfold User.merge. cbn [User.password].
      rewrite sent_there by done. unfold sent. by rewrite Hmod.
Qed.

(** The save of [login]. *)
Lemma login_save w d coll :
  coll !! _id d = Some (fields d) -> isNew d = false ->
  modifiedPaths d = [] ->
  User.save w 0 true (User.set_lastLogin (Some (now w)) d) coll
  = match invalid true (outcome w 0) with
    | Some e => inl e
    | None =>
        if decide (User.lastLogin (fields d) = Some (now w))
        then inr (d, coll)
        else
          match rejected (outcome w 0) with
          | Some e => inl e
          | None =>
              let u := User.stamp false (now w)
                         (User.with_lastLogin (Some (now w)) (fields d)) in
              inr (saved d u, <[_id d := u]> coll)
          end
    end.
Proof.
  intros Hstored Hnew Hmod.
  destruct (decide (User.lastLogin (fields d) = Some (now w))) as [Heq|Hne].
  - assert (Hd : User.set_lastLogin (Some (now w)) d = d).
    { unfold User.set_lastLogin, assign.
      rewrite bool_decide_eq_true_2 by done. cbn [negb].
      rewrite <- Heq, User_with_lastLogin_same. by destruct d. }
    rewrite Hd. by erewrite User_save_unmodified.
  - erewrite User_save_modified;
      [|done| |done|by apply account_tracks_set_lastLogin;
                      rewrite <- (saved_same d) at 1 by done;
                      apply account_tracks_hydrate].
    + unfold User.pre_save, User.set_lastLogin.
      rewrite isModified_assign_ne by done.
      unfold isModified. rewrite Hmod. cbn [negb bool_decide decide_rel].
      change (bool_decide ("password" ∈ [])) with false. cbn [negb].
      unfold refusal. destruct (invalid true (outcome w 0)); [done|].
      destruct (rejected (outcome w 0)); [done|]. reflexivity.
    + unfold User.set_lastLogin, assign.
      rewrite bool_decide_eq_false_2 by done. done.
Qed.

Lemma login_keeps_hashes w body db reply db' id u :
  authController.login w body db = (reply, db') ->
  users db !! id = Some u ->
  exists u', users db' !! id = Some u'
    /\ User.password u' = User.password u.
Proof.
  intros Hlogin Hu.
  assert (Hsame : db' = db -> exists u', users db' !! id = Some u'
            /\ User.password u' = User.password u)
    by (intros ->; by exists u).
  revert Hlogin. unfold authController.login.
  repeat match goal with
    | |- context [match ?x with _ => _ end] =>
        lazymatch x with
        | User.save _ _ _ _ _ => fail
        | _ => destruct x eqn:?
        end
    | |- ((_, _) = (_, _)) -> _ => intros [= <- <-]; by apply Hsame
    end.
  match goal with
  | Hf : User.findOne_email _ _ = Some ?d |- _ =>
      apply findOne_email_inv in Hf as (Hd & _ & Hnew & Hmod)
  end.
  rewrite login_save by done.
  destruct (invalid true (outcome w 0));
    [intros [= <- <-]; by apply Hsame|].
  destruct (decide _);
    [intros [= <- <-]; apply Hsame; by destruct db|].
  destruct (rejected (outcome w 0));
    [intros [= <- <-]; by apply Hsame|].
  intros [= <- <-]. simpl.
  destruct (decide (id = _id d)) as [->|Hne].
  - rewrite lookup_insert_eq. eexists. split; [done|].
    simpl. congruence.
  - rewrite lookup_insert_ne by done. by exists u.
Qed.

(** Claim C8.  A save whose [password] path is modified, and which the
    validators and the store accept, succeeds and leaves in the store a
    hash computed from the plaintext with the salt just drawn; a save
    whose [password] path is not modified leaves the stored hash as it
    was.  On a document read from the store the path is modified by an
    assignment exactly when the assigned value differs from the stored
    one, and assignments to [lastLogin] or [business] never modify it.  A
    login, whatever its outcome, leaves the stored hash of every account
    as it was. *)
Theorem password_rehashed_iff_changed w :
  (forall k v d coll plain,
     isModified "password" d = true ->
     User.password (fields d) = Some plain ->
     refusal v (outcome w k) = None ->
     (isNew d = false -> is_Some (coll !! _id d)) ->
     exists d' coll',
       User.save w k v d coll = inr (d', coll')
       /\ User.password <$> coll' !! _id d
          = Some (Some (bcrypt_hash plain (salt w)))
       /\ User.password (fields d') = Some (bcrypt_hash plain (salt w)))
  /\ (forall k v d coll,
        isModified "password" d = false ->
        refusal v (outcome w k) = None ->
        (isNew d = false -> is_Some (coll !! _id d)) ->
        exists d' coll',
          User.save w k v d coll = inr (d', coll')
          /\ User.password <$> coll' !! _id d
             = (if isNew d then Some (User.password (fields d))
                else User.password <$> coll !! _id d)
          /\ User.password (fields d') = User.password (fields d))
  /\ (forall id u v,
        isModified "password" (User.set_password v (hydrate id u)) = true
        <-> v <> User.password u)
  /\ (forall d v,
        isModified "password" (User.set_lastLogin v d)
        = isModified "password" d)
  /\ (forall d v,
        isModified "password" (User.set_business v d)
        = isModified "password" d)
  /\ (forall body db reply db' id u,
        authController.login w body db = (reply, db') ->
        users db !! id = Some u ->
        exists u', users db' !! id = Some u'
          /\ User.password u' = User.password u).
Proof.
  split; [|split; [|split; [|split; [|split]]]].
  - apply save_rehashes.
  - apply save_keeps_hash.
  - intros id u v. unfold User.set_password, isModified, assign. simpl.
    rewrite bool_decide_eq_true.
    destruct (decide (User.password u = v)) as [Heq|Hne].
    + rewrite (bool_decide_eq_true_2 _ Heq). simpl.
      split; [by intros ?%elem_of_nil|]. intros Hv. by destruct Hv.
    + rewrite (bool_decide_eq_false_2 _ Hne). simpl.
      split; [congruence|]. intros _. left.
  - intros d v. by apply isModified_assign_ne.
  - intros d v. by apply isModified_assign_ne.
  - apply login_keeps_hashes.
Qed.
End Login.

(** ** Replacing the preferences *)

Section Preferences.
Context `{Js.Lawful}.

Lemma missing_named (v : option string) :
  negb (Js.truthy v) || String.eqb (Js.trim (default "" v)) "" = false
  <-> named v.
Proof.
  unfold named. destruct v as [s|]; simpl.
  - destruct (String.eqb_spec s "") as [->|Hs]; simpl.
    + split; [done|]. intros (s' & Heq & Hs'). injection Heq as <-.
      destruct Hs'. apply Js.trim_empty.
    + destruct (String.eqb_spec (Js.trim s) "") as [Ht|Ht]; split; try done.
      * intros (s' & Heq & Hs'). injection Heq as <-. by destruct Hs'.
      * intros _. by exists s.
  - split; [done|]. by intros (? & ? & _).
Qed.

Lemma check_categories_None l :
  check_categories l = None <-> Forall (fun c => named (Category.in_name c)) l.
Proof.
  induction l as [|c l IH]; simpl; [by split|].
  rewrite Forall_cons, <- IH, <- missing_named.
  fold (Category.missing_name c).
  destruct (Category.missing_name c); split; try done; by intros [? ?].
Qed.

Lemma check_categories_Some l m :
  check_categories l = Some m -> m = "Each category must have a name".
Proof.
  induction l as [|c l IH]; simpl; [done|].
  destruct (Category.missing_name c); [by intros [= <-]|done].
Qed.

Lemma normalize_categories time l :
  Forall (fun c => named (Category.in_name c)) l ->
  exists v, mapM (Category.normalize time) l = Some v.
Proof.
  intros Hl. apply mapM_is_Some. eapply Forall_impl; [apply Hl|].
  intros c (s & Hs & _). unfold compose, Category.normalize. rewrite Hs.
  by eexists.
Qed.

Lemma category_key_stored time c y :
  Category.normalize time c = Some y ->
  Category.key_of_input c = Some (Category.key (Category.cast y)).
Proof.
  unfold Category.normalize, Category.key_of_input, Category.key.
  destruct (Category.in_name c) as [n|]; [|done]. intros [= <-]. simpl.
  by rewrite trim_idemp, trim_lower_trim.
Qed.

Lemma category_keys_stored time l v :
  mapM (Category.normalize time) l = Some v ->
  Category.key_of_input <$> l
  = Some <$> (Category.key <$> (Category.cast <$> v)).
Proof.
  rewrite mapM_Some. induction 1 as [|c y l v Hc _ IH]; [done|].
  rewrite !fmap_cons. by rewrite (category_key_stored _ _ _ Hc), IH.
Qed.


Lemma check_units_None l :
  check_units l = None
  <-> Forall (fun u => named (Unit.in_name u)
                       /\ named (Unit.in_abbreviation u)) l.
Proof.
  induction l as [|u l IH]; simpl; [by split|].
  rewrite Forall_cons, <- IH, <- !missing_named.
  fold (Unit.missing_name u). fold (Unit.missing_abbreviation u).
  destruct (Unit.missing_name u), (Unit.missing_abbreviation u);
    split; try done; by intros [[? ?] ?].
Qed.

Lemma normalize_units time l :
  Forall (fun u => named (Unit.in_name u)
                   /\ named (Unit.in_abbreviation u)) l ->
  exists v, mapM (Unit.normalize time) l = Some v.
Proof.
  intros Hl. apply mapM_is_Some. eapply Forall_impl; [apply Hl|].
  intros u [(n & Hn & _) (a & Ha & _)].
  unfold compose, Unit.normalize. rewrite Hn, Ha. by eexists.
Qed.

Lemma unit_key_stored time u y :
  Unit.normalize time u = Some y ->
  Unit.key_of_input u = Some (Unit.key (Unit.cast y)).
Proof.
  unfold Unit.normalize, Unit.key_of_input, Unit.key.
  destruct (Unit.in_name u) as [n|]; [|done].
  destruct (Unit.in_abbreviation u) as [a|]; [|done]. intros [= <-]. simpl.
  by rewrite trim_idemp, toUpperCase_idemp, trim_upper_trim,
    toUpperCase_idemp.
Qed.

Lemma unit_keys_stored time l v :
  mapM (Unit.normalize time) l = Some v ->
  Unit.key_of_input <$> l = Some <$> (Unit.key <$> (Unit.cast <$> v)).
Proof.
  rewrite mapM_Some. induction 1 as [|u y l v Hu _ IH]; [done|].
  rewrite !fmap_cons. by rewrite (unit_key_stored _ _ _ Hu), IH.
Qed.

Lemma check_productTypes_None l :
  check_productTypes l = None
  <-> Forall (fun p => named (ProductType.in_name p)) l.
Proof.
  induction l as [|p l IH]; simpl; [by split|].
  rewrite Forall_cons, <- IH, <- missing_named.
  fold (ProductType.missing_name p).
  destruct (ProductType.missing_name p); split; try done; by intros [? ?].
Qed.

Lemma normalize_productTypes time l :
  Forall (fun p => named (ProductType.in_name p)) l ->
  exists v, mapM (ProductType.normalize time) l = Some v.
Proof.
  intros Hl. apply mapM_is_Some. eapply Forall_impl; [apply Hl|].
  intros p (s & Hs & _). unfold compose, ProductType.normalize. rewrite Hs.
  by eexists.
Qed.

Lemma type_key_stored time p y :
  ProductType.normalize time p = Some y ->
  ProductType.key_of_input p = Some (ProductType.key (ProductType.cast y)).
Proof.
  unfold ProductType.normalize, ProductType.key_of_input, ProductType.key.
  destruct (ProductType.in_name p) as [n|]; [|done]. intros [= <-]. simpl.
  by rewrite trim_idemp, trim_lower_trim.
Qed.

Lemma type_keys_stored time l v :
  mapM (ProductType.normalize time) l = Some v ->
  ProductType.key_of_input <$> l
  = Some <$> (ProductType.key <$> (ProductType.cast <$> v)).
Proof.
  rewrite mapM_Some. induction 1 as [|p y l v Hp _ IH]; [done|].
  rewrite !fmap_cons. by rewrite (type_key_stored _ _ _ Hp), IH.
Qed.

(** What each of the three blocks does, by cases on its outcome. *)
Lemma update_categories_spec w f d :
  match update_categories w f d with
  | inl r =>
      exists m, r = Send (failure 400 m) /\ ~ categories_pass f
        /\ ((exists k, repeated (category_keys f) k) ->
            m = "Duplicate category names found: "
                ++ Js.join ", " (Js.duplicates (category_keys f)))
  | inr d' =>
      categories_pass f
      /\ ((supplied f = false /\ d' = d)
          \/ exists l v, f = Array l
               /\ mapM (Category.normalize (now w)) l = Some v
               /\ d' = set_preferences "preferences.categories"
                         (replaces v
                            (Preferences.categories
                               (Business.preferences (fields d))))
                         (Preferences.set_categories v) d)
  end.
Proof.
  destruct f as [|[]|l]; simpl; try by (split; [|left]).
  - eexists. split; [done|]. split; [tauto|].
    intros [k (i & j & _ & Hi & _)]. done.
  - destruct (0 <? length _)%nat eqn:Hdup.
    + eexists. split; [done|]. split; [|done]. intros [Hnd _].
      apply duplicates_length in Hnd. congruence.
    + apply duplicates_length in Hdup.
      destruct (check_categories l) as [m|] eqn:Hcheck.
      * eexists. split; [done|]. split.
        -- intros [_ Hnamed]. apply check_categories_None in Hnamed.
           congruence.
        -- intros [k Hk]. by apply NoDup_not_repeated in Hk.
      * apply check_categories_None in Hcheck.
        destruct (normalize_categories (now w) l Hcheck) as [v Hv].
        rewrite Hv. split; [done|]. right. by exists l, v.
Qed.

Lemma update_units_spec w f d :
  match update_units w f d with
  | inl r =>
      exists m, r = Send (failure 400 m) /\ ~ units_pass f
        /\ ((exists k, repeated (unit_keys f) k) ->
            m = "Duplicate unit abbreviations found: "
                ++ Js.join ", " (Js.duplicates (unit_keys f)))
  | inr d' =>
      units_pass f
      /\ ((supplied f = false /\ d' = d)
          \/ exists l v, f = Array l
               /\ mapM (Unit.normalize (now w)) l = Some v
               /\ d' = set_preferences "preferences.units"
                         (replaces v
                            (Preferences.units
                               (Business.preferences (fields d))))
                         (Preferences.set_units v) d)
  end.
Proof.
  destruct f as [|[]|l]; simpl; try by (split; [|left]).
  - eexists. split; [done|]. split; [tauto|].
    intros [k (i & j & _ & Hi & _)]. done.
  - destruct (0 <? length _)%nat eqn:Hdup.
    + eexists. split; [done|]. split; [|done]. intros [Hnd _].
      apply duplicates_length in Hnd. congruence.
    + apply duplicates_length in Hdup.
      destruct (check_units l) as [m|] eqn:Hcheck.
      * eexists. split; [done|]. split.
        -- intros [_ Hnamed]. apply check_units_None in Hnamed.
           congruence.
        -- intros [k Hk]. by apply NoDup_not_repeated in Hk.
      * apply check_units_None in Hcheck.
        destruct (normalize_units (now w) l Hcheck) as [v Hv].
        rewrite Hv. split; [done|]. right. by exists l, v.
Qed.

Lemma update_productTypes_spec w f d :
  match update_productTypes w f d with
  | inl r =>
      exists m, r = Send (failure 400 m)
        /\ ((exists k, repeated (type_keys f) k) ->
            m = "Duplicate product type names found: "
                ++ Js.join ", " (Js.duplicates (type_keys f)))
  | inr d' =>
      (supplied f = false /\ d' = d)
      \/ exists l v, f = Array l
           /\ NoDup (ProductType.key_of_input <$> l)
           /\ mapM (ProductType.normalize (now w)) l = Some v
           /\ d' = set_preferences "preferences.productTypes"
                     (replaces v
                        (Preferences.productTypes
                           (Business.preferences (fields d))))
                     (Preferences.set_productTypes v) d
  end.
Proof.
  destruct f as [|[]|l]; simpl; try by left.
  - eexists. split; [done|].
    intros [k (i & j & _ & Hi & _)]. done.
  - destruct (0 <? length _)%nat eqn:Hdup.
    + eexists. split; done.
    + apply duplicates_length in Hdup.
      destruct (check_productTypes l) as [m|] eqn:Hcheck.
      * eexists. split; [done|].
        intros [k Hk]. by apply NoDup_not_repeated in Hk.
      * apply check_productTypes_None in Hcheck.
        destruct (normalize_productTypes (now w) l Hcheck) as [v Hv].
        rewrite Hv. right. by exists l, v.
Qed.


Lemma update_categories_meta w f d d' :
  update_categories w f d = inr d' ->
  _id d' = _id d /\ isNew d' = isNew d
  /\ forall stored, business_tracks d stored -> business_tracks d' stored.
Proof.
  intros Hd. pose proof (update_categories_spec w f d) as Hs.
  rewrite Hd in Hs.
  destruct Hs as [_ [[_ ->]|(l & v & _ & _ & ->)]]; [done|].
  split; [done|]. split; [done|]. intros stored Ht.
  apply (business_tracks_assign _ _ _ (Category.cast <$> v) _ d stored
           writes_categories); [|done].
  by intros [-> ->]%replaces_false.
Qed.

Lemma update_units_meta w f d d' :
  update_units w f d = inr d' ->
  _id d' = _id d /\ isNew d' = isNew d
  /\ forall stored, business_tracks d stored -> business_tracks d' stored.
Proof.
  intros Hd. pose proof (update_units_spec w f d) as Hs.
  rewrite Hd in Hs.
  destruct Hs as [_ [[_ ->]|(l & v & _ & _ & ->)]]; [done|].
  split; [done|]. split; [done|]. intros stored Ht.
  apply (business_tracks_assign _ _ _ (Unit.cast <$> v) _ d stored
           writes_units); [|done].
  by intros [-> ->]%replaces_false.
Qed.

Lemma update_productTypes_meta w f d d' :
  update_productTypes w f d = inr d' ->
  _id d' = _id d /\ isNew d' = isNew d
  /\ forall stored, business_tracks d stored -> business_tracks d' stored.
Proof.
  intros Hd. pose proof (update_productTypes_spec w f d) as Hs.
  rewrite Hd in Hs.
  destruct Hs as [[_ ->]|(l & v & _ & _ & _ & ->)]; [done|].
  split; [done|]. split; [done|]. intros stored Ht.
  apply (business_tracks_assign _ _ _ (ProductType.cast <$> v) _ d stored
           writes_productTypes); [|done].
  by intros [-> ->]%replaces_false.
Qed.

Lemma Business_merge_nil x dst : Business.merge [] x dst = dst.
Proof.
  unfold Business.merge, sent. simpl.
  by destruct dst as [? ? ? ? ? ? ? ? ? ? ? [] ? ? ? ? ? ? ? ? ?].
Qed.

(** The six ways [updatePreferences] ends once the business is found. *)
Lemma updatePreferences_cases w id body db b :
  businesses db !! id = Some b ->
  let r := updatePreferences w id body db in
  let d := hydrate id b in
  (supplied (categories body) = false /\ supplied (units body) = false
   /\ supplied (productTypes body) = false
   /\ r = (Send (failure 400 msg_nothing), db))
  \/ (exists m,
        update_categories w (categories body) d = inl (Send (failure 400 m))
        /\ r = (Send (failure 400 m), db))
  \/ (exists d1 m,
        update_categories w (categories body) d = inr d1
        /\ update_units w (units body) d1 = inl (Send (failure 400 m))
        /\ r = (Send (failure 400 m), db))
  \/ (exists d1 d2 m,
        update_categories w (categories body) d = inr d1
        /\ update_units w (units body) d1 = inr d2
        /\ update_productTypes w (productTypes body) d2
           = inl (Send (failure 400 m))
        /\ r = (Send (failure 400 m), db))
  \/ (exists d1 d2 d3,
        update_categories w (categories body) d = inr d1
        /\ update_units w (units body) d1 = inr d2
        /\ update_productTypes w (productTypes body) d2 = inr d3
        /\ ((exists e,
               r = (Next e, db)
               /\ (invalid true (outcome w 0) = Some e
                   \/ (modifiedPaths d3 <> []
                       /\ refusal true (outcome w 0) = Some e)))
            \/ (exists b',
                  invalid true (outcome w 0) = None
                  /\ ((modifiedPaths d3 = [] /\ b' = b /\ fields d3 = b)
                      \/ (modifiedPaths d3 <> []
                          /\ rejected (outcome w 0) = None
                          /\ b' = Business.stamp false (now w) (fields d3)))
                  /\ Business.preferences b'
                     = Business.preferences (fields d3)
                  /\ r = (Send (ok 200 "Preferences updated successfully"
                                  (PreferencesView
                                     (Business.preferences (fields d3))
                                     (stats_of
                                        (Business.preferences (fields d3))))),
                          {| users := users db;
                             businesses := <[id := b']> (businesses db) |})))).
Proof.
  intros Hb r d. subst r. unfold updatePreferences, Business.findById.
  rewrite Hb. simpl. fold d.
  destruct (supplied (categories body)) eqn:Sc;
    destruct (supplied (units body)) eqn:Su;
    destruct (supplied (productTypes body)) eqn:Sp; simpl;
    try (by left).
  all: right; unfold mbind, sum_bind.
  all: pose proof (update_categories_spec w (categories body) d) as Hc;
    destruct (update_categories w (categories body) d) as [r1|d1] eqn:E1;
    [destruct Hc as (m & -> & _); left; by exists m|right].
  all: pose proof (update_units_spec w (units body) d1) as Hu;
    destruct (update_units w (units body) d1) as [r2|d2] eqn:E2;
    [destruct Hu as (m & -> & _); left; by exists d1, m|right].
  all: pose proof (update_productTypes_spec w (productTypes body) d2) as Hp;
    destruct (update_productTypes w (productTypes body) d2) as [r3|d3] eqn:E3;
    [destruct Hp as (m & -> & _); left; by exists d1, d2, m|right].
  all: exists d1, d2, d3; split; [done|]; split; [done|]; split; [done|].
  all: apply update_categories_meta in E1 as (I1 & N1 & T1);
    apply update_units_meta in E2 as (I2 & N2 & T2);
    apply update_productTypes_meta in E3 as (I3 & N3 & T3).
  all: assert (Hold : isNew d3 = false) by (by rewrite N3, N2, N1).
  all: assert (Hid : _id d3 = id) by (by rewrite I3, I2, I1).
  all: assert (Ht : business_tracks d3 b)
    by (apply T3, T2, T1, business_tracks_hydrate).
  all: assert (Hstored : businesses db !! _id d3 = Some b)
    by (by rewrite Hid).
  all: destruct (modifiedPaths d3) as [|p paths] eqn:Hmod;
    [rewrite (Business_save_unmodified _ _ _ _ b) by done;
     destruct (invalid true (outcome w 0)) as [e|];
       [left; exists e; split; [done|by left]|];
     right; exists b;
     assert (Hb3 : fields d3 = b)
       by (unfold business_tracks in Ht; rewrite Hmod in Ht;
           by rewrite Business_merge_nil in Ht);
     split; [done|]; split; [by left|]; split; [by rewrite Hb3|];
     by rewrite insert_id by done
    |rewrite (Business_save_modified _ _ _ _ b)
       by (try done; by rewrite Hmod);
     unfold refusal; destruct (invalid true (outcome w 0)) as [e|];
       [left; exists e; split; [done|by left]|];
     destruct (rejected (outcome w 0)) as [e|] eqn:Hrej;
       [left; exists e; split; [done|by right]|];
     right; eexists; split; [done|]; split; [by right|];
     split; [done|]; by rewrite Hid].
Qed.


(** Effect of each block on the three collections. *)
Lemma update_categories_prefs w f d d' :
  update_categories w f d = inr d' ->
  let p := Business.preferences (fields d) in
  let p' := Business.preferences (fields d') in
  Preferences.units p' = Preferences.units p
  /\ Preferences.productTypes p' = Preferences.productTypes p
  /\ (supplied f = false ->
      Preferences.categories p' = Preferences.categories p)
  /\ (supplied f = true ->
      NoDup (Category.key <$> Preferences.categories p')).
Proof.
  intros Hd. pose proof (update_categories_spec w f d) as Hs.
  rewrite Hd in Hs.
  destruct Hs as [Hpass [[Hf ->]|(l & v & -> & Hv & ->)]]; simpl.
  - repeat split; try done. congruence.
  - repeat split; try done. intros _. destruct Hpass as [Hnd _].
    rewrite (category_keys_stored _ _ _ Hv) in Hnd.
    by apply NoDup_fmap_1 in Hnd.
Qed.

Lemma update_units_prefs w f d d' :
  update_units w f d = inr d' ->
  let p := Business.preferences (fields d) in
  let p' := Business.preferences (fields d') in
  Preferences.categories p' = Preferences.categories p
  /\ Preferences.productTypes p' = Preferences.productTypes p
  /\ (supplied f = false -> Preferences.units p' = Preferences.units p)
  /\ (supplied f = true -> NoDup (Unit.key <$> Preferences.units p')).
Proof.
  intros Hd. pose proof (update_units_spec w f d) as Hs.
  rewrite Hd in Hs.
  destruct Hs as [Hpass [[Hf ->]|(l & v & -> & Hv & ->)]]; simpl.
  - repeat split; try done. congruence.
  - repeat split; try done. intros _. destruct Hpass as [Hnd _].
    rewrite (unit_keys_stored _ _ _ Hv) in Hnd.
    by apply NoDup_fmap_1 in Hnd.
Qed.

Lemma update_productTypes_prefs w f d d' :
  update_productTypes w f d = inr d' ->
  let p := Business.preferences (fields d) in
  let p' := Business.preferences (fields d') in
  Preferences.categories p' = Preferences.categories p
  /\ Preferences.units p' = Preferences.units p
  /\ (supplied f = false ->
      Preferences.productTypes p' = Preferences.productTypes p)
  /\ (supplied f = true ->
      NoDup (ProductType.key <$> Preferences.productTypes p')).
Proof.
  intros Hd. pose proof (update_productTypes_spec w f d) as Hs.
  rewrite Hd in Hs.
  destruct Hs as [[Hf ->]|(l & v & -> & Hnd & Hv & ->)]; simpl.
  - repeat split; try done. congruence.
  - repeat split; try done. intros _.
    rewrite (type_keys_stored _ _ _ Hv) in Hnd.
    by apply NoDup_fmap_1 in Hnd.
Qed.

Lemma pass_not_repeated_categories f :
  categories_pass f -> ~ exists k, repeated (category_keys f) k.
Proof.
  destruct f as [|[]|l]; simpl; intros Hp [k Hk]; try done.
  - by destruct Hk as (i & j & _ & Hi & _).
  - by destruct Hk as (i & j & _ & Hi & _).
  - destruct Hp as [Hnd _]. by apply NoDup_not_repeated in Hk.
Qed.

Lemma pass_not_repeated_units f :
  units_pass f -> ~ exists k, repeated (unit_keys f) k.
Proof.
  destruct f as [|[]|l]; simpl; intros Hp [k Hk]; try done.
  - by destruct Hk as (i & j & _ & Hi & _).
  - by destruct Hk as (i & j & _ & Hi & _).
  - destruct Hp as [Hnd _]. by apply NoDup_not_repeated in Hk.
Qed.

(** Each block rejects a collection with a repeated key, naming the
    duplicates, whatever the document it works on. *)
Lemma update_categories_duplicates w l d :
  (exists k, repeated (Category.key_of_input <$> l) k) ->
  update_categories w (Array l) d
  = inl (Send (failure 400
      ("Duplicate category names found: "
       ++ Js.join ", " (Js.duplicates (Category.key_of_input <$> l))))).
Proof.
  intros Hk. pose proof (update_categories_spec w (Array l) d) as Hs.
  destruct (update_categories w (Array l) d) as [r|d'].
  - destruct Hs as (m & -> & _ & Hm). by rewrite (Hm Hk).
  - destruct Hs as [[Hnd _] _]. destruct Hk as [k Hk].
    by apply NoDup_not_repeated in Hk.
Qed.

Lemma update_units_duplicates w l d :
  (exists k, repeated (Unit.key_of_input <$> l) k) ->
  update_units w (Array l) d
  = inl (Send (failure 400
      ("Duplicate unit abbreviations found: "
       ++ Js.join ", " (Js.duplicates (Unit.key_of_input <$> l))))).
Proof.
  intros Hk. pose proof (update_units_spec w (Array l) d) as Hs.
  destruct (update_units w (Array l) d) as [r|d'].
  - destruct Hs as (m & -> & _ & Hm). by rewrite (Hm Hk).
  - destruct Hs as [[Hnd _] _]. destruct Hk as [k Hk].
    by apply NoDup_not_repeated in Hk.
Qed.

Lemma update_productTypes_duplicates w l d :
  (exists k, repeated (ProductType.key_of_input <$> l) k) ->
  update_productTypes w (Array l) d
  = inl (Send (failure 400
      ("Duplicate product type names found: "
       ++ Js.join ", " (Js.duplicates (ProductType.key_of_input <$> l))))).
Proof.
  intros Hk. pose proof (update_productTypes_spec w (Array l) d) as Hs.
  destruct (update_productTypes w (Array l) d) as [r|d'].
  - destruct Hs as (m & -> & Hm). by rewrite (Hm Hk).
  - destruct Hs as [[Hs _]|(l' & v & [= <-] & Hnd & _)]; [done|].
    destruct Hk as [k Hk]. by apply NoDup_not_repeated in Hk.
Qed.

(** The outcomes of a replace that matter for the duplicate check. *)
Lemma updatePreferences_outcomes w id body db b :
  businesses db !! id = Some b ->
  (duplicate_in body ->
   exists m, updatePreferences w id body db = (Send (failure 400 m), db))
  /\ ((exists k, repeated (category_keys (categories body)) k) ->
      updatePreferences w id body db
      = (Send (failure 400
           ("Duplicate category names found: "
            ++ Js.join ", " (Js.duplicates (category_keys (categories body))))),
         db))
  /\ (categories_pass (categories body) ->
      (exists k, repeated (unit_keys (units body)) k) ->
      updatePreferences w id body db
      = (Send (failure 400
           ("Duplicate unit abbreviations found: "
            ++ Js.join ", " (Js.duplicates (unit_keys (units body))))),
         db))
  /\ (categories_pass (categories body) -> units_pass (units body) ->
      (exists k, repeated (type_keys (productTypes body)) k) ->
      updatePreferences w id body db
      = (Send (failure 400
           ("Duplicate product type names found: "
            ++ Js.join ", " (Js.duplicates (type_keys (productTypes body))))),
         db))
  /\ (forall (keys : list (option string)) k,
        k ∈ Js.duplicates keys <-> repeated keys k)
  /\ (forall prefs stats db',
        updatePreferences w id body db
        = (Send (ok 200 "Preferences updated successfully"
                   (PreferencesView prefs stats)), db') ->
        exists b', businesses db' !! id = Some b'
          /\ Business.preferences b' = prefs
          /\ (supplied (categories body) = true ->
              NoDup (Category.key <$> Preferences.categories prefs))
          /\ (supplied (units body) = true ->
              NoDup (Unit.key <$> Preferences.units prefs))
          /\ (supplied (productTypes body) = true ->
              NoDup (ProductType.key <$> Preferences.productTypes prefs))
          /\ (distinct_keys (Business.preferences b) -> distinct_keys prefs)).
Proof.
  intros Hb.
  pose proof (updatePreferences_cases w id body db b Hb) as Hcases.
  simpl in Hcases.
  pose proof (update_categories_spec w (categories body) (hydrate id b)) as Hc.
  split; [|split; [|split; [|split; [|split]]]].
  - intros Hdup.
    destruct Hcases as [(Sc & Su & Sp & _)|[(m & _ & ->)|[(d1 & m & _ & _ & ->)
      |[(d1 & d2 & m & _ & _ & _ & ->)|(d1 & d2 & d3 & E1 & E2 & E3 & _)]]]];
      try by eexists.
    + exfalso. destruct Hdup as [[k Hk]|[[k Hk]|[k Hk]]];
        destruct Hk as (i & j & _ & Hi & _).
      * by destruct (categories body) as [|[]|l].
      * by destruct (units body) as [|[]|l].
      * by destruct (productTypes body) as [|[]|l].
    + exfalso. rewrite E1 in Hc. destruct Hc as [Pc _].
      pose proof (update_units_spec w (units body) d1) as Hu.
      rewrite E2 in Hu. destruct Hu as [Pu _].
      pose proof (update_productTypes_spec w (productTypes body) d2) as Hp.
      rewrite E3 in Hp.
      destruct Hdup as [Hk|[Hk|[k Hk]]].
      * by apply pass_not_repeated_categories in Hk.
      * by apply pass_not_repeated_units in Hk.
      * destruct Hp as [[Sp _]|(l & v & Hl & Hnd & _)].
        -- destruct Hk as (i & j & _ & Hi & _).
           by destruct (productTypes body) as [|[]|l].
        -- rewrite Hl in Hk. simpl in Hk. by apply NoDup_not_repeated in Hk.
  - intros Hk.
    destruct (update_categories w (categories body) (hydrate id b))
      as [r1|d1] eqn:E1.
    + destruct Hc as (m & -> & _ & Hm). specialize (Hm Hk). subst m.
      destruct Hcases as [(Sc & _)|[(m' & E & ->)|[(? & ? & E & _)
        |[(? & ? & ? & E & _)|(? & ? & ? & E & _)]]]];
        try discriminate E.
      * destruct Hk as [k (i & j & _ & Hi & _)].
        by destruct (categories body) as [|[]|l].
      * by injection E as <-.
    + destruct Hc as [Pc _]. by apply pass_not_repeated_categories in Hk.
  - intros Pc Hk.
    destruct Hcases as [(_ & Su & _)|[(m & E & _)|[(d1 & m & E1 & E2 & ->)
      |[(d1 & d2 & m & _ & E2 & _)|(d1 & d2 & d3 & _ & E2 & _)]]]].
    + destruct Hk as [k (i & j & _ & Hi & _)].
      by destruct (units body) as [|[]|l].
    + rewrite E in Hc. by destruct Hc as (? & _ & ? & _).
    + pose proof (update_units_spec w (units body) d1) as Hu.
      rewrite E2 in Hu. destruct Hu as (m' & [= ->] & _ & Hm).
      by rewrite (Hm Hk).
    + pose proof (update_units_spec w (units body) d1) as Hu.
      rewrite E2 in Hu. destruct Hu as [Pu _].
      by apply pass_not_repeated_units in Hk.
    + pose proof (update_units_spec w (units body) d1) as Hu.
      rewrite E2 in Hu. destruct Hu as [Pu _].
      by apply pass_not_repeated_units in Hk.
  - intros Pc Pu Hk.
    destruct Hcases as [(_ & _ & Sp & _)|[(m & E & _)|[(d1 & m & _ & E2 & _)
      |[(d1 & d2 & m & _ & _ & E3 & ->)|(d1 & d2 & d3 & _ & _ & E3 & _)]]]].
    + destruct Hk as [k (i & j & _ & Hi & _)].
      by destruct (productTypes body) as [|[]|l].
    + rewrite E in Hc. by destruct Hc as (? & _ & ? & _).
    + pose proof (update_units_spec w (units body) d1) as Hu.
      rewrite E2 in Hu. by destruct Hu as (? & _ & ? & _).
    + pose proof (update_productTypes_spec w (productTypes body) d2) as Hp.
      rewrite E3 in Hp. destruct Hp as (m' & [= ->] & Hm).
      by rewrite (Hm Hk).
    + pose proof (update_productTypes_spec w (productTypes body) d2) as Hp.
      rewrite E3 in Hp. exfalso.
      destruct Hp as [[Sp _]|(l & v & Hl & Hnd & _)].
      * destruct Hk as [k (i & j & _ & Hi & _)].
        by destruct (productTypes body) as [|[]|l].
      * rewrite Hl in Hk. simpl in Hk. destruct Hk as [k Hk].
        by apply NoDup_not_repeated in Hk.
  - intros keys k. apply elem_of_duplicates.
  - intros prefs stats db' Hok.
    destruct Hcases as [(_ & _ & _ & E)|[(m & _ & E)|[(d1 & m & _ & _ & E)
      |[(d1 & d2 & m & _ & _ & _ & E)
       |(d1 & d2 & d3 & E1 & E2 & E3
         & [(e & E & _)|(b' & _ & _ & Hprefs & E)])]]]];
      rewrite E in Hok; try done.
    injection Hok as <- <- <-.
    apply update_categories_prefs in E1 as (C1u & C1p & C1c & C1n).
    apply update_units_prefs in E2 as (C2c & C2p & C2u & C2n).
    apply update_productTypes_prefs in E3 as (C3c & C3u & C3p & C3n).
    simpl in *. exists b'. split; [apply lookup_insert_eq|].
    split; [done|].
    assert (Hcat : supplied (categories body) = true ->
              NoDup (Category.key <$> Preferences.categories
                       (Business.preferences (fields d3))))
      by (intros ?; rewrite C3c, C2c; auto).
    assert (Hunit : supplied (units body) = true ->
              NoDup (Unit.key <$> Preferences.units
                       (Business.preferences (fields d3))))
      by (intros ?; rewrite C3u; auto).
    split; [done|]. split; [done|]. split; [done|].
    intros (D1 & D2 & D3). repeat split.
    + destruct (supplied (categories body)); [auto|].
      by rewrite C3c, C2c, C1c.
    + destruct (supplied (units body)); [auto|].
      by rewrite C3u, C2u, C1u.
    + destruct (supplied (productTypes body)); [auto|].
      by rewrite C3p, C2p, C1p.
Qed.


(** Claim C5.  Whatever the outcome of the call, a collection that the
    request does not supply is the same in the stored business before and
    after. *)
Theorem updatePreferences_frame w id body db b reply db' :
  businesses db !! id = Some b ->
  updatePreferences w id body db = (reply, db') ->
  exists b', businesses db' !! id = Some b'
    /\ (supplied (categories body) = false ->
        Preferences.categories (Business.preferences b')
        = Preferences.categories (Business.preferences b))
    /\ (supplied (units body) = false ->
        Preferences.units (Business.preferences b')
        = Preferences.units (Business.preferences b))
    /\ (supplied (productTypes body) = false ->
        Preferences.productTypes (Business.preferences b')
        = Preferences.productTypes (Business.preferences b)).
Proof.
  intros Hb Hrun.
  pose proof (updatePreferences_cases w id body db b Hb) as Hcases.
  simpl in Hcases. rewrite Hrun in Hcases.
  destruct Hcases as [(_ & _ & _ & E)|[(m & _ & E)|[(d1 & m & _ & _ & E)
    |[(d1 & d2 & m & _ & _ & _ & E)
     |(d1 & d2 & d3 & E1 & E2 & E3
       & [(e & E & _)|(b' & _ & _ & Hprefs & E)])]]]];
    injection E as -> ->; try by exists b.
  apply update_categories_prefs in E1 as (C1u & C1p & C1c & _).
  apply update_units_prefs in E2 as (C2c & C2p & C2u & _).
  apply update_productTypes_prefs in E3 as (C3c & C3u & C3p & _).
  simpl in *. exists b'. split; [apply lookup_insert_eq|].
  rewrite Hprefs.
  repeat split; intros Hs.
  - by rewrite C3c, C2c, C1c.
  - by rewrite C3u, C2u, C1u.
  - by rewrite C3p, C2p, C1p.
Qed.

(** Claim C7, amended.  After a successful replace, a submitted product
    type that omits the three flags is stored with requires-serial-number
    and requires-expiry-date false and track-inventory true. *)
Theorem productType_flags_default w id body db b l prefs stats db' i p :
  businesses db !! id = Some b ->
  productTypes body = Array l ->
  updatePreferences w id body db
  = (Send (ok 200 "Preferences updated successfully"
             (PreferencesView prefs stats)), db') ->
  l !! i = Some p ->
  ProductType.in_requiresSerialNumber p = None ->
  ProductType.in_requiresExpiryDate p = None ->
  ProductType.in_trackInventory p = None ->
  exists b' s, businesses db' !! id = Some b'
    /\ Preferences.productTypes (Business.preferences b') !! i = Some s
    /\ ProductType.requiresSerialNumber s = false
    /\ ProductType.requiresExpiryDate s = false
    /\ ProductType.trackInventory s = true.
Proof.
  intros Hb Hl Hok Hi Hserial Hexpiry Htrack.
  pose proof (updatePreferences_cases w id body db b Hb) as Hcases.
  simpl in Hcases. rewrite Hok in Hcases.
  destruct Hcases as [(_ & _ & _ & E)|[(m & _ & E)|[(d1 & m & _ & _ & E)
    |[(d1 & d2 & m & _ & _ & _ & E)
     |(d1 & d2 & d3 & E1 & E2 & E3
       & [(e & E & _)|(b' & _ & _ & Hprefs & E)])]]]];
    try discriminate E.
  injection E as -> -> ->.
  pose proof (update_productTypes_spec w (productTypes body) d2) as Hp.
  rewrite E3, Hl in Hp.
  destruct Hp as [[Hs _]|(l' & v & [= <-] & _ & Hv & ->)]; [done|].
  apply mapM_Some in Hv.
  destruct (Forall2_lookup_l _ _ _ _ _ Hv Hi) as (y & Hy & Hnorm).
  exists b', (ProductType.cast y). split; [apply lookup_insert_eq|].
  rewrite Hprefs. simpl. rewrite list_lookup_fmap, Hy. split; [done|].
  unfold ProductType.normalize in Hnorm.
  destruct (ProductType.in_name p); [|done].
  rewrite Hserial, Hexpiry, Htrack in Hnorm. by injection Hnorm as <-.
Qed.

End Preferences.

(** ** Updating the profile *)

Section Profile.
Context `{Js.Lawful}.

(** A projection that an assignment does not touch reads the same before
    and after. *)
Lemma proj_set_if_truthy {B C} `{EqDecision C} (proj : Business.t -> B)
    path (proj' : Business.t -> C) v f d :
  (forall s b, proj (f s b) = proj b) ->
  proj (fields (set_if_truthy path proj' v f d)) = proj (fields d).
Proof.
  intros Hf. unfold set_if_truthy.
  destruct v as [s|]; [|done]. destruct (Js.truthy (Some s)); [|done].
  apply Hf.
Qed.

Lemma proj_set_if_defined {B C} `{EqDecision C} (proj : Business.t -> B)
    path (proj' : Business.t -> C) v f d :
  (forall x b, proj (f x b) = proj b) ->
  proj (fields (set_if_defined path proj' v f d)) = proj (fields d).
Proof.
  intros Hf. unfold set_if_defined. destruct v as [s|]; [|done]. apply Hf.
Qed.

Lemma proj_address {B} (proj : Business.t -> B) (a : option (gmap string string))
    (d : Doc Business.t) :
  (forall x b, proj (Business.with_address x b) = proj b) ->
  proj (fields
          match a with
          | Some address =>
              set_path "address" Business.address
                (fun b => Business.with_address
                   (Business.cast_address (address ∪ Business.address b)) b)
                d
          | None => d
          end) = proj (fields d).
Proof. intros Hf. destruct a; [apply Hf|done]. Qed.

Lemma fields_set_if_truthy {C} `{EqDecision C} path
    (proj' : Business.t -> C) v f d :
  fields (set_if_truthy path proj' v f d)
  = match v with
    | Some s => if Js.truthy v then f s (fields d) else fields d
    | None => fields d
    end.
Proof.
  unfold set_if_truthy. destruct v as [s|]; [|done].
  by destruct (Js.truthy (Some s)).
Qed.

Lemma fields_set_if_defined {C} `{EqDecision C} path
    (proj' : Business.t -> C) v f d :
  fields (set_if_defined path proj' v f d)
  = match v with
    | Some s => f (Some s) (fields d)
    | None => fields d
    end.
Proof. unfold set_if_defined. by destruct v. Qed.

(** The assignments keep the identity of the document. *)
Lemma meta_set_if_truthy {C} `{EqDecision C} path
    (proj' : Business.t -> C) v f d :
  _id (set_if_truthy path proj' v f d) = _id d
  /\ isNew (set_if_truthy path proj' v f d) = isNew d.
Proof.
  unfold set_if_truthy. destruct v as [s|]; [|done].
  by destruct (Js.truthy (Some s)).
Qed.

Lemma meta_set_if_defined {C} `{EqDecision C} path
    (proj' : Business.t -> C) v f d :
  _id (set_if_defined path proj' v f d) = _id d
  /\ isNew (set_if_defined path proj' v f d) = isNew d.
Proof. unfold set_if_defined. by destruct v. Qed.

Lemma apply_profile_meta body d :
  _id (apply_profile body d) = _id d
  /\ isNew (apply_profile body d) = isNew d.
Proof.
  unfold apply_profile.
  repeat first
    [ rewrite (proj1 (meta_set_if_defined _ _ _ _ _))
    | rewrite (proj2 (meta_set_if_defined _ _ _ _ _))
    | rewrite (proj1 (meta_set_if_truthy _ _ _ _ _))
    | rewrite (proj2 (meta_set_if_truthy _ _ _ _ _)) ].
  destruct (address body); simpl;
    repeat first
      [ rewrite (proj1 (meta_set_if_defined _ _ _ _ _))
      | rewrite (proj2 (meta_set_if_defined _ _ _ _ _))
      | rewrite (proj1 (meta_set_if_truthy _ _ _ _ _))
      | rewrite (proj2 (meta_set_if_truthy _ _ _ _ _)) ];
    done.
Qed.

(** The assignments keep the document in step with the stored one. *)
Lemma tracks_set_path {B} `{EqDecision B} path (proj : Business.t -> B)
    with_ v d stored :
  writes path proj with_ ->
  business_tracks d stored ->
  business_tracks (set_path path proj (with_ v) d) stored.
Proof.
  intros Hw Ht. unfold set_path.
  apply (business_tracks_assign path proj with_ v _ d stored Hw); [|done].
  destruct Hw as (_ & Hget & _). rewrite Hget.
  intros Hc. apply negb_false_iff, bool_decide_eq_true in Hc. done.
Qed.

Lemma tracks_truthy {B} `{EqDecision B} path (proj : Business.t -> B)
    with_ (g : string -> B) v d stored :
  writes path proj with_ ->
  business_tracks d stored ->
  business_tracks (set_if_truthy path proj v (fun s => with_ (g s)) d) stored.
Proof.
  intros Hw Ht. unfold set_if_truthy. destruct v as [s|]; [|done].
  destruct (Js.truthy (Some s)); [|done]. by apply tracks_set_path.
Qed.

Lemma tracks_defined {B} `{EqDecision B} path (proj : Business.t -> B)
    with_ (g : option string -> B) v d stored :
  writes path proj with_ ->
  business_tracks d stored ->
  business_tracks (set_if_defined path proj v (fun x => with_ (g x)) d) stored.
Proof.
  intros Hw Ht. unfold set_if_defined. destruct v as [s|]; [|done].
  by apply tracks_set_path.
Qed.

Lemma apply_profile_tracks body d stored :
  business_tracks d stored ->
  business_tracks (apply_profile body d) stored.
Proof.
  intros Ht. unfold apply_profile.
  apply (tracks_defined _ _ _ (fmap Js.trim) _ _ _ writes_taxId).
  apply (tracks_defined _ _ _ (fmap Js.trim) _ _ _ writes_registrationNumber).
  apply (tracks_truthy _ _ _ (fun s => s) _ _ _ writes_timezone).
  apply (tracks_truthy _ _ _ (fun s => s) _ _ _ writes_currency).
  match goal with
  | |- business_tracks (match ?a with _ => _ end) _ => destruct a as [a'|]
  end.
  1: apply (tracks_set_path _ _ _
              (Business.cast_address (a' ∪ Business.address (fields _)))
              _ _ writes_address).
  all: apply (tracks_defined _ _ _ (fmap Js.trim) _ _ _ writes_website).
  all: apply (tracks_defined _ _ _ (fmap Js.trim) _ _ _ writes_phone).
  all: apply (tracks_truthy _ _ _ (fun s => Some (Business.cast_email s))
                _ _ _ writes_email).
  all: apply (tracks_truthy _ _ _ (fun s => s) _ _ _ writes_industry).
  all: apply (tracks_defined _ _ _ (fmap Js.trim) _ _ _ writes_description).
  all: by apply (tracks_truthy _ _ _ Js.trim _ _ _ writes_name).
Qed.

Ltac frame proj :=
  repeat first
    [ rewrite (proj_set_if_defined proj) by reflexivity
    | rewrite (proj_set_if_truthy proj) by reflexivity
    | rewrite (proj_address proj) by reflexivity ].

Lemma apply_profile_name body d :
  Business.name (fields (apply_profile body d))
  = match scalars body !! "name" with
    | Some s => if Js.truthy (Some s) then Js.trim s else Business.name (fields d)
    | None => Business.name (fields d)
    end.
Proof.
  unfold apply_profile. frame Business.name.
  rewrite fields_set_if_truthy.
  destruct (scalars body !! "name") as [s|]; [|done].
  by destruct (Js.truthy (Some s)).
Qed.

Lemma apply_profile_industry body d :
  Business.industry (fields (apply_profile body d))
  = match scalars body !! "industry" with
    | Some s => if Js.truthy (Some s) then s else Business.industry (fields d)
    | None => Business.industry (fields d)
    end.
Proof.
  unfold apply_profile. frame Business.industry.
  rewrite fields_set_if_truthy.
  destruct (scalars body !! "industry") as [s|]; [|by frame Business.industry].
  destruct (Js.truthy (Some s)); [done|by frame Business.industry].
Qed.

Lemma apply_profile_currency body d :
  Business.currency (fields (apply_profile body d))
  = match scalars body !! "currency" with
    | Some s => if Js.truthy (Some s) then s else Business.currency (fields d)
    | None => Business.currency (fields d)
    end.
Proof.
  unfold apply_profile. frame Business.currency.
  rewrite fields_set_if_truthy.
  destruct (scalars body !! "currency") as [s|]; [|by frame Business.currency].
  destruct (Js.truthy (Some s)); [done|by frame Business.currency].
Qed.

Lemma apply_profile_timezone body d :
  Business.timezone (fields (apply_profile body d))
  = match scalars body !! "timezone" with
    | Some s => if Js.truthy (Some s) then s else Business.timezone (fields d)
    | None => Business.timezone (fields d)
    end.
Proof.
  unfold apply_profile. frame Business.timezone.
  rewrite fields_set_if_truthy.
  destruct (scalars body !! "timezone") as [s|]; [|by frame Business.timezone].
  destruct (Js.truthy (Some s)); [done|by frame Business.timezone].
Qed.

Lemma apply_profile_email body d :
  Business.email (fields (apply_profile body d))
  = match scalars body !! "email" with
    | Some s =>
        if Js.truthy (Some s) then Some (Business.cast_email s)
        else Business.email (fields d)
    | None => Business.email (fields d)
    end.
Proof.
  unfold apply_profile. frame Business.email.
  rewrite fields_set_if_truthy.
  destruct (scalars body !! "email") as [s|]; [|by frame Business.email].
  destruct (Js.truthy (Some s)); [done|by frame Business.email].
Qed.

Lemma apply_profile_description body d :
  Business.description (fields (apply_profile body d))
  = match scalars body !! "description" with
    | Some s => Some (Js.trim s)
    | None => Business.description (fields d)
    end.
Proof.
  unfold apply_profile. frame Business.description.
  rewrite fields_set_if_defined.
  destruct (scalars body !! "description") as [s|]; [done|by frame Business.description].
Qed.

Lemma apply_profile_phone body d :
  Business.phone (fields (apply_profile body d))
  = match scalars body !! "phone" with
    | Some s => Some (Js.trim s)
    | None => Business.phone (fields d)
    end.
Proof.
  unfold apply_profile. frame Business.phone.
  rewrite fields_set_if_defined.
  destruct (scalars body !! "phone") as [s|]; [done|by frame Business.phone].
Qed.

Lemma apply_profile_website body d :
  Business.website (fields (apply_profile body d))
  = match scalars body !! "website" with
    | Some s => Some (Js.trim s)
    | None => Business.website (fields d)
    end.
Proof.
  unfold apply_profile. frame Business.website.
  rewrite fields_set_if_defined.
  destruct (scalars body !! "website") as [s|]; [done|by frame Business.website].
Qed.

Lemma apply_profile_registrationNumber body d :
  Business.registrationNumber (fields (apply_profile body d))
  = match scalars body !! "registrationNumber" with
    | Some s => Some (Js.trim s)
    | None => Business.registrationNumber (fields d)
    end.
Proof.
  unfold apply_profile. frame Business.registrationNumber.
  rewrite fields_set_if_defined.
  destruct (scalars body !! "registrationNumber") as [s|]; [done|by frame Business.registrationNumber].
Qed.

Lemma apply_profile_taxId body d :
  Business.taxId (fields (apply_profile body d))
  = match scalars body !! "taxId" with
    | Some s => Some (Js.trim s)
    | None => Business.taxId (fields d)
    end.
Proof.
  unfold apply_profile. frame Business.taxId.
  rewrite fields_set_if_defined.
  destruct (scalars body !! "taxId") as [s|]; [done|by frame Business.taxId].
Qed.

(** The ways [updateProfile] ends once the business is found. *)
Lemma updateProfile_cases w id body db b :
  businesses db !! id = Some b ->
  let r := updateProfile w id body db in
  let d := apply_profile body (hydrate id b) in
  (exists e,
     r = (Next e, db)
     /\ (invalid true (outcome w 0) = Some e
         \/ (modifiedPaths d <> [] /\ refusal true (outcome w 0) = Some e)))
  \/ (exists b',
        invalid true (outcome w 0) = None
        /\ ((modifiedPaths d = [] /\ b' = b /\ fields d = b)
            \/ (modifiedPaths d <> [] /\ rejected (outcome w 0) = None
                /\ b' = Business.stamp false (now w) (fields d)))
        /\ r = (Send (ok 200 "Business profile updated successfully"
                        (BusinessView
                           (Business.toPublicProfile (saved d b')))),
                {| users := users db;
                   businesses := <[id := b']> (businesses db) |})).
Proof.
  intros Hb r d. subst r. unfold updateProfile, Business.findById.
  rewrite Hb. cbn [fmap option_fmap option_map]. fold d.
  destruct (apply_profile_meta body (hydrate id b)) as [Hid Hold].
  fold d in Hid, Hold. simpl in Hid, Hold.
  assert (Ht : business_tracks d b)
    by apply apply_profile_tracks, business_tracks_hydrate.
  assert (Hstored : businesses db !! _id d = Some b) by (by rewrite Hid).
  destruct (modifiedPaths d) as [|p paths] eqn:Hmod.
  - rewrite (Business_save_unmodified _ _ _ _ b) by done.
    destruct (invalid true (outcome w 0)) as [e|];
      [left; exists e; split; [done|by left]|].
    right. exists b.
    assert (Hb3 : fields d = b).
    { unfold business_tracks in Ht. rewrite Hmod in Ht.
      by rewrite Business_merge_nil in Ht. }
    split; [done|]. split; [by left|].
    rewrite insert_id by done. rewrite <- Hb3 at 1.
    rewrite saved_same by done. by destruct db.
  - rewrite (Business_save_modified _ _ _ _ b) by (try done; by rewrite Hmod).
    unfold refusal. destruct (invalid true (outcome w 0)) as [e|];
      [left; exists e; split; [done|by left]|].
    destruct (rejected (outcome w 0)) as [e|] eqn:Hrej;
      [left; exists e; split; [done|by right]|].
    right. eexists. split; [done|]. split; [by right|]. by rewrite Hid.
Qed.

(** Claim C10.  In a profile update, [name], [industry], [email],
    [currency] and [timezone] keep their stored value when they are
    supplied as the empty string or are absent; [description], [phone],
    [website], [registrationNumber] and [taxId] keep it when they are
    absent and, once the save is accepted, hold the empty string when they
    are supplied as the empty string. *)
Theorem updateProfile_fields w id body db b reply db' :
  businesses db !! id = Some b ->
  updateProfile w id body db = (reply, db') ->
  exists b', businesses db' !! id = Some b'
    /\ (ignored_or_absent body "name" -> Business.name b' = Business.name b)
    /\ (ignored_or_absent body "industry" ->
        Business.industry b' = Business.industry b)
    /\ (ignored_or_absent body "email" ->
        Business.email b' = Business.email b)
    /\ (ignored_or_absent body "currency" ->
        Business.currency b' = Business.currency b)
    /\ (ignored_or_absent body "timezone" ->
        Business.timezone b' = Business.timezone b)
    /\ (scalars body !! "description" = None ->
        Business.description b' = Business.description b)
    /\ (scalars body !! "phone" = None ->
        Business.phone b' = Business.phone b)
    /\ (scalars body !! "website" = None ->
        Business.website b' = Business.website b)
    /\ (scalars body !! "registrationNumber" = None ->
        Business.registrationNumber b' = Business.registrationNumber b)
    /\ (scalars body !! "taxId" = None ->
        Business.taxId b' = Business.taxId b)
    /\ (refusal true (outcome w 0) = None ->
        (scalars body !! "description" = Some "" ->
         Business.description b' = Some "")
        /\ (scalars body !! "phone" = Some "" -> Business.phone b' = Some "")
        /\ (scalars body !! "website" = Some "" ->
            Business.website b' = Some "")
        /\ (scalars body !! "registrationNumber" = Some "" ->
            Business.registrationNumber b' = Some "")
        /\ (scalars body !! "taxId" = Some "" ->
            Business.taxId b' = Some "")).
Proof.
  intros Hb Hrun.
  pose proof (updateProfile_cases w id body db b Hb) as Hcases.
  simpl in Hcases. rewrite Hrun in Hcases.
  destruct Hcases as [(e & E & He)|(b' & Hinv & Hb' & E)];
    injection E as -> ->.
  { exists b. split; [done|]. do 10 (split; [done|]).
    intros Hacc. exfalso. apply refusal_None in Hacc as [Hacc1 Hacc2].
    destruct He as [He|[_ He]]; [congruence|].
    unfold refusal in He. rewrite Hacc1 in He. congruence. }
  exists b'. split; [apply lookup_insert_eq|].
  assert (Hsame :
    Business.name b' = Business.name (fields (apply_profile body (hydrate id b)))
    /\ Business.industry b'
       = Business.industry (fields (apply_profile body (hydrate id b)))
    /\ Business.email b'
       = Business.email (fields (apply_profile body (hydrate id b)))
    /\ Business.currency b'
       = Business.currency (fields (apply_profile body (hydrate id b)))
    /\ Business.timezone b'
       = Business.timezone (fields (apply_profile body (hydrate id b)))
    /\ Business.description b'
       = Business.description (fields (apply_profile body (hydrate id b)))
    /\ Business.phone b'
       = Business.phone (fields (apply_profile body (hydrate id b)))
    /\ Business.website b'
       = Business.website (fields (apply_profile body (hydrate id b)))
    /\ Business.registrationNumber b'
       = Business.registrationNumber
           (fields (apply_profile body (hydrate id b)))
    /\ Business.taxId b'
       = Business.taxId (fields (apply_profile body (hydrate id b)))).
  { destruct Hb' as [(_ & -> & ->)|(_ & _ & ->)]; done. }
  destruct Hsame as (-> & -> & -> & -> & -> & -> & -> & -> & -> & ->).
  rewrite apply_profile_name, apply_profile_industry, apply_profile_email,
    apply_profile_currency, apply_profile_timezone,
    apply_profile_description, apply_profile_phone, apply_profile_website,
    apply_profile_registrationNumber, apply_profile_taxId.
  unfold ignored_or_absent. simpl.
  repeat split; try (intros [->| ->]; reflexivity);
    try (intros ->; by rewrite ?Js.trim_empty).
Qed.

End Profile.

(** ** The uniqueness invariant *)

Section Invariant.
Context `{Js.Lawful} `{Libs}.

Lemma register_db w body db :
  (authController.register w body db).2 = db
  \/ exists payload db',
      authController.register w body db
      = (Send (ok 201 "Registration successful" payload), db').
Proof.
  unfold authController.register.
  destruct (body !! "firstName") as [fn|]; [|by left].
  destruct (body !! "lastName") as [ln|]; [|by left].
  destruct (body !! "email") as [em|]; [|by left].
  destruct (body !! "password") as [pw|]; [|by left].
  destruct (body !! "businessName") as [bn|]; [|by left].
  destruct (_ || _); [by left|].
  destruct (User.findOne_email em (users db)); [by left|].
  destruct (authController.register_transaction _ _ _ _ _ _ _ _ _ _ _)
    as [e|[[u b] db']]; [by left|].
  right. by eexists _, _.
Qed.

Lemma login_businesses w body db :
  businesses (authController.login w body db).2 = businesses db.
Proof.
  unfold authController.login.
  repeat match goal with
    | |- context [match ?x with _ => _ end] => destruct x
    end; done.
Qed.

Lemma updatePassword_businesses w id body db :
  businesses (authController.updatePassword w id body db).2 = businesses db.
Proof.
  unfold authController.updatePassword.
  repeat match goal with
    | |- context [match ?x with _ => _ end] => destruct x
    end; done.
Qed.

Lemma apply_profile_preferences body d :
  Business.preferences (fields (apply_profile body d))
  = Business.preferences (fields d).
Proof.
  unfold apply_profile.
  repeat first
    [ rewrite (proj_set_if_defined Business.preferences) by reflexivity
    | rewrite (proj_set_if_truthy Business.preferences) by reflexivity
    | rewrite (proj_address Business.preferences) by reflexivity ].
  done.
Qed.

Lemma updateProfile_distinct w id body db :
  all_distinct db -> all_distinct (updateProfile w id body db).2.
Proof.
  intros Hdb.
  destruct (businesses db !! id) as [b|] eqn:Hb;
    [|unfold updateProfile, Business.findById; by rewrite Hb].
  pose proof (updateProfile_cases w id body db b Hb) as Hcases.
  simpl in Hcases.
  destruct Hcases as [(e & -> & _)|(b' & _ & Hb' & ->)]; [done|].
  intros id' b''. simpl. destruct (decide (id' = id)) as [->|Hne].
  - rewrite lookup_insert_eq. intros [= <-].
    destruct Hb' as [(_ & -> & _)|(_ & _ & ->)]; [by apply (Hdb id)|].
    simpl. rewrite apply_profile_preferences. by apply (Hdb id).
  - rewrite lookup_insert_ne by done. apply Hdb.
Qed.

Lemma updatePreferences_distinct w id body db :
  all_distinct db -> all_distinct (updatePreferences w id body db).2.
Proof.
  intros Hdb.
  destruct (businesses db !! id) as [b|] eqn:Hb.
  - pose proof (updatePreferences_cases w id body db b Hb) as Hcases.
    simpl in Hcases.
    destruct Hcases as [(_ & _ & _ & E)|[(m & _ & E)|[(d1 & m & _ & _ & E)
      |[(d1 & d2 & m & _ & _ & _ & E)
       |(d1 & d2 & d3 & E1 & E2 & E3
         & [(e & E & _)|(b1 & _ & _ & Hprefs & E)])]]]];
      rewrite E; try done.
    simpl. intros id' b'. simpl. destruct (decide (id' = id)) as [->|Hne].
    + rewrite lookup_insert_eq. intros [= <-]. unfold distinct_keys.
      rewrite Hprefs.
      apply update_categories_prefs in E1 as (C1u & C1p & C1c & C1n).
      apply update_units_prefs in E2 as (C2c & C2p & C2u & C2n).
      apply update_productTypes_prefs in E3 as (C3c & C3u & C3p & C3n).
      simpl in *. destruct (Hdb id b Hb) as (Dc & Du & Dp).
      repeat split.
      * rewrite C3c, C2c. destruct (supplied (categories body)); [auto|].
        by rewrite C1c.
      * rewrite C3u. destruct (supplied (units body)); [auto|].
        by rewrite C2u, C1u.
      * destruct (supplied (productTypes body)); [auto|].
        by rewrite C3p, C2p, C1p.
    + rewrite lookup_insert_ne by done. apply Hdb.
  - unfold updatePreferences, Business.findById. by rewrite Hb.
Qed.

Lemma register_distinct w body db :
  all_distinct db -> all_distinct (authController.register w body db).2.
Proof.
  intros Hdb.
  destruct (register_db w body db) as [->|(payload & db' & Hreg)]; [done|].
  rewrite Hreg. simpl.
  apply register_success_inv in Hreg
    as (fn & ln & em & pw & bn & _ & _ & _ & _ & _ & _ & ->). simpl.
  intros id' b'. simpl.
  destruct (decide (id' = ObjectId (businesses db))) as [->|Hne].
  - rewrite lookup_insert_eq. intros [= <-]. simpl.
    repeat split; apply NoDup_nil_2.
  - rewrite lookup_insert_ne by done. apply Hdb.
Qed.

Lemma reachable_distinct db : reachable db -> all_distinct db.
Proof.
  induction 1 as [|w body db _ IH|w body db _ IH|w id body db _ IH
                  |w id body db _ IH|w id body db _ IH].
  - intros id b Hb. simpl in Hb. by rewrite lookup_empty in Hb.
  - by apply register_distinct.
  - intros k b. rewrite login_businesses. apply IH.
  - intros k b. rewrite updatePassword_businesses. apply IH.
  - by apply updatePreferences_distinct.
  - by apply updateProfile_distinct.
Qed.

(** Claim C3, amended.  For the business of the caller: if a supplied
    collection has two elements with the same normalized key, the call
    fails with a 400 and the database is unchanged.  The block of each
    collection rejects a repeated key by naming the duplicates, the values
    named being exactly the keys that occur twice; the reply of the call
    names the duplicates when every collection checked before the one that
    has them passes its own checks, the order being categories, units,
    product types: a collection that fails a check of its own first is the
    one the reply is about.  After a successful call the normalized keys of
    every supplied collection are pairwise distinct in the stored business,
    and those of all three collections are when they were before the call,
    as they are in every database the handlers can produce. *)
Theorem updatePreferences_duplicates w id body db b :
  businesses db !! id = Some b ->
  (duplicate_in body ->
   exists m, updatePreferences w id body db = (Send (failure 400 m), db))
  /\ (forall d l,
        (exists k, repeated (Category.key_of_input <$> l) k) ->
        update_categories w (Array l) d
        = inl (Send (failure 400
            ("Duplicate category names found: "
             ++ Js.join ", " (Js.duplicates (Category.key_of_input <$> l))))))
  /\ (forall d l,
        (exists k, repeated (Unit.key_of_input <$> l) k) ->
        update_units w (Array l) d
        = inl (Send (failure 400
            ("Duplicate unit abbreviations found: "
             ++ Js.join ", " (Js.duplicates (Unit.key_of_input <$> l))))))
  /\ (forall d l,
        (exists k, repeated (ProductType.key_of_input <$> l) k) ->
        update_productTypes w (Array l) d
        = inl (Send (failure 400
            ("Duplicate product type names found: "
             ++ Js.join ", "
                  (Js.duplicates (ProductType.key_of_input <$> l))))))
  /\ (forall (keys : list (option string)) k,
        k ∈ Js.duplicates keys <-> repeated keys k)
  /\ ((exists k, repeated (category_keys (categories body)) k) ->
      updatePreferences w id body db
      = (Send (failure 400
           ("Duplicate category names found: "
            ++ Js.join ", " (Js.duplicates (category_keys (categories body))))),
         db))
  /\ (categories_pass (categories body) ->
      (exists k, repeated (unit_keys (units body)) k) ->
      updatePreferences w id body db
      = (Send (failure 400
           ("Duplicate unit abbreviations found: "
            ++ Js.join ", " (Js.duplicates (unit_keys (units body))))),
         db))
  /\ (categories_pass (categories body) -> units_pass (units body) ->
      (exists k, repeated (type_keys (productTypes body)) k) ->
      updatePreferences w id body db
      = (Send (failure 400
           ("Duplicate product type names found: "
            ++ Js.join ", " (Js.duplicates (type_keys (productTypes body))))),
         db))
  /\ (forall prefs stats db',
        updatePreferences w id body db
        = (Send (ok 200 "Preferences updated successfully"
                   (PreferencesView prefs stats)), db') ->
        exists b', businesses db' !! id = Some b'
          /\ Business.preferences b' = prefs
          /\ (supplied (categories body) = true ->
              NoDup (Category.key <$> Preferences.categories prefs))
          /\ (supplied (units body) = true ->
              NoDup (Unit.key <$> Preferences.units prefs))
          /\ (supplied (productTypes body) = true ->
              NoDup (ProductType.key <$> Preferences.productTypes prefs))
          /\ (distinct_keys (Business.preferences b) -> distinct_keys prefs)
          /\ (reachable db -> distinct_keys prefs)).
Proof.
  intros Hb.
  destruct (updatePreferences_outcomes w id body db b Hb)
    as (Hrej & Hcat & Hunit & Htype & Hmem & Hok).
  split; [exact Hrej|].
  split; [intros d l; apply update_categories_duplicates|].
  split; [intros d l; apply update_units_duplicates|].
  split; [intros d l; apply update_productTypes_duplicates|].
  split; [exact Hmem|]. split; [exact Hcat|]. split; [exact Hunit|].
  split; [exact Htype|].
  intros prefs stats db' Hrun.
  destruct (Hok prefs stats db' Hrun) as (b' & Hb' & Hp & Nc & Nu & Np & Hinv).
  exists b'. split; [exact Hb'|]. split; [exact Hp|]. split; [exact Nc|].
  split; [exact Nu|]. split; [exact Np|]. split; [exact Hinv|].
  intros Hreach. apply Hinv. by apply (reachable_distinct db Hreach id).
Qed.

End Invariant.

(** ** The authentication middleware *)

Section Middleware.
Context `{Js.Strings} `{auth.Verifier}.

Lemma split_spaceless t : spaceless t -> auth.split " " t = [t].
Proof.
  unfold spaceless. induction t as [|a t IH]; simpl; [done|].
  rewrite Forall_cons. intros [Ha Ht].
  destruct (Ascii.eqb_spec a " "); [done|]. by rewrite IH.
Qed.

Lemma split_space s t :
  spaceless s -> auth.split " " (s ++ String " " t) = s :: auth.split " " t.
Proof.
  unfold spaceless. induction s as [|a s IH]; simpl; [done|].
  rewrite Forall_cons. intros [Ha Hs].
  destruct (Ascii.eqb_spec a " "); [done|]. by rewrite IH.
Qed.

Lemma split_all_spaceless s : Forall spaceless (auth.split " " s).
Proof.
  induction s as [|a s IH]; simpl; [by repeat constructor|].
  destruct (Ascii.eqb_spec a " ") as [->|Ha].
  - constructor; [constructor|done].
  - destruct (auth.split " " s) as [|x l]; [by repeat constructor|].
    apply Forall_cons in IH as [Hx Hl]. constructor; [|done].
    by constructor.
Qed.

Lemma bearer_token t :
  spaceless t -> auth.token_of (Some ("Bearer " ++ t)) = Some t.
Proof.
  intros Ht. unfold auth.token_of.
  change ("Bearer " ++ t) with ("Bearer" ++ String " " t).
  rewrite split_space by (repeat constructor; done).
  rewrite (split_spaceless t Ht). reflexivity.
Qed.

(** Property X1.  The token read off the [Authorization] header: from
    [Bearer <token>] it is the token, whatever follows a second space being
    dropped; and a token is only ever read off a header that starts with
    [Bearer], and has no space in it. *)
Theorem token_of_header t :
  spaceless t ->
  auth.token_of (Some ("Bearer " ++ t)) = Some t
  /\ (forall rest,
        auth.token_of (Some ("Bearer " ++ t ++ " " ++ rest)) = Some t)
  /\ (forall h t',
        auth.token_of h = Some t' ->
        spaceless t'
        /\ exists s, h = Some s /\ String.prefix "Bearer" s = true).
Proof.
  intros Ht. split; [by apply bearer_token|]. split.
  - intros rest. unfold auth.token_of.
    change ("Bearer " ++ t ++ " " ++ rest)
      with ("Bearer" ++ String " " (t ++ String " " rest)).
    rewrite split_space by (repeat constructor; done).
    by rewrite (split_space t rest Ht).
  - intros [s|] t'; unfold auth.token_of; [|done].
    destruct (Js.truthy (Some s)); [|done].
    destruct (String.prefix "Bearer" s) eqn:Hp; [|done]. simpl.
    intros Hl. split; [|by exists s].
    by apply (Forall_lookup_1 _ _ _ _ (split_all_spaceless s) Hl).
Qed.

Lemma protect_inr w h db user :
  auth.protect w h db = inr user <->
  exists id u,
    authenticates w h db id u
    /\ user = {| Populated.account := Populated.without_password (hydrate id u);
                 Populated.business :=
                   Populated.summary_of
                     <$> Populated.business_of (hydrate id u) db |}.
Proof.
  unfold auth.protect, authenticates, User.findById. split.
  - destruct (auth.token_of h) as [token|] eqn:Ht; [|done].
    destruct (Js.truthy (Some token)) eqn:Tt; [|done]. simpl.
    apply truthy_Some in Tt.
    destruct (auth.jwt_verify token _ _) as [id|] eqn:Hv; [|done].
    destruct (users db !! id) as [u|] eqn:Hu; [|done]. simpl.
    destruct (User.isActive u) eqn:Ha; [|done]. simpl.
    intros [= <-]. exists id, u. split; [|done]. by exists token.
  - intros (id & u & (token & -> & Tt & Hv & Hu & Ha) & ->).
    apply truthy_Some in Tt. rewrite Tt. simpl. rewrite Hv, Hu. simpl.
    by rewrite Ha.
Qed.

(** Property X2.  What [protect] hands to the next handler is a stored,
    active account, found under the identifier the token verifies to and
    carried without its password hash, together with the name, industry and
    plan of the business it refers to, or no business if that reference
    dangles. *)
Theorem protect_sound w h db user :
  auth.protect w h db = inr user ->
  exists id u,
    authenticates w h db id u
    /\ _id (Populated.account user) = id
    /\ fields (Populated.account user) = User.with_password None u
    /\ User.password (fields (Populated.account user)) = None
    /\ match User.business u ≫= fun bid => businesses db !! bid with
       | Some b =>
           exists bid s, User.business u = Some bid
             /\ Populated.business user = Some s
             /\ Populated.sum_id s = bid
             /\ Populated.sum_name s = Business.name b
             /\ Populated.sum_industry s = Business.industry b
             /\ Populated.sum_subscriptionPlan s = Business.subscriptionPlan b
       | None => Populated.business user = None
       end.
Proof.
  intros (id & u & Hauth & ->)%protect_inr. exists id, u.
  split; [done|]. split; [done|]. split; [done|]. split; [done|].
  unfold Populated.business_of, Business.findById. simpl.
  destruct (User.business u) as [bid|]; simpl; [|done].
  destruct (businesses db !! bid) as [b|]; simpl; [|done].
  by exists bid, (Populated.summary_of (hydrate bid b)).
Qed.

(** Property X3.  [optionalAuth] attaches an account exactly when [protect]
    lets the request through, and it is the same account. *)
Theorem optionalAuth_agrees w h db :
  auth.optionalAuth w h db
  = match auth.protect w h db with
    | inr user => Some (Populated.account user)
    | inl _ => None
    end.
Proof.
  unfold auth.optionalAuth, auth.protect.
  destruct (Js.truthy (auth.token_of h)); simpl; [|done].
  destruct (auth.jwt_verify _ _ _) as [id|]; [|done].
  destruct (User.findById id (users db)) as [d|]; [|done]. simpl.
  by destruct (User.isActive (fields d)).
Qed.

End Middleware.

(** ** What the handlers of the accounts write *)

Section Effects.
Context `{Js.Strings} `{Libs}.

Lemma hydrate_eta {A} (d : Doc A) :
  isNew d = false -> modifiedPaths d = [] -> d = hydrate (_id d) (fields d).
Proof. destruct d; simpl; intros -> ->; done. Qed.

Lemma findOne_email_hydrate e (coll : gmap nat User.t) d :
  User.findOne_email e coll = Some d ->
  exists id u, d = hydrate id u /\ coll !! id = Some u
    /\ User.email u = User.cast_email e.
Proof.
  intros (Hd & He & Hn & Hm)%findOne_email_inv.
  exists (_id d), (fields d). split; [by apply hydrate_eta|done].
Qed.

(** What a login leaves behind. *)
Lemma login_db w body db :
  (succeeded (authController.login w body db).1 = false
   /\ (authController.login w body db).2 = db)
  \/ exists email password id u b,
       body !! "email" = Some email /\ body !! "password" = Some password
       /\ users db !! id = Some u /\ User.email u = User.cast_email email
       /\ User.isActive u = true
       /\ User.comparePassword password u = inr true
       /\ Populated.business_of (hydrate id u) db = Some b
       /\ Business.isActive (fields b) = true
       /\ invalid true (outcome w 0) = None
       /\ (User.lastLogin u = Some (now w) \/ rejected (outcome w 0) = None)
       /\ let u' := if decide (User.lastLogin u = Some (now w)) then u
                    else User.stamp false (now w)
                           (User.with_lastLogin (Some (now w)) u) in
          authController.login w body db
          = (Send (ok 200 "Login successful"
                     (PopulatedSession (authController.generateToken w id)
                        (Populated.toPublicProfile
                           (User.set_password None (hydrate id u'))
                           (Some b))
                        (Business.toPublicProfile b))),
             {| users := <[id := u']> (users db);
                businesses := businesses db |}).
Proof.
  unfold authController.login.
  destruct (body !! "email") as [email|] eqn:He; [|by left].
  destruct (body !! "password") as [password|] eqn:Hp; [|by left].
  destruct (_ || _); [by left|].
  destruct (User.findOne_email email (users db)) as [d|] eqn:Hfind; [|by left].
  apply findOne_email_hydrate in Hfind as (id & u & -> & Hu & Hmail).
  cbn [fields hydrate].
  destruct (User.isActive u) eqn:Ha; [|by left]. cbn [negb].
  destruct (User.comparePassword password u) as [e|[]] eqn:Hc;
    [by left| |by left].
  change (User.business u ≫= _)
    with (Populated.business_of (hydrate id u) db).
  destruct (Populated.business_of (hydrate id u) db) as [b|] eqn:Hb;
    [|by left].
  destruct (Business.isActive (fields b)) eqn:Hba; [|by left]. cbn [negb].
  rewrite login_save by done. cbn [fields hydrate _id].
  destruct (invalid true (outcome w 0)) eqn:Hinv; [by left|].
  destruct (decide (User.lastLogin u = Some (now w))) as [Heq|Hne].
  - right. exists email, password, id, u, b.
    rewrite decide_True by done. repeat (split; [done|]).
    split; [by left|]. by rewrite insert_id by done.
  - destruct (rejected (outcome w 0)) eqn:Hr; [by left|].
    right. exists email, password, id, u, b.
    rewrite decide_False by done. repeat (split; [done|]).
    split; [by right|]. reflexivity.
Qed.

Lemma isModified_set_password id u v :
  isModified "password" (User.set_password v (hydrate id u))
  = negb (bool_decide (User.password u = v)).
Proof.
  unfold User.set_password, isModified, assign. simpl.
  by destruct (bool_decide (User.password u = v)).
Qed.

(** The save of [updatePassword]. *)
Lemma updatePassword_save w id u v coll :
  coll !! id = Some u ->
  User.save w 0 true (User.set_password (Some v) (hydrate id u)) coll
  = match invalid true (outcome w 0) with
    | Some e => inl e
    | None =>
        if decide (User.password u = Some v)
        then inr (hydrate id u, coll)
        else
          match rejected (outcome w 0) with
          | Some e => inl e
          | None =>
              let u' := User.stamp false (now w)
                          (User.with_password
                             (Some (bcrypt_hash v (salt w))) u) in
              inr (hydrate id u', <[id := u']> coll)
          end
    end.
Proof.
  intros Hstored.
  destruct (decide (User.password u = Some v)) as [Heq|Hne].
  - assert (Hd : User.set_password (Some v) (hydrate id u) = hydrate id u).
    { unfold User.set_password, assign. simpl.
      rewrite bool_decide_eq_true_2 by done. cbn [negb].
      by rewrite <- Heq, User_with_password_same. }
    rewrite Hd. by erewrite User_save_unmodified.
  - erewrite User_save_modified;
      [|done| |done
       |apply account_tracks_set_password, account_tracks_hydrate].
    + unfold User.pre_save. rewrite isModified_set_password.
      rewrite bool_decide_eq_false_2 by done. cbn [negb].
      cbn [User.set_password assign fields hydrate User.with_password
           User.password].
      unfold refusal. destruct (invalid true (outcome w 0)); [done|].
      destruct (rejected (outcome w 0)); [done|]. reflexivity.
    + unfold User.set_password, assign. simpl.
      by rewrite bool_decide_eq_false_2 by done.
Qed.

Lemma updatePassword_db w id body db :
  (succeeded (authController.updatePassword w id body db).1 = false
   /\ (authController.updatePassword w id body db).2 = db)
  \/ exists currentPassword newPassword u,
       body !! "currentPassword" = Some currentPassword
       /\ body !! "newPassword" = Some newPassword
       /\ 6 <= Js.length newPassword
       /\ users db !! id = Some u
       /\ User.comparePassword currentPassword u = inr true
       /\ invalid true (outcome w 0) = None
       /\ (User.password u = Some newPassword
           \/ rejected (outcome w 0) = None)
       /\ let u' := if decide (User.password u = Some newPassword) then u
                    else User.stamp false (now w)
                           (User.with_password
                              (Some (bcrypt_hash newPassword (salt w))) u) in
          authController.updatePassword w id body db
          = (Send (ok 200 "Password updated successfully"
                     (Token (authController.generateToken w id))),
             {| users := <[id := u']> (users db);
                businesses := businesses db |}).
Proof.
  unfold authController.updatePassword, User.findById.
  destruct (body !! "currentPassword") as [cur|] eqn:Hc; [|by left].
  destruct (body !! "newPassword") as [new|] eqn:Hn; [|by left].
  destruct (_ || _); [by left|].
  destruct (Js.length new <? 6)%nat eqn:Hlen; [by left|].
  apply Nat.ltb_ge in Hlen.
  destruct (users db !! id) as [u|] eqn:Hu; [|by left].
  cbn [fmap option_fmap option_map fields hydrate].
  destruct (User.comparePassword cur u) as [e|[]] eqn:Hcmp;
    [by left| |by left].
  rewrite updatePassword_save by done.
  destruct (invalid true (outcome w 0)) eqn:Hinv; [by left|].
  destruct (decide (User.password u = Some new)) as [Heq|Hne].
  - right. exists cur, new, u.
    rewrite decide_True by done. repeat (split; [done|]).
    split; [by left|]. by rewrite insert_id by done.
  - destruct (rejected (outcome w 0)) eqn:Hr; [by left|].
    right. exists cur, new, u.
    rewrite decide_False by done. repeat (split; [done|]).
    split; [by right|]. reflexivity.
Qed.

End Effects.

(** ** What the handlers of the business write *)

Section BusinessEffects.
Context `{Js.Lawful}.

Lemma with_preferences_eta b :
  Business.with_preferences (Business.preferences b) b = b.
Proof. by destruct b. Qed.

Lemma update_categories_fields w f d d' :
  update_categories w f d = inr d' ->
  exists p, fields d' = Business.with_preferences p (fields d).
Proof.
  intros Hd. pose proof (update_categories_spec w f d) as Hs.
  rewrite Hd in Hs. destruct Hs as [_ [[_ ->]|(l & v & _ & _ & ->)]].
  - eexists. by rewrite with_preferences_eta.
  - by eexists.
Qed.

Lemma update_units_fields w f d d' :
  update_units w f d = inr d' ->
  exists p, fields d' = Business.with_preferences p (fields d).
Proof.
  intros Hd. pose proof (update_units_spec w f d) as Hs.
  rewrite Hd in Hs. destruct Hs as [_ [[_ ->]|(l & v & _ & _ & ->)]].
  - eexists. by rewrite with_preferences_eta.
  - by eexists.
Qed.

Lemma update_productTypes_fields w f d d' :
  update_productTypes w f d = inr d' ->
  exists p, fields d' = Business.with_preferences p (fields d).
Proof.
  intros Hd. pose proof (update_productTypes_spec w f d) as Hs.
  rewrite Hd in Hs. destruct Hs as [[_ ->]|(l & v & _ & _ & _ & ->)].
  - eexists. by rewrite with_preferences_eta.
  - by eexists.
Qed.

(** What a replace of the preferences leaves behind. *)
Lemma updatePreferences_db w id body db :
  (succeeded (updatePreferences w id body db).1 = false
   /\ (updatePreferences w id body db).2 = db)
  \/ exists b p b',
       businesses db !! id = Some b
       /\ invalid true (outcome w 0) = None
       /\ ((b' = b /\ Business.preferences b = p)
           \/ (rejected (outcome w 0) = None
               /\ b' = Business.stamp false (now w)
                         (Business.with_preferences p b)))
       /\ updatePreferences w id body db
          = (Send (ok 200 "Preferences updated successfully"
                     (PreferencesView p (stats_of p))),
             {| users := users db;
                businesses := <[id := b']> (businesses db) |}).
Proof.
  destruct (businesses db !! id) as [b|] eqn:Hb.
  - pose proof (updatePreferences_cases w id body db b Hb) as Hcases.
    simpl in Hcases.
    destruct Hcases as [(_ & _ & _ & E)|[(m & _ & E)|[(d1 & m & _ & _ & E)
      |[(d1 & d2 & m & _ & _ & _ & E)
       |(d1 & d2 & d3 & E1 & E2 & E3
         & [(e & E & _)|(b' & Hinv & Hb' & _ & E)])]]]];
      rewrite E; try (by left).
    right.
    apply update_categories_fields in E1 as [p1 F1].
    apply update_units_fields in E2 as [p2 F2].
    apply update_productTypes_fields in E3 as [p3 F3].
    exists b, (Business.preferences (fields d3)), b'.
    split; [done|]. split; [done|]. split; [|done].
    destruct Hb' as [(_ & -> & ->)|(_ & Hrej & ->)]; [by left|right].
    split; [done|]. rewrite F3, F2, F1. reflexivity.
  - left. unfold updatePreferences, Business.findById. by rewrite Hb.
Qed.

(** What an update of the profile leaves behind. *)
Lemma updateProfile_db w id body db :
  (succeeded (updateProfile w id body db).1 = false
   /\ (updateProfile w id body db).2 = db)
  \/ exists b b',
       businesses db !! id = Some b
       /\ invalid true (outcome w 0) = None
       /\ (let d := apply_profile body (hydrate id b) in
           (modifiedPaths d = [] /\ b' = b /\ fields d = b)
           \/ (modifiedPaths d <> [] /\ rejected (outcome w 0) = None
               /\ b' = Business.stamp false (now w) (fields d)))
       /\ updateProfile w id body db
          = (Send (ok 200 "Business profile updated successfully"
                     (BusinessView (Business.toPublicProfile (hydrate id b')))),
             {| users := users db;
                businesses := <[id := b']> (businesses db) |}).
Proof.
  destruct (businesses db !! id) as [b|] eqn:Hb.
  - pose proof (updateProfile_cases w id body db b Hb) as Hcases.
    simpl in Hcases.
    destruct Hcases as [(e & -> & _)|(b' & Hinv & Hb' & ->)]; [by left|].
    right. exists b, b'. split; [done|]. split; [done|]. split; [done|].
    destruct (apply_profile_meta body (hydrate id b)) as [Hid Hold].
    unfold saved, Business.toPublicProfile. cbn [_id fields hydrate].
    simpl in Hid. by rewrite Hid.
  - left. unfold updateProfile, Business.findById. by rewrite Hb.
Qed.

End BusinessEffects.

(** ** Who may write, and where *)

Section Routes.
Context `{Js.Lawful} `{Libs} `{auth.Verifier}.

Lemma protect_authenticates w h db id u :
  authenticates w h db id u ->
  auth.protect w h db
  = inr {| Populated.account := Populated.without_password (hydrate id u);
           Populated.business :=
             Populated.summary_of
               <$> Populated.business_of (hydrate id u) db |}.
Proof. intros Ha. apply protect_inr. by exists id, u. Qed.

Lemma authenticates_inj w h db id u id' u' :
  authenticates w h db id u -> authenticates w h db id' u' ->
  id' = id /\ u' = u.
Proof.
  intros (t & Ht & _ & Hv & Hu & _) (t' & Ht' & _ & Hv' & Hu' & _).
  simplify_eq. done.
Qed.

Lemma business_id_populated id u db bid :
  routes.business_id
    {| Populated.account := Populated.without_password (hydrate id u);
       Populated.business :=
         Populated.summary_of <$> Populated.business_of (hydrate id u) db |}
  = inr bid ->
  User.business u = Some bid /\ is_Some (businesses db !! bid).
Proof.
  unfold routes.business_id, Populated.business_of, Business.findById.
  simpl. destruct (User.business u) as [k|]; simpl; [|done].
  destruct (businesses db !! k) as [b|] eqn:Hb; simpl; [|done].
  intros [= <-]. split; [done|]. by rewrite Hb.
Qed.

Lemma authorize_owner (user : Populated.user) :
  auth.authorize [User.Owner] user
  = if decide (User.role (fields (Populated.account user)) = User.Owner)
    then None
    else Some (failure 403
           ("User role '"
            ++ User.role_name (User.role (fields (Populated.account user)))
            ++ "' is not authorized to access this route")).
Proof.
  unfold auth.authorize. cbv zeta.
  destruct (decide (_ = User.Owner)) as [Heq|Hne].
  - rewrite bool_decide_eq_true_2; [done|]. rewrite Heq. left.
  - rewrite bool_decide_eq_false_2; [done|].
    by intros ?%list_elem_of_singleton.
Qed.

(** Property X4.  The two routes that write to a business change something
    only for a request whose header authenticates an account with the role
    owner. *)
Theorem writes_need_owner w validation h pbody qbody db :
  (routes.put_profile w h pbody db).2 <> db
  \/ (routes.put_preferences w validation h qbody db).2 <> db ->
  exists id u, authenticates w h db id u /\ User.role u = User.Owner.
Proof.
  unfold routes.put_profile, routes.put_preferences.
  destruct (auth.protect w h db) as [r|user] eqn:Hp; [by intros [?|?]|].
  apply protect_inr in Hp as (id & u & Ha & ->).
  rewrite authorize_owner. simpl.
  destruct (decide (User.role u = User.Owner)) as [Hr|Hr];
    [|by intros [?|?]].
  intros _. by exists id, u.
Qed.

(** Property X5.  An authenticated account whose role is not owner is
    answered 403 by PUT /profile and by PUT /preferences, and nothing is
    written. *)
Theorem non_owner_forbidden w validation h pbody qbody db id u :
  authenticates w h db id u -> User.role u <> User.Owner ->
  let r := Send (failure 403
             ("User role '" ++ User.role_name (User.role u)
              ++ "' is not authorized to access this route")) in
  routes.put_profile w h pbody db = (r, db)
  /\ routes.put_preferences w validation h qbody db = (r, db).
Proof.
  intros Ha Hr. unfold routes.put_profile, routes.put_preferences.
  rewrite (protect_authenticates _ _ _ _ _ Ha), authorize_owner. simpl.
  by rewrite decide_False by done.
Qed.

Lemma updateProfile_others w id body db :
  users (updateProfile w id body db).2 = users db
  /\ forall k, k <> id ->
       businesses (updateProfile w id body db).2 !! k = businesses db !! k.
Proof.
  destruct (updateProfile_db w id body db)
    as [[_ ->]|(b & b' & _ & _ & _ & ->)];
    [done|]. simpl. split; [done|].
  intros k Hk. by rewrite lookup_insert_ne.
Qed.

Lemma updatePreferences_others w id body db :
  users (updatePreferences w id body db).2 = users db
  /\ forall k, k <> id ->
       businesses (updatePreferences w id body db).2 !! k
       = businesses db !! k.
Proof.
  destruct (updatePreferences_db w id body db)
    as [[_ ->]|(b & p & b' & _ & _ & _ & ->)];
    [done|]. simpl. split; [done|].
  intros k Hk. by rewrite lookup_insert_ne.
Qed.

Lemma updatePassword_others w id body db :
  businesses (authController.updatePassword w id body db).2 = businesses db
  /\ forall k, k <> id ->
       users (authController.updatePassword w id body db).2 !! k
       = users db !! k.
Proof.
  destruct (updatePassword_db w id body db)
    as [[_ ->]|(c & n & u & _ & _ & _ & _ & _ & _ & _ & ->)]; [done|].
  simpl. split; [done|]. intros k Hk. by rewrite lookup_insert_ne.
Qed.

(** Property X6.  A request made for an account writes to no other account
    and to no business but the one the account refers to. *)
Theorem writes_stay_in_tenant w validation h pbody qbody wbody db id u :
  authenticates w h db id u ->
  let after_profile := (routes.put_profile w h pbody db).2 in
  let after_preferences :=
    (routes.put_preferences w validation h qbody db).2 in
  let after_password := (routes.put_update_password w h wbody db).2 in
  (users after_profile = users db
   /\ forall k, User.business u <> Some k ->
        businesses after_profile !! k = businesses db !! k)
  /\ (users after_preferences = users db
      /\ forall k, User.business u <> Some k ->
           businesses after_preferences !! k = businesses db !! k)
  /\ (businesses after_password = businesses db
      /\ forall k, k <> id ->
           users after_password !! k = users db !! k).
Proof.
  intros Ha. cbv zeta.
  unfold routes.put_profile, routes.put_preferences,
    routes.put_update_password.
  rewrite (protect_authenticates _ _ _ _ _ Ha), authorize_owner.
  destruct (routes.business_id _) as [e|bid] eqn:Hbid.
  - split; [|split].
    + by destruct (decide _).
    + destruct (decide _); [|done]. by destruct (validation qbody).
    + apply updatePassword_others.
  - apply business_id_populated in Hbid as [Hbid _].
    split; [|split].
    + destruct (decide _); [|done].
      destruct (updateProfile_others w bid pbody db) as [Hu Hb].
      split; [done|]. intros k Hk. apply Hb. congruence.
    + destruct (decide _); [|done].
      destruct (validation qbody); [done|].
      destruct (updatePreferences_others w bid qbody db) as [Hu Hb].
      split; [done|]. intros k Hk. apply Hb. congruence.
    + apply updatePassword_others.
Qed.

End Routes.

(** ** Reading back what was written *)

Section Reading.
Context `{Js.Lawful}.

Lemma getPreferences_found w id db b :
  businesses db !! id = Some b ->
  getPreferences w id db
  = (Send (ok 200 "Preferences retrieved successfully"
             (PreferencesView (Business.preferences b)
                (stats_of (Business.preferences b)))), db).
Proof.
  intros Hb. unfold getPreferences, Business.findById. by rewrite Hb.
Qed.

(** Property X7.  What a successful replace answers is what a later GET
    answers. *)
Theorem updatePreferences_then_get w w' id body db prefs stats db' :
  updatePreferences w id body db
  = (Send (ok 200 "Preferences updated successfully"
             (PreferencesView prefs stats)), db') ->
  getPreferences w' id db'
  = (Send (ok 200 "Preferences retrieved successfully"
             (PreferencesView prefs stats)), db').
Proof.
  intros Hrun.
  destruct (updatePreferences_db w id body db)
    as [[Hfail _]|(b & p & b' & Hb & _ & Hb' & E)].
  - by rewrite Hrun in Hfail.
  - rewrite E in Hrun. injection Hrun as <- <- <-.
    rewrite (getPreferences_found _ _ _ _ (lookup_insert_eq _ _ _)).
    by destruct Hb' as [[-> <-]|[_ ->]].
Qed.

(** Property X8.  What a successful update of the profile answers is what a
    later GET answers, beside the name and email of the owner. *)
Theorem updateProfile_then_get w id body db view db' b o :
  businesses db !! id = Some b ->
  users db !! Business.owner b = Some o ->
  updateProfile w id body db
  = (Send (ok 200 "Business profile updated successfully"
             (BusinessView view)), db') ->
  getProfile id db'
  = Data {| profile_business := view;
            owner_name := User.firstName o ++ " " ++ User.lastName o;
            owner_email := User.email o |}.
Proof.
  intros Hb Ho Hrun.
  destruct (updateProfile_db w id body db)
    as [[Hfail _]|(b0 & b' & Hb0 & _ & Hb' & E)].
  - by rewrite Hrun in Hfail.
  - rewrite E in Hrun. injection Hrun as <- <-.
    assert (b0 = b) as -> by congruence.
    assert (Howner : Business.owner b' = Business.owner b).
    { cbv zeta in Hb'. destruct Hb' as [(_ & -> & _)|(_ & _ & ->)]; [done|].
      simpl. unfold apply_profile.
      repeat first
        [ rewrite (proj_set_if_defined Business.owner) by reflexivity
        | rewrite (proj_set_if_truthy Business.owner) by reflexivity
        | rewrite (proj_address Business.owner) by reflexivity ].
      done. }
    unfold getProfile, Business.findById, User.findById. simpl.
    rewrite lookup_insert_eq. simpl. by rewrite Howner, Ho.
Qed.

End Reading.

(** ** After a registration *)

Section AfterRegistration.
Context `{Js.Strings} `{Libs} `{auth.Verifier}.

Lemma findOne_email_None_inv e (coll : gmap nat User.t) id u :
  User.findOne_email e coll = None -> coll !! id = Some u ->
  User.email u <> User.cast_email e.
Proof.
  intros Hnone Hu He.
  destruct (findOne_email_Some e coll id u Hu He) as [d Hd]. congruence.
Qed.

Lemma findOne_email_unique e (coll : gmap nat User.t) id u :
  coll !! id = Some u -> User.email u = User.cast_email e ->
  (forall k v, coll !! k = Some v -> User.email v = User.cast_email e ->
     k = id) ->
  User.findOne_email e coll = Some (hydrate id u).
Proof.
  intros Hu He Huniq.
  destruct (findOne_email_Some e coll id u Hu He) as [d Hd].
  rewrite Hd.
  apply findOne_email_hydrate in Hd as (k & v & -> & Hk & Hv).
  assert (k = id) as -> by eauto. congruence.
Qed.

(** A successful registration, with what it checked on the way. *)
Lemma register_success w body db payload db' :
  authController.register w body db
  = (Send (ok 201 "Registration successful" payload), db') ->
  exists fn ln em pw bn,
    body !! "firstName" = Some fn /\ body !! "lastName" = Some ln
    /\ body !! "email" = Some em /\ body !! "password" = Some pw
    /\ body !! "businessName" = Some bn
    /\ em <> "" /\ pw <> ""
    /\ (forall id u, users db !! id = Some u ->
          User.email u <> User.cast_email em)
    /\ let uid := ObjectId (users db) in
       let bid := ObjectId (businesses db) in
       let u := registered_user w fn ln em pw (body !! "phone") bid in
       let b := registered_business w bn em (body !! "phone")
                  (body !! "industry") (body !! "businessEmail")
                  (body !! "businessPhone") uid in
       users db !! uid = None /\ businesses db !! bid = None
       /\ payload = Session (authController.generateToken w uid)
                      (User.toPublicProfile (hydrate uid u))
                      (Business.toPublicProfile (hydrate bid b))
       /\ db' = {| users := <[uid := u]> (users db);
                   businesses := <[bid := b]> (businesses db) |}.
Proof.
  intros Hreg.
  destruct (register_success_inv _ _ _ _ _ Hreg)
    as (fn & ln & em & pw & bn & Hfn & Hln & Hem & Hpw & Hbn & Hpay & Hdb).
  exists fn, ln, em, pw, bn. repeat (split; [done|]).
  revert Hreg. unfold authController.register.
  rewrite Hfn, Hln, Hem, Hpw, Hbn.
  destruct (Js.truthy (Some fn)); [|done].
  destruct (Js.truthy (Some ln)); [|done].
  destruct (Js.truthy (Some em)) eqn:Tem; [|done].
  destruct (Js.truthy (Some pw)) eqn:Tpw; [|by rewrite ?orb_true_r].
  destruct (Js.truthy (Some bn)); [|done]. cbn [negb orb].
  destruct (User.findOne_email em (users db)) eqn:Hfind; [done|].
  intros _. apply truthy_Some in Tem, Tpw.
  split; [done|]. split; [done|].
  split; [intros id u; by apply findOne_email_None_inv|].
  cbv zeta. split; [apply ObjectId_fresh|]. split; [apply ObjectId_fresh|].
  done.
Qed.

(** Property X9.  The account a registration created logs in with the
    password it registered, under any spelling of the email that the schema
    stores alike.  The reply shows the same business, and the same account
    but for its [business], which is the populated document where the
    registration showed the identifier: that of the same business. *)
Theorem register_then_login w body db token user business db' w' body2 e2 :
  authController.register w body db
  = (Send (ok 201 "Registration successful" (Session token user business)),
     db') ->
  (forall pw, body !! "password" = Some pw ->
     bcrypt_compare pw (bcrypt_hash pw (salt w)) = true) ->
  body2 !! "email" = Some e2 -> e2 <> "" ->
  User.cast_email e2 = User.pub_email user ->
  body2 !! "password" = body !! "password" ->
  refusal true (outcome w' 0) = None ->
  exists user' db'',
    authController.login w' body2 db'
    = (Send (ok 200 "Login successful"
               (PopulatedSession
                  (authController.generateToken w' (User.pub_id user))
                  user' business)), db'')
    /\ depopulate user' = user
    /\ Business.toPublicProfile <$> Populated.pub_business user'
       = Some business
    /\ businesses db'' = businesses db'.
Proof.
  intros Hreg Hbcrypt He2 Te2 Hcast Hpw2 Hok.
  apply register_success in Hreg
    as (fn & ln & em & pw & bn & Hfn & Hln & Hem & Hpw & Hbn & Tem & Tpw
        & Hfree & Hu & Hb & Hpay & ->).
  injection Hpay as -> -> ->. simpl in Hcast.
  set (uid := ObjectId (users db)) in *.
  set (bid := ObjectId (businesses db)) in *.
  set (u := registered_user w fn ln em pw (body !! "phone") bid) in *.
  set (b := registered_business w bn em (body !! "phone")
              (body !! "industry") (body !! "businessEmail")
              (body !! "businessPhone") uid) in *.
  assert (Hfind : User.findOne_email e2 (<[uid := u]> (users db))
                  = Some (hydrate uid u)).
  { apply findOne_email_unique.
    - apply lookup_insert_eq.
    - done.
    - intros k v Hk Hv. destruct (decide (k = uid)) as [->|Hne]; [done|].
      rewrite lookup_insert_ne in Hk by done. exfalso.
      apply (Hfree k v Hk). by rewrite Hv, Hcast. }
  unfold authController.login. rewrite He2, Hpw2, Hpw.
  apply truthy_Some in Te2, Tpw. rewrite Te2, Tpw. cbn [negb orb].
  cbn [users]. rewrite Hfind. cbn [fields hydrate].
  change (User.isActive u) with true. cbn [negb].
  unfold User.comparePassword. cbn [User.password u registered_user].
  rewrite (Hbcrypt _ Hpw).
  change (User.business u) with (Some bid). cbn [mbind option_bind].
  unfold Business.findById. cbn [businesses]. rewrite lookup_insert_eq.
  cbn [fmap option_fmap option_map fields hydrate].
  change (Business.isActive b) with true. cbn [negb].
  rewrite login_save by (try done; apply lookup_insert_eq).
  apply refusal_None in Hok as [-> ->].
  destruct (decide _); eexists _, _; (split; [reflexivity|done]).
Qed.

(** The header [Bearer <token>] made of the token of a registration. *)
Lemma register_then_protect w body db token user business db' w' :
  authController.register w body db
  = (Send (ok 201 "Registration successful" (Session token user business)),
     db') ->
  spaceless token -> token <> "" ->
  auth.jwt_verify token (JWT_SECRET w') (now w') = Some (User.pub_id user) ->
  exists u b,
    users db' !! User.pub_id user = Some u
    /\ businesses db' !! Business.pub_id business = Some b
    /\ User.business u = Some (Business.pub_id business)
    /\ Business.owner b = User.pub_id user
    /\ user = User.toPublicProfile (hydrate (User.pub_id user) u)
    /\ business
       = Business.toPublicProfile (hydrate (Business.pub_id business) b)
    /\ authenticates w' (Some ("Bearer " ++ token)) db' (User.pub_id user) u.
Proof.
  intros Hreg Hspace Htoken Hverify.
  apply register_success in Hreg
    as (fn & ln & em & pw & bn & Hfn & Hln & Hem & Hpw & Hbn & Tem & Tpw
        & Hfree & Hu & Hb & Hpay & ->).
  injection Hpay as -> -> ->. cbn [User.pub_id User.toPublicProfile _id
    hydrate Business.pub_id Business.toPublicProfile] in *.
  eexists _, _. cbn [users businesses].
  split; [apply lookup_insert_eq|]. split; [apply lookup_insert_eq|].
  split; [done|]. split; [done|]. split; [done|]. split; [done|].
  exists (authController.generateToken w (ObjectId (users db))).
  split; [by apply bearer_token|]. split; [done|]. split; [done|].
  cbn [users]. split; [apply lookup_insert_eq|done].
Qed.

(** Property X10.  The token of a registration, sent as [Bearer <token>] to
    GET /me, shows the account and the business the registration answered
    with. *)
Theorem register_then_get_me w body db token user business db' w' :
  authController.register w body db
  = (Send (ok 201 "Registration successful" (Session token user business)),
     db') ->
  spaceless token -> token <> "" ->
  auth.jwt_verify token (JWT_SECRET w') (now w') = Some (User.pub_id user) ->
  exists me,
    routes.get_me w' (Some ("Bearer " ++ token)) db' = Data me
    /\ depopulate (authController.me_user me) = user
    /\ Business.toPublicProfile
         <$> Populated.pub_business (authController.me_user me)
       = Some business
    /\ authController.me_business me = Some business.
Proof.
  intros Hreg Hspace Htoken Hverify.
  destruct (register_then_protect _ _ _ _ _ _ _ _ Hreg Hspace Htoken Hverify)
    as (u & b & Hu & Hb & Hub & Hbo & Huser & Hbusiness & Ha).
  unfold routes.get_me.
  rewrite (protect_authenticates _ _ _ _ _ Ha).
  cbn [Populated.account Populated.without_password _id hydrate].
  unfold authController.getMe, User.findById. rewrite Hu.
  cbn [fmap option_fmap option_map].
  unfold Populated.business_of, Business.findById.
  cbn [Populated.without_password fields hydrate User.with_password
       User.business].
  rewrite Hub. cbn [mbind option_bind]. rewrite Hb.
  cbn [fmap option_fmap option_map].
  eexists. split; [reflexivity|].
  cbn [authController.me_user authController.me_business].
  split; [|split; cbn [Populated.pub_business Populated.toPublicProfile
    fmap option_fmap option_map]; by rewrite <- Hbusiness].
  etrans; [|symmetry; exact Huser].
  unfold depopulate, Populated.toPublicProfile, User.toPublicProfile.
  simpl. by rewrite Hub.
Qed.

(** Property X11.  The token of a registration, sent as [Bearer <token>] to
    GET /profile, shows the business the registration created, with the name
    and the email of the registered account as its owner. *)
Theorem register_then_get_profile w body db token user business db' w' :
  authController.register w body db
  = (Send (ok 201 "Registration successful" (Session token user business)),
     db') ->
  spaceless token -> token <> "" ->
  auth.jwt_verify token (JWT_SECRET w') (now w') = Some (User.pub_id user) ->
  routes.get_profile w' (Some ("Bearer " ++ token)) db'
  = Data {| profile_business := business;
            owner_name :=
              User.pub_firstName user ++ " " ++ User.pub_lastName user;
            owner_email := User.pub_email user |}.
Proof.
  intros Hreg Hspace Htoken Hverify.
  destruct (register_then_protect _ _ _ _ _ _ _ _ Hreg Hspace Htoken Hverify)
    as (u & b & Hu & Hb & Hub & Hbo & Huser & Hbusiness & Ha).
  unfold routes.get_profile.
  rewrite (protect_authenticates _ _ _ _ _ Ha).
  unfold routes.business_id, Populated.business_of, Business.findById.
  cbn [Populated.business fields hydrate]. rewrite Hub.
  cbn [mbind option_bind]. rewrite Hb.
  cbn [fmap option_fmap option_map Populated.summary_of Populated.sum_id
       _id hydrate].
  unfold getProfile, Business.findById, User.findById. rewrite Hb.
  cbn [fmap option_fmap option_map fields hydrate]. rewrite Hbo, Hu.
  cbn [fmap option_fmap option_map fields hydrate].
  rewrite <- Hbusiness.
  assert (Hf : User.pub_firstName user = User.firstName u)
    by (by rewrite Huser).
  assert (Hl : User.pub_lastName user = User.lastName u)
    by (by rewrite Huser).
  assert (He : User.pub_email user = User.email u) by (by rewrite Huser).
  by rewrite Hf, Hl, He.
Qed.

End AfterRegistration.

(** ** Logging in, changing the password, registering twice *)

Section Accounts.
Context `{Js.Strings} `{Libs}.

(** Property X12.  A login that fails writes nothing; one that succeeds
    changes, in the whole database, the last login and the update time of
    the account it was made for, and not even these when the stored last
    login is the current time already: the document is then not modified
    and nothing is written. *)
Theorem login_frame w body db reply db' :
  authController.login w body db = (reply, db') ->
  (succeeded reply = false -> db' = db)
  /\ (succeeded reply = true ->
      exists email id u,
        body !! "email" = Some email
        /\ users db !! id = Some u
        /\ User.email u = User.cast_email email
        /\ (User.lastLogin u = Some (now w) -> db' = db)
        /\ (User.lastLogin u <> Some (now w) ->
            db' = {| users :=
                       <[id := User.stamp false (now w)
                                 (User.with_lastLogin (Some (now w)) u)]>
                         (users db);
                     businesses := businesses db |})).
Proof.
  intros Hrun.
  destruct (login_db w body db)
    as [[Hfail Hdb]|(email & password & id & u & b & He & _ & Hu & Hm & _ & _
                     & _ & _ & _ & _ & E)]; rewrite Hrun in *; simpl in *.
  - split; [done|]. congruence.
  - injection E as -> ->. split; [done|]. intros _. exists email, id, u.
    repeat (split; [done|]). split; intros Hl.
    + rewrite decide_True by done. rewrite insert_id by done.
      by destruct db.
    + by rewrite decide_False.
Qed.

(** Property X13.  A change of password that fails writes nothing; one that
    succeeds was asked with the current password and a new one of six
    characters or more, as [length] counts them, and changes, in the whole
    database, the hash and the update time of that account, the hash being
    that of the new password under the salt just drawn; when the new
    password is the stored hash itself the document is not modified and
    nothing is written. *)
Theorem updatePassword_effect w id body db reply db' :
  authController.updatePassword w id body db = (reply, db') ->
  (succeeded reply = false -> db' = db)
  /\ (succeeded reply = true ->
      exists currentPassword newPassword u,
        body !! "currentPassword" = Some currentPassword
        /\ body !! "newPassword" = Some newPassword
        /\ 6 <= Js.length newPassword
        /\ users db !! id = Some u
        /\ User.comparePassword currentPassword u = inr true
        /\ reply = Send (ok 200 "Password updated successfully"
                           (Token (authController.generateToken w id)))
        /\ (User.password u = Some newPassword -> db' = db)
        /\ (User.password u <> Some newPassword ->
            db' = {| users :=
                       <[id := User.stamp false (now w)
                                 (User.with_password
                                    (Some (bcrypt_hash newPassword (salt w)))
                                    u)]>
                         (users db);
                     businesses := businesses db |})).
Proof.
  intros Hrun.
  destruct (updatePassword_db w id body db)
    as [[Hfail Hdb]|(cur & new & u & Hc & Hn & Hlen & Hu & Hcmp & _ & _ & E)];
    rewrite Hrun in *; simpl in *.
  - split; [done|]. congruence.
  - injection E as -> ->. split; [done|]. intros _.
    exists cur, new, u. repeat (split; [done|]). split; intros Hp.
    + rewrite decide_True by done. rewrite insert_id by done.
      by destruct db.
    + by rewrite decide_False.
Qed.

(** Property X14.  After a registration, a second one under an email that
    the schema stores alike (another case, spaces around it) is refused as a
    conflict and writes nothing. *)
Theorem register_conflict_normalized w body db payload db' w2 body2 e e2 :
  authController.register w body db
  = (Send (ok 201 "Registration successful" payload), db') ->
  body !! "email" = Some e ->
  complete body2 -> body2 !! "email" = Some e2 ->
  User.cast_email e2 = User.cast_email e ->
  authController.register w2 body2 db'
  = (Send (failure 400 authController.msg_exists), db').
Proof.
  intros Hreg He Hc He2 Hcast.
  apply register_success in Hreg
    as (fn & ln & em & pw & bn & Hfn & Hln & Hem & Hpw & Hbn & Tem & Tpw
        & Hfree & Hu & Hb & Hpay & ->).
  assert (em = e) as -> by congruence.
  destruct (complete_inv body2 Hc)
    as (fn2 & ln2 & em2 & pw2 & bn2 & Hfn2 & Hln2 & Hem2 & Hpw2 & Hbn2
        & Tfn & Tln & Tem2 & Tpw2 & Tbn).
  assert (em2 = e2) as -> by congruence.
  unfold authController.register.
  rewrite Hfn2, Hln2, Hem2, Hpw2, Hbn2, Tfn, Tln, Tem2, Tpw2, Tbn.
  cbn [negb orb users].
  destruct (findOne_email_Some e2 _ _ _
              (lookup_insert_eq (users db) (ObjectId (users db))
                 (registered_user w fn ln e pw (body !! "phone")
                    (ObjectId (businesses db))))
              (eq_sym Hcast)) as [d Hd].
  by rewrite Hd.
Qed.

(** Property X15.  The contact details of the business a registration
    creates: the email and phone of the business when the request carries
    them, those of the account otherwise, and the industry "other" when none
    is given. *)
Theorem register_contact_fallback w body db token user business db' :
  authController.register w body db
  = (Send (ok 201 "Registration successful" (Session token user business)),
     db') ->
  Business.pub_email business
  = (if Js.truthy (body !! "businessEmail")
     then Business.cast_email <$> body !! "businessEmail"
     else Some (User.pub_email user))
  /\ Business.pub_phone business
     = (if Js.truthy (body !! "businessPhone")
        then Js.trim <$> body !! "businessPhone"
        else User.pub_phone user)
  /\ Business.pub_industry business
     = (if Js.truthy (body !! "industry")
        then default "" (body !! "industry") else "other").
Proof.
  intros Hreg.
  apply register_success in Hreg
    as (fn & ln & em & pw & bn & Hfn & Hln & Hem & Hpw & Hbn & Tem & Tpw
        & Hfree & Hu & Hb & Hpay & ->).
  injection Hpay as -> -> ->. simpl. unfold Js.or_opt, Js.or_else.
  split; [|split].
  - by destruct (Js.truthy (body !! "businessEmail")).
  - by destruct (Js.truthy (body !! "businessPhone")).
  - destruct (body !! "industry") as [i|]; simpl; [|done].
    by destruct (String.eqb i "").
Qed.


(** Property X17.  The first save of a registration is not validated: what
    the validators would object to the new account alone does not stop the
    registration. *)
Theorem register_first_save_unvalidated w body db ms :
  complete body -> ~ email_taken body db ->
  outcome w 0 = Invalid ms ->
  (forall k, 0 < k < 4 -> outcome w k = Accepted) ->
  exists payload db',
    authController.register w body db
    = (Send (ok 201 "Registration successful" payload), db').
Proof.
  intros Hc Hfree R0 Hrest.
  destruct (complete_inv body Hc)
    as (fn & ln & em & pw & bn & Hfn & Hln & Hem & Hpw & Hbn
        & Tfn & Tln & Tem & Tpw & Tbn).
  assert (Hfind : User.findOne_email em (users db) = None).
  { apply findOne_email_None. intros id u Hu He. apply Hfree.
    by exists em, id, u. }
  unfold authController.register.
  rewrite Hfn, Hln, Hem, Hpw, Hbn, Tfn, Tln, Tem, Tpw, Tbn, Hfind.
  cbn [negb orb]. rewrite register_transaction_eq.
  rewrite R0, !Hrest by lia. simpl. by eexists _, _.
Qed.

End Accounts.

(** ** What an update of the profile stores *)

Section ProfileWrites.
Context `{Js.Lawful}.

Ltac untouched proj :=
  unfold apply_profile;
  repeat first
    [ rewrite (proj_set_if_defined proj) by reflexivity
    | rewrite (proj_set_if_truthy proj) by reflexivity
    | rewrite (proj_address proj) by reflexivity ];
  reflexivity.

(** Property X18.  An update of the profile creates and removes no document
    and, in the business it is made for, leaves alone everything the request
    has no field for: the owner, the status, the subscription, the logo, the
    metrics, the creation time and the preferences. *)
Theorem updateProfile_protected w id body db reply db' :
  updateProfile w id body db = (reply, db') ->
  users db' = users db
  /\ (forall k, k <> id -> businesses db' !! k = businesses db !! k)
  /\ (businesses db !! id = None -> businesses db' !! id = None)
  /\ forall b, businesses db !! id = Some b ->
       exists b', businesses db' !! id = Some b'
         /\ Business.owner b' = Business.owner b
         /\ Business.isActive b' = Business.isActive b
         /\ Business.subscriptionStatus b' = Business.subscriptionStatus b
         /\ Business.subscriptionPlan b' = Business.subscriptionPlan b
         /\ Business.logo b' = Business.logo b
         /\ Business.totalEmployees b' = Business.totalEmployees b
         /\ Business.totalRevenue b' = Business.totalRevenue b
         /\ Business.createdAt b' = Business.createdAt b
         /\ Business.preferences b' = Business.preferences b.
Proof.
  intros Hrun.
  destruct (updateProfile_db w id body db)
    as [[_ Hdb]|(b0 & b' & Hb0 & _ & Hb' & E)]; rewrite Hrun in *;
    simpl in *.
  - subst db'. repeat split; try done. intros b Hb. by exists b.
  - injection E as -> ->. simpl. split; [done|].
    split; [intros k Hk; by rewrite lookup_insert_ne|].
    split; [congruence|].
    intros b Hb. assert (b0 = b) as -> by congruence.
    exists b'. split; [apply lookup_insert_eq|].
    destruct Hb' as [(_ & -> & _)|(_ & _ & ->)]; [done|]. simpl.
    repeat split.
    + untouched Business.owner.
    + untouched Business.isActive.
    + untouched Business.subscriptionStatus.
    + untouched Business.subscriptionPlan.
    + untouched Business.logo.
    + untouched Business.totalEmployees.
    + untouched Business.totalRevenue.
    + untouched Business.createdAt.
    + untouched Business.preferences.
Qed.

Lemma apply_profile_address body d :
  Business.address (fields (apply_profile body d))
  = match address body with
    | Some a => Business.cast_address (a ∪ Business.address (fields d))
    | None => Business.address (fields d)
    end.
Proof.
  unfold apply_profile.
  rewrite !(proj_set_if_defined Business.address) by reflexivity.
  rewrite !(proj_set_if_truthy Business.address) by reflexivity.
  destruct (address body) as [a|].
  - cbn [set_path assign fields Business.with_address Business.address].
    rewrite !(proj_set_if_defined Business.address) by reflexivity.
    rewrite !(proj_set_if_truthy Business.address) by reflexivity.
    rewrite !(proj_set_if_defined Business.address) by reflexivity.
    rewrite !(proj_set_if_truthy Business.address) by reflexivity.
    reflexivity.
  - rewrite !(proj_set_if_defined Business.address) by reflexivity.
    rewrite !(proj_set_if_truthy Business.address) by reflexivity.
    rewrite !(proj_set_if_defined Business.address) by reflexivity.
    rewrite !(proj_set_if_truthy Business.address) by reflexivity.
    reflexivity.
Qed.

Lemma cast_address_lookup (a : gmap string string) k :
  Business.cast_address a !! k
  = if decide (k ∈ Business.address_paths) then Js.trim <$> a !! k else None.
Proof.
  unfold Business.cast_address. rewrite lookup_fmap, map_lookup_filter.
  destruct (a !! k) as [v|]; simpl.
  - destruct (decide (k ∈ Business.address_paths)) as [Hk|Hk].
    + by rewrite option_guard_True.
    + by rewrite option_guard_False.
  - by destruct (decide _).
Qed.

(** Property X19.  The address of an accepted update is the stored one
    overlaid with the parts the request carries, limited to the five paths
    of the schema, every value trimmed; without an [address] in the request
    it is the stored one. *)
Theorem updateProfile_address w id body db b reply db' :
  businesses db !! id = Some b ->
  updateProfile w id body db = (reply, db') ->
  succeeded reply = true ->
  exists b', businesses db' !! id = Some b'
    /\ match address body with
       | None => Business.address b' = Business.address b
       | Some a =>
           forall k,
             Business.address b' !! k
             = if decide (k ∈ Business.address_paths)
               then Js.trim <$> match a !! k with
                                | Some v => Some v
                                | None => Business.address b !! k
                                end
               else None
       end.
Proof.
  intros Hb Hrun Hok.
  destruct (updateProfile_db w id body db)
    as [[Hfail _]|(b0 & b' & Hb0 & _ & Hb' & E)]; rewrite Hrun in *;
    simpl in *.
  - congruence.
  - injection E as -> ->. assert (b0 = b) as -> by congruence.
    exists b'. split; [apply lookup_insert_eq|].
    assert (Ha : Business.address b'
                 = Business.address
                     (fields (apply_profile body (hydrate id b))))
      by (destruct Hb' as [(_ & -> & ->)|(_ & _ & ->)]; done).
    rewrite Ha, apply_profile_address. simpl.
    destruct (address body) as [a|]; [|done].
    intros k. rewrite cast_address_lookup, lookup_union.
    destruct (decide _); [|done].
    destruct (a !! k), (Business.address b !! k); done.
Qed.





Ltac frame proj :=
  repeat first
    [ rewrite (proj_set_if_defined proj) by reflexivity
    | rewrite (proj_set_if_truthy proj) by reflexivity
    | rewrite (proj_address proj) by reflexivity ].




End ProfileWrites.

(** ** What a replace of the preferences stores *)

Section Replace.
Context `{Js.Lawful}.

Lemma categories_stored time l v :
  mapM (Category.normalize time) l = Some v ->
  Category.name <$> (Category.cast <$> v) = category_names l.
Proof.
  rewrite mapM_Some. unfold category_names.
  induction 1 as [|c y l v Hc _ IH]; [done|].
  rewrite !fmap_cons, IH. f_equal.
  unfold Category.normalize in Hc.
  destruct (Category.in_name c) as [n|]; [|done].
  injection Hc as <-. simpl. apply trim_idemp.
Qed.

Lemma units_stored time l v :
  mapM (Unit.normalize time) l = Some v ->
  Unit.name <$> (Unit.cast <$> v) = unit_names l
  /\ Unit.abbreviation <$> (Unit.cast <$> v) = unit_abbreviations l.
Proof.
  rewrite mapM_Some. unfold unit_names, unit_abbreviations.
  induction 1 as [|u y l v Hu _ [IH1 IH2]]; [done|].
  rewrite !fmap_cons, IH1, IH2.
  unfold Unit.normalize in Hu.
  destruct (Unit.in_name u) as [n|]; [|done].
  destruct (Unit.in_abbreviation u) as [a|]; [|done].
  injection Hu as <-. simpl. split; f_equal.
  - apply trim_idemp.
  - by rewrite trim_idemp, trim_upper, toUpperCase_idemp.
Qed.

Lemma productTypes_stored time l v :
  mapM (ProductType.normalize time) l = Some v ->
  ProductType.name <$> (ProductType.cast <$> v) = type_names l.
Proof.
  rewrite mapM_Some. unfold type_names.
  induction 1 as [|c y l v Hc _ IH]; [done|].
  rewrite !fmap_cons, IH. f_equal.
  unfold ProductType.normalize in Hc.
  destruct (ProductType.in_name c) as [n|]; [|done].
  injection Hc as <-. simpl. apply trim_idemp.
Qed.

(** What the chain of the three blocks leaves in the collections. *)
Lemma update_chain_arrays w body d d1 d2 d3 :
  update_categories w (categories body) d = inr d1 ->
  update_units w (units body) d1 = inr d2 ->
  update_productTypes w (productTypes body) d2 = inr d3 ->
  let p := Business.preferences (fields d3) in
  (forall l, categories body = Array l ->
     Category.name <$> Preferences.categories p = category_names l)
  /\ (forall l, units body = Array l ->
        Unit.name <$> Preferences.units p = unit_names l
        /\ Unit.abbreviation <$> Preferences.units p = unit_abbreviations l)
  /\ (forall l, productTypes body = Array l ->
        ProductType.name <$> Preferences.productTypes p = type_names l).
Proof.
  intros E1 E2 E3.
  pose proof (update_categories_spec w (categories body) d) as S1.
  pose proof (update_units_spec w (units body) d1) as S2.
  pose proof (update_productTypes_spec w (productTypes body) d2) as S3.
  rewrite E1 in S1. rewrite E2 in S2. rewrite E3 in S3.
  apply update_units_prefs in E2 as (C2c & C2p & _ & _).
  apply update_productTypes_prefs in E3 as (C3c & C3u & _ & _).
  cbv zeta in *. split; [|split].
  - intros l Hl. rewrite C3c, C2c. rewrite Hl in S1.
    destruct S1 as [_ [[? _]|(l' & v & [= <-] & Hv & ->)]]; [done|].
    simpl. by apply categories_stored in Hv.
  - intros l Hl. rewrite C3u. rewrite Hl in S2.
    destruct S2 as [_ [[? _]|(l' & v & [= <-] & Hv & ->)]]; [done|].
    simpl. by apply units_stored in Hv.
  - intros l Hl. rewrite Hl in S3.
    destruct S3 as [[? _]|(l' & v & [= <-] & _ & Hv & ->)]; [done|].
    simpl. by apply productTypes_stored in Hv.
Qed.

Lemma updatePreferences_ok w id body db prefs stats db' :
  updatePreferences w id body db
  = (Send (ok 200 "Preferences updated successfully"
             (PreferencesView prefs stats)), db') ->
  exists b d1 d2 d3,
    businesses db !! id = Some b
    /\ update_categories w (categories body) (hydrate id b) = inr d1
    /\ update_units w (units body) d1 = inr d2
    /\ update_productTypes w (productTypes body) d2 = inr d3
    /\ prefs = Business.preferences (fields d3)
    /\ stats = stats_of prefs
    /\ exists b',
        Business.preferences b' = prefs
        /\ db' = {| users := users db;
                    businesses := <[id := b']> (businesses db) |}.
Proof.
  intros Hrun.
  destruct (businesses db !! id) as [b|] eqn:Hb.
  - pose proof (updatePreferences_cases w id body db b Hb) as Hcases.
    simpl in Hcases. rewrite Hrun in Hcases.
    destruct Hcases as [(_ & _ & _ & E)|[(m & _ & E)|[(d1 & m & _ & _ & E)
      |[(d1 & d2 & m & _ & _ & _ & E)
       |(d1 & d2 & d3 & E1 & E2 & E3
         & [(e & E & _)|(b' & _ & _ & Hprefs & E)])]]]];
      try discriminate E.
    injection E as -> -> ->. exists b, d1, d2, d3.
    repeat (split; [done|]). by exists b'.
  - revert Hrun. unfold updatePreferences, Business.findById.
    by rewrite Hb.
Qed.

(** Property X21.  A successful replace stores each submitted collection in
    the order it came, whatever was stored before: one element for each
    submitted one, under the trimmed name and, for a unit, the trimmed
    abbreviation in upper case, [trim] and [toUpperCase] being those of the
    language.  The preferences of the reply are the stored ones, the counts
    of the reply are those of the request, and an empty array empties the
    collection. *)
Theorem updatePreferences_replaces w id body db prefs stats db' :
  updatePreferences w id body db
  = (Send (ok 200 "Preferences updated successfully"
             (PreferencesView prefs stats)), db') ->
  (exists b', businesses db' !! id = Some b'
     /\ Business.preferences b' = prefs)
  /\ (forall l, categories body = Array l ->
     Category.name <$> Preferences.categories prefs = category_names l
     /\ totalCategories stats = length l)
  /\ (forall l, units body = Array l ->
        Unit.name <$> Preferences.units prefs = unit_names l
        /\ Unit.abbreviation <$> Preferences.units prefs
           = unit_abbreviations l
        /\ totalUnits stats = length l)
  /\ (forall l, productTypes body = Array l ->
        ProductType.name <$> Preferences.productTypes prefs = type_names l
        /\ totalProductTypes stats = length l).
Proof.
  intros (b & d1 & d2 & d3 & Hb & E1 & E2 & E3 & -> & -> & b' & Hb' & ->)
    %updatePreferences_ok.
  destruct (update_chain_arrays _ _ _ _ _ _ E1 E2 E3) as (Hc & Hu & Hp).
  cbv zeta in *.
  split; [exists b'; split; [apply lookup_insert_eq|done]|].
  split; [|split].
  - intros l Hl. split; [by apply Hc|]. simpl.
    rewrite <- (length_fmap Category.name), (Hc l Hl).
    unfold category_names. by rewrite length_fmap.
  - intros l Hl. destruct (Hu l Hl) as [Hn Ha]. split; [done|].
    split; [done|]. simpl.
    rewrite <- (length_fmap Unit.name), Hn.
    unfold unit_names. by rewrite length_fmap.
  - intros l Hl. split; [by apply Hp|]. simpl.
    rewrite <- (length_fmap ProductType.name), (Hp l Hl).
    unfold type_names. by rewrite length_fmap.
Qed.

End Replace.

(** ** What holds of every reachable database *)

Section Consistency.
Context `{Js.Lawful} `{Libs}.

Lemma cast_email_idemp e :
  User.cast_email (User.cast_email e) = User.cast_email e.
Proof.
  unfold User.cast_email. by rewrite trim_lower_trim, toLowerCase_idemp.
Qed.

Lemma tidy_trim s : Js.trim s <> "" -> tidy (Js.trim s).
Proof. intros Hs. split; [apply trim_idemp|done]. Qed.

Lemma named_tidy v : named v -> tidy (Js.trim (Js.trim (default "" v))).
Proof.
  intros (s & -> & Hs). simpl. rewrite trim_idemp. by apply tidy_trim.
Qed.

Lemma tidy_schema_default : tidy_preferences Preferences.schema_default.
Proof. repeat split; constructor. Qed.

Lemma categories_tidy time l v :
  Forall (fun c => named (Category.in_name c)) l ->
  mapM (Category.normalize time) l = Some v ->
  Forall (fun c => tidy (Category.name c)) (Category.cast <$> v).
Proof.
  rewrite mapM_Some. intros Hl Hv.
  induction Hv as [|c y l v Hc _ IH]; [constructor|].
  apply Forall_cons in Hl as [Hn Hl]. rewrite fmap_cons.
  constructor; [|by apply IH].
  unfold Category.normalize in Hc. pose proof (named_tidy _ Hn) as Ht.
  destruct (Category.in_name c) as [n|]; [|done]. by injection Hc as <-.
Qed.

Lemma productTypes_tidy time l v :
  Forall (fun c => named (ProductType.in_name c)) l ->
  mapM (ProductType.normalize time) l = Some v ->
  Forall (fun c => tidy (ProductType.name c)) (ProductType.cast <$> v).
Proof.
  rewrite mapM_Some. intros Hl Hv.
  induction Hv as [|c y l v Hc _ IH]; [constructor|].
  apply Forall_cons in Hl as [Hn Hl]. rewrite fmap_cons.
  constructor; [|by apply IH].
  unfold ProductType.normalize in Hc. pose proof (named_tidy _ Hn) as Ht.
  destruct (ProductType.in_name c) as [n|]; [|done]. by injection Hc as <-.
Qed.

Lemma units_tidy time l v :
  Forall (fun u => named (Unit.in_name u) /\ named (Unit.in_abbreviation u)) l ->
  mapM (Unit.normalize time) l = Some v ->
  Forall tidy_unit (Unit.cast <$> v).
Proof.
  rewrite mapM_Some. intros Hl Hv.
  induction Hv as [|u y l v Hu _ IH]; [constructor|].
  apply Forall_cons in Hl as [[Hn Ha] Hl]. rewrite fmap_cons.
  constructor; [|by apply IH].
  unfold Unit.normalize in Hu. pose proof (named_tidy _ Hn) as Ht.
  destruct Ha as (a & Ha & Hta).
  destruct (Unit.in_name u) as [n|]; [|done]. rewrite Ha in Hu.
  injection Hu as <-. split; [done|]. simpl.
  rewrite trim_idemp, trim_upper, toUpperCase_idemp.
  split; [|apply toUpperCase_idemp].
  split.
  - by rewrite trim_upper, trim_idemp.
  - intros Hz. apply Hta. by apply Js.toUpperCase_empty.
Qed.

Lemma update_categories_tidy w f d d' :
  update_categories w f d = inr d' ->
  tidy_preferences (Business.preferences (fields d)) ->
  tidy_preferences (Business.preferences (fields d')).
Proof.
  intros Hd (Tc & Tu & Tp). pose proof (update_categories_spec w f d) as Hs.
  rewrite Hd in Hs.
  destruct Hs as [Hpass [[_ ->]|(l & v & -> & Hv & ->)]]; [done|].
  destruct Hpass as [_ Hnamed]. split; [|done]. simpl.
  by eapply categories_tidy.
Qed.

Lemma update_units_tidy w f d d' :
  update_units w f d = inr d' ->
  tidy_preferences (Business.preferences (fields d)) ->
  tidy_preferences (Business.preferences (fields d')).
Proof.
  intros Hd (Tc & Tu & Tp). pose proof (update_units_spec w f d) as Hs.
  rewrite Hd in Hs.
  destruct Hs as [Hpass [[_ ->]|(l & v & -> & Hv & ->)]]; [done|].
  destruct Hpass as [_ Hnamed]. split; [done|]. split; [|done]. simpl.
  by eapply units_tidy.
Qed.

Lemma update_productTypes_tidy w f d d' :
  update_productTypes w f d = inr d' ->
  tidy_preferences (Business.preferences (fields d)) ->
  tidy_preferences (Business.preferences (fields d')).
Proof.
  intros Hd (Tc & Tu & Tp). destruct f as [|[]|l]; simpl in Hd;
    try (by injection Hd as <-); try done.
  destruct (0 <? _)%nat; [done|].
  destruct (check_productTypes l) eqn:Hcheck; [done|].
  apply check_productTypes_None in Hcheck.
  destruct (mapM _ l) as [v|] eqn:Hv; [|done]. injection Hd as <-.
  split; [done|]. split; [done|]. simpl. by eapply productTypes_tidy.
Qed.

(** A write to one business that keeps its owner and its status. *)
Lemma consistent_business db id b b' :
  businesses db !! id = Some b ->
  Business.owner b' = Business.owner b ->
  Business.isActive b' = Business.isActive b ->
  tidy_preferences (Business.preferences b') ->
  consistent db ->
  consistent {| users := users db; businesses := <[id := b']> (businesses db) |}.
Proof.
  intros Hb Ho Ha Ht ((Lu & Lb) & Huniq & Hst & Hbs).
  split; [split|split; [done|split; [done|]]]; simpl.
  - intros k u Hu. destruct (Lu k u Hu) as (bid & b0 & Hub & Hb0 & Hown).
    destruct (decide (bid = id)) as [->|Hne].
    + exists id, b'. rewrite lookup_insert_eq. split; [done|]. split; [done|].
      congruence.
    + exists bid, b0. by rewrite lookup_insert_ne.
  - intros bid b0. destruct (decide (bid = id)) as [->|Hne].
    + rewrite lookup_insert_eq. intros [= <-]. rewrite Ho. by apply Lb.
    + rewrite lookup_insert_ne by done. apply Lb.
  - intros k b0. destruct (decide (k = id)) as [->|Hne].
    + rewrite lookup_insert_eq. intros [= <-]. split; [|done].
      rewrite Ha. by apply (Hbs id b).
    + rewrite lookup_insert_ne by done. apply Hbs.
Qed.

(** A write to one account that keeps its email, its business and its
    standing. *)
Lemma consistent_user db id u u' :
  users db !! id = Some u ->
  User.email u' = User.email u -> User.business u' = User.business u ->
  standing u' ->
  consistent db ->
  consistent {| users := <[id := u']> (users db); businesses := businesses db |}.
Proof.
  intros Hu He Hbus Hst' ((Lu & Lb) & Huniq & Hst & Hbs).
  split; [split|split; [|split; [|done]]]; simpl.
  - intros k v. destruct (decide (k = id)) as [->|Hne].
    + rewrite lookup_insert_eq. intros [= <-]. rewrite Hbus. by apply Lu.
    + rewrite lookup_insert_ne by done. apply Lu.
  - intros bid b Hb. destruct (Lb bid b Hb) as (v & Hv & Hvb).
    destruct (decide (Business.owner b = id)) as [Heq|Hne].
    + exists u'. rewrite Heq, lookup_insert_eq. split; [done|].
      rewrite Hbus. congruence.
    + exists v. by rewrite lookup_insert_ne.
  - intros id1 id2 u1 u2. cbn [users].
    destruct (decide (id1 = id)) as [->|N1];
      destruct (decide (id2 = id)) as [->|N2]; try done.
    + rewrite lookup_insert_eq, lookup_insert_ne by done.
      intros [= <-] U2 Hm. symmetry. apply (Huniq _ _ _ _ U2 Hu). congruence.
    + rewrite lookup_insert_eq, lookup_insert_ne by done.
      intros U1 [= <-] Hm. apply (Huniq _ _ _ _ U1 Hu). congruence.
    + rewrite !lookup_insert_ne by done. apply Huniq.
  - intros k v. destruct (decide (k = id)) as [->|Hne].
    + rewrite lookup_insert_eq. by intros [= <-].
    + rewrite lookup_insert_ne by done. apply Hst.
Qed.

Lemma consistent_register w body db :
  consistent db -> consistent (authController.register w body db).2.
Proof.
  intros Hinv.
  destruct (register_db w body db) as [->|(payload & db' & Hreg)]; [done|].
  rewrite Hreg. simpl.
  apply register_success in Hreg
    as (fn & ln & em & pw & bn & Hfn & Hln & Hem & Hpw & Hbn & Tem & Tpw
        & Hfree & Hu & Hb & _ & ->).
  destruct Hinv as ((Lu & Lb) & Huniq & Hst & Hbs).
  set (uid := ObjectId (users db)) in *.
  set (bid := ObjectId (businesses db)) in *.
  split; [split|split; [|split]]; simpl.
  - intros k v. destruct (decide (k = uid)) as [->|Hne].
    + rewrite lookup_insert_eq. intros [= <-]. eexists bid, _.
      rewrite lookup_insert_eq. done.
    + rewrite lookup_insert_ne by done. intros Hv.
      destruct (Lu k v Hv) as (b0 & x & Hvb & Hx & Hown).
      exists b0, x. split; [done|]. split; [|done].
      rewrite lookup_insert_ne; [done|]. intros <-. congruence.
  - intros k x. destruct (decide (k = bid)) as [->|Hne].
    + rewrite lookup_insert_eq. intros [= <-]. simpl.
      eexists. rewrite lookup_insert_eq. done.
    + rewrite lookup_insert_ne by done. intros Hx.
      destruct (Lb k x Hx) as (v & Hv & Hvb).
      exists v. split; [|done].
      rewrite lookup_insert_ne; [done|]. intros Heq. congruence.
  - intros id1 id2 u1 u2. cbn [users].
    destruct (decide (id1 = uid)) as [->|N1];
      destruct (decide (id2 = uid)) as [->|N2]; try done.
    + rewrite lookup_insert_eq, lookup_insert_ne by done.
      intros [= <-] U2 Hm. exfalso. by apply (Hfree id2 u2 U2).
    + rewrite lookup_insert_eq, lookup_insert_ne by done.
      intros U1 [= <-] Hm. exfalso. by apply (Hfree id1 u1 U1).
    + rewrite !lookup_insert_ne by done. apply Huniq.
  - intros k v. destruct (decide (k = uid)) as [->|Hne].
    + rewrite lookup_insert_eq. intros [= <-].
      split; [done|]. split; [done|]. split; [by eexists|].
      apply cast_email_idemp.
    + rewrite lookup_insert_ne by done. apply Hst.
  - intros k x. destruct (decide (k = bid)) as [->|Hne].
    + rewrite lookup_insert_eq. intros [= <-]. split; [done|].
      apply tidy_schema_default.
    + rewrite lookup_insert_ne by done. apply Hbs.
Qed.

Lemma consistent_login w body db :
  consistent db -> consistent (authController.login w body db).2.
Proof.
  intros Hinv.
  destruct (login_db w body db)
    as [[_ ->]|(email & password & id & u & b & _ & _ & Hu & _ & _ & _
                & _ & _ & _ & _ & ->)]; [done|].
  simpl. destruct Hinv as (Hl & Hq & Hst & Hbs).
  apply (consistent_user db id u); try done;
    destruct (decide _); try done; apply (Hst id u Hu).
Qed.

Lemma consistent_updatePassword w id body db :
  consistent db -> consistent (authController.updatePassword w id body db).2.
Proof.
  intros Hinv.
  destruct (updatePassword_db w id body db)
    as [[_ ->]|(c & n & u & _ & _ & _ & Hu & _ & _ & _ & ->)]; [done|].
  simpl. destruct Hinv as (Hl & Hq & Hst & Hbs).
  apply (consistent_user db id u); try done;
    destruct (decide _); try done; try apply (Hst id u Hu).
  destruct (Hst id u Hu) as (Hr & Ha & _ & He).
  split; [done|]. split; [done|]. split; [by eexists|done].
Qed.

Lemma consistent_updatePreferences w id body db :
  consistent db -> consistent (updatePreferences w id body db).2.
Proof.
  intros Hinv.
  destruct (businesses db !! id) as [b|] eqn:Hb.
  - pose proof (updatePreferences_cases w id body db b Hb) as Hcases.
    simpl in Hcases.
    destruct Hcases as [(_ & _ & _ & E)|[(m & _ & E)|[(d1 & m & _ & _ & E)
      |[(d1 & d2 & m & _ & _ & _ & E)
       |(d1 & d2 & d3 & E1 & E2 & E3
         & [(e & E & _)|(b' & _ & Hb' & Hprefs & E)])]]]];
      rewrite E; try done.
    simpl.
    assert (Ht : tidy_preferences (Business.preferences (fields d3))).
    { eapply update_productTypes_tidy; [done|].
      eapply update_units_tidy; [done|].
      eapply update_categories_tidy; [done|].
      destruct Hinv as (_ & _ & _ & Hbs). apply (Hbs id b Hb). }
    apply update_categories_fields in E1 as [p1 F1].
    apply update_units_fields in E2 as [p2 F2].
    apply update_productTypes_fields in E3 as [p3 F3].
    apply (consistent_business db id b); try done.
    + destruct Hb' as [(_ & -> & _)|(_ & _ & ->)]; [done|].
      by rewrite F3, F2, F1.
    + destruct Hb' as [(_ & -> & _)|(_ & _ & ->)]; [done|].
      by rewrite F3, F2, F1.
    + by rewrite Hprefs.
  - unfold updatePreferences, Business.findById. by rewrite Hb.
Qed.

Lemma consistent_updateProfile w id body db :
  consistent db -> consistent (updateProfile w id body db).2.
Proof.
  intros Hinv.
  destruct (updateProfile_db w id body db)
    as [[_ ->]|(b & b' & Hb & _ & Hb' & E)];
    [done|]. rewrite E. simpl. cbv zeta in Hb'.
  destruct Hinv as (Hl & Hq & Hst & Hbs).
  apply (consistent_business db id b); try done;
    (destruct Hb' as [(_ & -> & _)|(_ & _ & ->)];
     [try done; apply (Hbs id b Hb)|]); simpl.
  - unfold apply_profile.
    repeat first
      [ rewrite (proj_set_if_defined Business.owner) by reflexivity
      | rewrite (proj_set_if_truthy Business.owner) by reflexivity
      | rewrite (proj_address Business.owner) by reflexivity ].
    reflexivity.
  - unfold apply_profile.
    repeat first
      [ rewrite (proj_set_if_defined Business.isActive) by reflexivity
      | rewrite (proj_set_if_truthy Business.isActive) by reflexivity
      | rewrite (proj_address Business.isActive) by reflexivity ].
    reflexivity.
  - rewrite apply_profile_preferences. simpl. apply (Hbs id b Hb).
Qed.

Lemma reachable_consistent db : reachable db -> consistent db.
Proof.
  induction 1 as [|w body db _ IH|w body db _ IH|w id body db _ IH
                  |w id body db _ IH|w id body db _ IH].
  - split; [split|split; [|split]]; simpl; intros *;
      by rewrite ?lookup_empty.
  - by apply consistent_register.
  - by apply consistent_login.
  - by apply consistent_updatePassword.
  - by apply consistent_updatePreferences.
  - by apply consistent_updateProfile.
Qed.

(** Property X22.  In every database the handlers can produce, accounts and
    businesses come in pairs: each account refers to a stored business that
    names it as its owner, and each business is owned by a stored account
    that refers to it. *)
Theorem reachable_linked db : reachable db -> linked db.
Proof. intros Hr. apply (reachable_consistent db Hr). Qed.

(** Property X23.  In every database the handlers can produce, no two
    accounts share an email, and every email is stored as the schema casts
    it: trimmed and in lower case. *)
Theorem reachable_unique_emails db :
  reachable db ->
  unique_emails db
  /\ forall id u, users db !! id = Some u ->
       User.cast_email (User.email u) = User.email u.
Proof.
  intros (_ & Hu & Hst & _)%reachable_consistent. split; [done|].
  intros id u Hid. apply (Hst id u Hid).
Qed.

(** Property X24.  In every database the handlers can produce, every account
    is an active owner with a password hash, and every business is active:
    no handler creates another role or switches anything off. *)
Theorem reachable_standing db :
  reachable db ->
  (forall id u, users db !! id = Some u ->
     User.role u = User.Owner /\ User.isActive u = true
     /\ is_Some (User.password u))
  /\ (forall id b, businesses db !! id = Some b -> Business.isActive b = true).
Proof.
  intros (_ & _ & Hst & Hbs)%reachable_consistent. split.
  - intros id u Hu. destruct (Hst id u Hu) as (? & ? & ? & _). done.
  - intros id b Hb. apply (Hbs id b Hb).
Qed.

(** Property X25.  In every database the handlers can produce, every stored
    category, unit and product type has a trimmed, non-empty name, and every
    unit a trimmed, non-empty abbreviation in upper case. *)
Theorem reachable_tidy db id b :
  reachable db -> businesses db !! id = Some b ->
  tidy_preferences (Business.preferences b).
Proof.
  intros (_ & _ & _ & Hbs)%reachable_consistent Hb. apply (Hbs id b Hb).
Qed.

End Consistency.

(** ** Reading on a reachable database *)

Section ReachableRoutes.
Context `{Js.Lawful} `{Libs} `{auth.Verifier}.

(** Property X26.  On a database the handlers can produce, the three GET
    routes answer every authenticated request with data: the business of the
    account is there and the account is its owner. *)
Theorem reachable_reads_answer w h db id u :
  reachable db -> authenticates w h db id u ->
  exists bid b,
    User.business u = Some bid /\ businesses db !! bid = Some b
    /\ Business.owner b = id
    /\ routes.get_profile w h db
       = Data {| profile_business := Business.toPublicProfile (hydrate bid b);
                 owner_name := User.firstName u ++ " " ++ User.lastName u;
                 owner_email := User.email u |}
    /\ routes.get_preferences w h db
       = (Send (ok 200 "Preferences retrieved successfully"
                  (PreferencesView (Business.preferences b)
                     (stats_of (Business.preferences b)))), db)
    /\ exists me,
         routes.get_me w h db = Data me
         /\ authController.me_business me
            = Some (Business.toPublicProfile (hydrate bid b))
         /\ depopulate (authController.me_user me)
            = User.toPublicProfile (hydrate id u).
Proof.
  intros ((Lu & _) & _)%reachable_consistent Ha.
  pose proof Ha as (t & _ & _ & _ & Hu & _).
  destruct (Lu id u Hu) as (bid & b & Hub & Hb & Hown).
  exists bid, b. repeat (split; [done|]).
  unfold routes.get_profile, routes.get_preferences, routes.get_me.
  rewrite (protect_authenticates _ _ _ _ _ Ha).
  unfold routes.business_id, Populated.business_of, Business.findById.
  cbn [Populated.business Populated.account Populated.without_password
       fields hydrate _id].
  rewrite Hub. cbn [mbind option_bind]. rewrite Hb.
  cbn [fmap option_fmap option_map Populated.summary_of Populated.sum_id
       _id hydrate].
  split; [|split].
  - unfold getProfile, Business.findById, User.findById. rewrite Hb.
    cbn [fmap option_fmap option_map fields hydrate]. rewrite Hown, Hu.
    reflexivity.
  - by apply getPreferences_found.
  - unfold authController.getMe, User.findById. rewrite Hu.
    cbn [fmap option_fmap option_map].
    unfold Populated.business_of, Business.findById.
    cbn [Populated.without_password fields hydrate User.with_password
         User.business].
    rewrite Hub. cbn [mbind option_bind]. rewrite Hb.
    eexists. split; [reflexivity|]. split; [reflexivity|].
    unfold depopulate, Populated.toPublicProfile, User.toPublicProfile.
    simpl. by rewrite Hub.
Qed.

End ReachableRoutes.

(** ** Logging in after a change of password *)

Section Rotation.
Context `{Js.Lawful} `{Libs}.

(** A login up to the comparison of the password, for an account that
    is the only one under its email. *)
Lemma login_compare w body db email password id u :
  body !! "email" = Some email -> body !! "password" = Some password ->
  email <> "" -> password <> "" ->
  users db !! id = Some u -> User.email u = User.cast_email email ->
  (forall k v, users db !! k = Some v ->
     User.email v = User.cast_email email -> k = id) ->
  User.isActive u = true ->
  (User.comparePassword password u = inr false ->
   authController.login w body db
   = (Send (failure 401 authController.msg_invalid), db))
  /\ (forall bid b,
        User.comparePassword password u = inr true ->
        User.business u = Some bid -> businesses db !! bid = Some b ->
        Business.isActive b = true ->
        refusal true (outcome w 0) = None ->
        succeeded (authController.login w body db).1 = true).
Proof.
  intros He Hp Te Tp Hu Hm Huniq Ha.
  pose proof (findOne_email_unique email (users db) id u Hu Hm Huniq)
    as Hfind.
  apply truthy_Some in Te, Tp.
  unfold authController.login.
  rewrite He, Hp, Te, Tp, Hfind. cbn [negb orb fields hydrate].
  rewrite Ha. cbn [negb]. split.
  - by intros ->.
  - intros bid b -> Hub Hb Hba Hok. rewrite Hub. cbn [mbind option_bind].
    unfold Business.findById. rewrite Hb.
    cbn [fmap option_fmap option_map fields hydrate]. rewrite Hba.
    cbn [negb]. rewrite login_save by done.
    apply refusal_None in Hok as [-> ->]. by destruct (decide _).
Qed.

(** Property X27.  After a change of password on a database the handlers
    produced, a login under the email of the account succeeds with the new
    password, when the library confirms the hash it has just made, and is
    refused as "Invalid credentials" with any password the library does not
    confirm against the new hash: the old one, for one. *)
Theorem updatePassword_then_login w id body db reply db' w' body2 e p :
  reachable db ->
  authController.updatePassword w id body db = (reply, db') ->
  succeeded reply = true ->
  body2 !! "email" = Some e -> body2 !! "password" = Some p ->
  e <> "" -> p <> "" ->
  exists u newPassword h,
    users db !! id = Some u
    /\ body !! "newPassword" = Some newPassword
    /\ (User.password <$> users db' !! id) = Some (Some h)
    /\ (User.password u <> Some newPassword ->
        h = bcrypt_hash newPassword (salt w))
    /\ (User.cast_email e = User.email u ->
        (bcrypt_compare p h = true ->
         refusal true (outcome w' 0) = None ->
         succeeded (authController.login w' body2 db').1 = true)
        /\ (bcrypt_compare p h = false ->
            authController.login w' body2 db'
            = (Send (failure 401 authController.msg_invalid), db'))).
Proof.
  intros Hreach Hrun Hok He Hp Te Tp.
  apply reachable_consistent in Hreach as ((Lu & _) & Huniq & Hst & Hbs).
  destruct (updatePassword_db w id body db)
    as [[Hfail _]|(cur & new & u & _ & Hn & _ & Hu & _ & _ & _ & E)];
    rewrite Hrun in *; simpl in *; [congruence|].
  injection E as -> ->.
  set (u' := if decide (User.password u = Some new) then u
             else User.stamp false (now w)
                    (User.with_password
                       (Some (bcrypt_hash new (salt w))) u)).
  assert (Hpw' : User.password u' = Some (rotated w u new))
    by (unfold u', rotated; by destruct (decide _)).
  assert (Hmail' : User.email u' = User.email u)
    by (unfold u'; by destruct (decide _)).
  assert (Hact' : User.isActive u' = User.isActive u)
    by (unfold u'; by destruct (decide _)).
  assert (Hbus' : User.business u' = User.business u)
    by (unfold u'; by destruct (decide _)).
  exists u, new, (rotated w u new). split; [done|]. split; [done|].
  cbn [users]. rewrite lookup_insert_eq. split; [by rewrite <- Hpw'|].
  split; [intros Hne; unfold rotated; by rewrite decide_False|].
  intros Hcast.
  destruct (Hst id u Hu) as (_ & Hact & _ & _).
  destruct (Lu id u Hu) as (bid & b & Hub & Hb & _).
  destruct (Hbs bid b Hb) as [Hba _].
  destruct (login_compare w' body2
              {| users := <[id := u']> (users db);
                 businesses := businesses db |}
              e p id u' He Hp Te Tp) as [Hwrong Hright].
  - apply lookup_insert_eq.
  - by rewrite Hmail'.
  - intros k v. cbn [users]. destruct (decide (k = id)) as [->|Hne]; [done|].
    rewrite lookup_insert_ne by done. intros Hk Hv.
    apply (Huniq k id v u Hk Hu). by rewrite Hv.
  - by rewrite Hact'.
  - assert (Hcmp : User.comparePassword p u'
                   = inr (bcrypt_compare p (rotated w u new)))
      by (unfold User.comparePassword; by rewrite Hpw').
    split.
    + intros Hc Hw.
      apply (Hright bid b); [by rewrite Hcmp, Hc|by rewrite Hbus'|done..].
    + intros Hc. apply Hwrong. by rewrite Hcmp, Hc.
Qed.

End Rotation.

(** ** The properties on the sample data *)

#[local] Existing Instance sample_libs.
#[local] Existing Instance AsciiText.strings.
#[local] Existing Instance ascii_lawful.
#[local] Existing Instance sample_verifier.

Lemma john_registers :
  authController.register sample_world john empty_db
  = (Send (ok 201 "Registration successful" john_session), john_db).
Proof. vm_compute. reflexivity. Qed.

Lemma register_creates_pair_witness :
  complete john /\ ~ email_taken john empty_db /\ no_write_fails sample_world
  /\ exists uid u bid b payload,
       authController.register sample_world john empty_db
       = (Send (ok 201 "Registration successful" payload),
          {| users := <[uid := u]> (users empty_db);
             businesses := <[bid := b]> (businesses empty_db) |})
       /\ users empty_db !! uid = None /\ businesses empty_db !! bid = None
       /\ size (<[uid := u]> (users empty_db)) = S (size (users empty_db))
       /\ size (<[bid := b]> (businesses empty_db))
          = S (size (businesses empty_db))
       /\ User.business u = Some bid /\ Business.owner b = uid.
Proof.
  assert (Hc : complete john) by (repeat constructor).
  assert (Hf : ~ email_taken john empty_db).
  { intros (e & id & u & _ & Hu & _). simpl in Hu.
    rewrite lookup_empty in Hu. discriminate Hu. }
  assert (Hw : no_write_fails sample_world) by (intros k; reflexivity).
  split; [exact Hc|]. split; [exact Hf|]. split; [exact Hw|].
  exact (proj1 (register_creates_pair sample_world john empty_db
                  Hc Hf) Hw).
Defined.

Lemma register_duplicate_email_witness :
  email_taken john john_db
  /\ exists m,
      authController.register sample_world john john_db
      = (Send (failure 400 m), john_db)
      /\ size (users (authController.register sample_world john
                        john_db).2) = size (users john_db)
      /\ size (businesses (authController.register sample_world
                             john john_db).2) = size (businesses john_db)
      /\ (complete john -> m = authController.msg_exists).
Proof.
  assert (Ht : email_taken john john_db).
  { exists "john@example.com", 0, john_account.
    split; [reflexivity|]. split; [reflexivity|]. vm_compute. reflexivity. }
  split; [exact Ht|].
  exact (register_duplicate_email sample_world john john_db Ht).
Defined.

Lemma register_role_owner_witness :
  authController.register sample_world john empty_db
  = (Send (ok 201 "Registration successful" john_session), john_db)
  /\ User.pub_role (User.toPublicProfile (hydrate 0 john_account)) = User.Owner
  /\ (exists u, users john_db !! 0 = Some u /\ User.role u = User.Owner)
  /\ forall r,
      authController.register sample_world
        (<["role" := r]> john) empty_db
      = authController.register sample_world john empty_db.
Proof.
  split; [exact john_registers|].
  exact (register_role_owner sample_world john empty_db _ _ _ _
           john_registers).
Defined.

Lemma register_preferences_empty_witness :
  authController.register sample_world john empty_db
  = (Send (ok 201 "Registration successful" john_session), john_db)
  /\ exists b, businesses john_db !! 0 = Some b
      /\ Preferences.categories (Business.preferences b) = []
      /\ Preferences.units (Business.preferences b) = []
      /\ Preferences.productTypes (Business.preferences b) = []
      /\ Business.preferences b <> Preferences.bootstrap (now sample_world)
      /\ forall d, Business.pre_save sample_world d = d.
Proof.
  split; [exact john_registers|].
  exact (register_preferences_empty sample_world john empty_db
           _ _ _ _ john_registers).
Defined.

Lemma updatePreferences_duplicates_witness :
  businesses stocked_db !! 0 = Some stocked_business
  /\ duplicate_in box_pack
  /\ updatePreferences sample_world 0 box_pack stocked_db
     = (Send (failure 400 "Duplicate unit abbreviations found: BX"),
        stocked_db).
Proof.
  assert (Hb : businesses stocked_db !! 0 = Some stocked_business)
    by reflexivity.
  assert (Hk : exists k, repeated (unit_keys (units box_pack)) k).
  { exists (Some "BX"), 0, 1. split; [lia|]. split; reflexivity. }
  split; [exact Hb|]. split; [right; left; exact Hk|].
  exact (proj1 (proj2 (proj2 (proj2 (proj2 (proj2 (proj2
           (updatePreferences_duplicates sample_world 0 box_pack
              stocked_db stocked_business Hb))))))) I Hk).
Defined.

(** Claim C3 as stated fails: a replace whose units repeat a key is
    refused without the duplicates being listed, when the categories it
    carries fail their own check first. *)
Lemma duplicates_are_not_always_listed :
  businesses stocked_db !! 0 = Some stocked_business
  /\ duplicate_in unnamed_box_pack
  /\ (exists k, repeated (unit_keys (units unnamed_box_pack)) k)
  /\ updatePreferences sample_world 0 unnamed_box_pack stocked_db
     = (Send (failure 400 "Each category must have a name"), stocked_db).
Proof.
  assert (Hk : exists k, repeated (unit_keys (units unnamed_box_pack)) k).
  { exists (Some "BX"), 0, 1. split; [lia|]. split; reflexivity. }
  split; [reflexivity|]. split; [right; left; exact Hk|].
  split; [exact Hk|]. vm_compute. reflexivity.
Qed.

Lemma updatePreferences_frame_witness :
  businesses stocked_db !! 0 = Some stocked_business
  /\ exists b',
      businesses (updatePreferences sample_world 0 only_box stocked_db).2 !! 0
      = Some b'
      /\ (supplied (categories only_box) = false ->
          Preferences.categories (Business.preferences b')
          = Preferences.categories (Business.preferences stocked_business))
      /\ (supplied (units only_box) = false ->
          Preferences.units (Business.preferences b')
          = Preferences.units (Business.preferences stocked_business))
      /\ (supplied (productTypes only_box) = false ->
          Preferences.productTypes (Business.preferences b')
          = Preferences.productTypes (Business.preferences stocked_business)).
Proof.
  assert (Hb : businesses stocked_db !! 0 = Some stocked_business)
    by reflexivity.
  split; [exact Hb|].
  exact (updatePreferences_frame sample_world 0 only_box stocked_db
           stocked_business _ _ Hb (surjective_pairing _)).
Defined.

(** Claim C6 as stated fails: on a wrong password the reply for the email
    of a deactivated account differs from the reply for an unknown
    email. *)
Lemma login_inactive_is_distinguished :
  password_mismatch inactive_db "john@example.com" "WrongPassword123"
  /\ password_mismatch inactive_db "nobody@example.com"
       "WrongPassword123"
  /\ (authController.login sample_world
        (credentials "nobody@example.com" "WrongPassword123") inactive_db).1
     = Send (failure 401 authController.msg_invalid)
  /\ (authController.login sample_world
        (credentials "john@example.com" "WrongPassword123") inactive_db).1
     = Send (failure 401
         "Your account has been deactivated. Please contact support.")
  /\ (authController.login sample_world
        (credentials "john@example.com" "WrongPassword123") inactive_db).1
     <> (authController.login sample_world
        (credentials "nobody@example.com" "WrongPassword123") inactive_db).1.
Proof.
  assert (Hmis : forall e,
            password_mismatch inactive_db e "WrongPassword123").
  { intros e id u Hu _. simpl in Hu.
    apply lookup_singleton_Some in Hu as [_ <-]. eexists.
    split; [reflexivity|]. vm_compute. reflexivity. }
  split; [apply Hmis|]. split; [apply Hmis|].
  split; [vm_compute; reflexivity|]. split; [vm_compute; reflexivity|].
  vm_compute. discriminate.
Qed.

Lemma login_generic_when_active_witness :
  (active_if_present john_db "john@example.com"
   /\ password_mismatch john_db "john@example.com" "WrongPassword123"
   /\ authController.login sample_world
        (credentials "john@example.com" "WrongPassword123") john_db
      = (Send (failure 401 authController.msg_invalid), john_db)
   /\ authController.login sample_world
        (credentials "nobody@example.com" "WrongPassword123") john_db
      = (Send (failure 401 authController.msg_invalid), john_db))
  /\ all_deactivated inactive_db "john@example.com"
  /\ authController.login sample_world
       (credentials "john@example.com" "Password123") inactive_db
     = (Send (failure 401 authController.msg_deactivated), inactive_db)
  /\ authController.login sample_world
       (credentials "john@example.com" "WrongPassword123") inactive_db
     = (Send (failure 401 authController.msg_deactivated), inactive_db).
Proof.
  assert (Hact : forall e, active_if_present john_db e).
  { intros e id u Hu _. simpl in Hu.
    apply lookup_singleton_Some in Hu as [_ <-]. reflexivity. }
  assert (Hmis : forall e,
            password_mismatch john_db e "WrongPassword123").
  { intros e id u Hu _. simpl in Hu.
    apply lookup_singleton_Some in Hu as [_ <-]. eexists.
    split; [reflexivity|]. vm_compute. reflexivity. }
  assert (Hoff : all_deactivated inactive_db "john@example.com").
  { split.
    - exists 0, (deactivated john_account). split; [reflexivity|].
      vm_compute. reflexivity.
    - intros id u Hu _. simpl in Hu.
      apply lookup_singleton_Some in Hu as [_ <-]. reflexivity. }
  split; [split; [apply Hact|split; [apply Hmis|split]]|].
  - exact (proj1 (login_generic_when_active sample_world
                    (credentials "john@example.com" "WrongPassword123")
                    john_db "john@example.com" "WrongPassword123"
                    eq_refl eq_refl ltac:(discriminate) ltac:(discriminate))
             (Hact _) (Hmis _)).
  - exact (proj1 (login_generic_when_active sample_world
                    (credentials "nobody@example.com" "WrongPassword123")
                    john_db "nobody@example.com" "WrongPassword123"
                    eq_refl eq_refl ltac:(discriminate) ltac:(discriminate))
             (Hact _) (Hmis _)).
  - split; [exact Hoff|]. split.
    + exact (proj2 (login_generic_when_active sample_world
                      (credentials "john@example.com" "Password123")
                      inactive_db "john@example.com" "Password123"
                      eq_refl eq_refl ltac:(discriminate)
                      ltac:(discriminate)) Hoff).
    + exact (proj2 (login_generic_when_active sample_world
                      (credentials "john@example.com" "WrongPassword123")
                      inactive_db "john@example.com" "WrongPassword123"
                      eq_refl eq_refl ltac:(discriminate)
                      ltac:(discriminate)) Hoff).
Defined.

(** Claim C7 as stated fails: a product type submitted with the three
    flags omitted is stored with two of them false. *)
Lemma omitted_flags_are_not_all_true :
  exists b' s,
    businesses (updatePreferences sample_world 0 gadget stocked_db).2 !! 0
    = Some b'
    /\ Preferences.productTypes (Business.preferences b') = [s]
    /\ ProductType.name s = "Gadget"
    /\ ProductType.requiresSerialNumber s = false
    /\ ProductType.requiresExpiryDate s = false
    /\ ProductType.trackInventory s = true.
Proof.
  eexists _, _. split; [vm_compute; reflexivity|].
  split; [reflexivity|]. repeat split.
Qed.

Lemma productType_flags_default_witness :
  businesses stocked_db !! 0 = Some stocked_business
  /\ exists b' s,
      businesses (updatePreferences sample_world 0 gadget stocked_db).2 !! 0
      = Some b'
      /\ Preferences.productTypes (Business.preferences b') !! 0 = Some s
      /\ ProductType.requiresSerialNumber s = false
      /\ ProductType.requiresExpiryDate s = false
      /\ ProductType.trackInventory s = true.
Proof.
  assert (Hb : businesses stocked_db !! 0 = Some stocked_business)
    by reflexivity.
  split; [exact Hb|].
  refine (productType_flags_default sample_world 0 gadget stocked_db
            stocked_business _ _ _ _ 0 _ Hb eq_refl _ eq_refl
            eq_refl eq_refl eq_refl).
  vm_compute. reflexivity.
Defined.

Lemma password_rehashed_iff_changed_witness :
  (exists d' coll',
     User.save sample_world 0 true
       (User.set_password (Some "Secret456") (hydrate 0 john_account))
       (users john_db) = inr (d', coll')
     /\ User.password <$> coll' !! 0
        = Some (Some "$2a$10$N9qo8uLOickgx2ZMRZoMyeSecret456")
     /\ User.password (fields d')
        = Some "$2a$10$N9qo8uLOickgx2ZMRZoMyeSecret456")
  /\ (exists d' coll',
        User.save later_world 0 true
          (User.set_lastLogin (Some (now later_world))
             (hydrate 0 john_account))
          (users john_db) = inr (d', coll')
        /\ User.password <$> coll' !! 0
           = Some (Some "$2a$10$N9qo8uLOickgx2ZMRZoMyePassword123")
        /\ User.password (fields d')
           = Some "$2a$10$N9qo8uLOickgx2ZMRZoMyePassword123")
  /\ users john_db !! 0 = Some john_account
  /\ exists u',
      users (authController.login later_world
               (credentials "john@example.com" "Password123") john_db).2 !! 0
      = Some u'
      /\ User.password u' = User.password john_account.
Proof.
  assert (Hu : users john_db !! 0 = Some john_account) by reflexivity.
  split; [|split; [|split; [exact Hu|]]].
  - exact (proj1 (password_rehashed_iff_changed sample_world)
             0 true
             (User.set_password (Some "Secret456") (hydrate 0 john_account))
             (users john_db) "Secret456" eq_refl eq_refl eq_refl
             (fun _ => ex_intro _ john_account Hu)).
  - exact (proj1 (proj2 (password_rehashed_iff_changed later_world))
             0 true
             (User.set_lastLogin (Some (now later_world))
                (hydrate 0 john_account))
             (users john_db) eq_refl eq_refl
             (fun _ => ex_intro _ john_account Hu)).
  - exact (proj2 (proj2 (proj2 (proj2 (proj2
             (password_rehashed_iff_changed later_world)))))
             _ john_db _ _ 0 john_account (surjective_pairing _) Hu).
Defined.

Lemma updateProfile_fields_witness :
  businesses john_db !! 0 = Some john_business
  /\ refusal true (outcome sample_world 0) = None
  /\ exists b',
      businesses (updateProfile sample_world 0 blank_profile john_db).2 !! 0
      = Some b'
      /\ Business.name b' = "John's Electronics"
      /\ Business.industry b' = "retail"
      /\ Business.description b' = Some "".
Proof.
  assert (Hb : businesses john_db !! 0 = Some john_business) by reflexivity.
  assert (Hw : refusal true (outcome sample_world 0) = None) by reflexivity.
  split; [exact Hb|]. split; [exact Hw|].
  destruct (updateProfile_fields sample_world 0 blank_profile john_db
              john_business _ _ Hb (surjective_pairing _))
    as (b' & Hb' & Hname & Hind & _ & _ & _ & _ & _ & _ & _ & _ & Hempty).
  exists b'. split; [exact Hb'|].
  split; [exact (Hname (or_introl eq_refl))|].
  split; [exact (Hind (or_intror eq_refl))|].
  exact (proj1 (Hempty Hw) eq_refl).
Defined.

(** ** The further properties on the sample data *)

Lemma john_db_reachable : reachable john_db.
Proof.
  pose proof (reach_register sample_world john _ reach_empty) as Hr.
  change {| users := ∅; businesses := ∅ |} with empty_db in Hr.
  by rewrite john_registers in Hr.
Qed.

Lemma john_spaceless : spaceless john_token.
Proof. repeat constructor; discriminate. Qed.

Lemma john_authenticates :
  authenticates sample_world john_header john_db 0
    john_account.
Proof.
  exists john_token. split; [reflexivity|]. split; [discriminate|].
  split; [vm_compute; reflexivity|]. split; reflexivity.
Qed.

Lemma staff_authenticates :
  authenticates sample_world john_header staff_db 0
    (employed john_account).
Proof.
  exists john_token. split; [reflexivity|]. split; [discriminate|].
  split; [vm_compute; reflexivity|]. split; reflexivity.
Qed.

Lemma john_protected :
  auth.protect sample_world john_header john_db
  = inr john_request.
Proof. vm_compute. reflexivity. Qed.

Lemma john_renames :
  updateProfile later_world 0 renaming john_db
  = (Send (ok 200 "Business profile updated successfully"
             (BusinessView
                (Business.toPublicProfile (hydrate 0 renamed_business)))),
     renamed_db).
Proof. vm_compute. reflexivity. Qed.

Lemma john_boxes :
  updatePreferences sample_world 0 only_box john_db
  = (Send (ok 200 "Preferences updated successfully"
             (PreferencesView boxed (stats_of boxed))), boxed_db).
Proof. vm_compute. reflexivity. Qed.

Lemma token_of_header_witness :
  spaceless john_token
  /\ auth.token_of john_header = Some john_token
  /\ auth.token_of (Some "Bearer secret.7d.0 and more") = Some john_token.
Proof.
  split; [exact john_spaceless|].
  pose proof (token_of_header john_token john_spaceless) as (H1 & H2 & _).
  split; [exact H1|exact (H2 "and more")].
Defined.

Lemma protect_sound_witness :
  auth.protect sample_world john_header john_db
  = inr john_request
  /\ exists id u,
       authenticates sample_world john_header john_db id u
       /\ _id (Populated.account john_request) = id
       /\ fields (Populated.account john_request) = User.with_password None u
       /\ User.password (fields (Populated.account john_request)) = None.
Proof.
  split; [exact john_protected|].
  destruct (protect_sound sample_world john_header john_db
              john_request john_protected)
    as (id & u & Ha & Hid & Hf & Hp & _).
  exists id, u. repeat split; assumption.
Defined.

Lemma writes_need_owner_witness :
  (routes.put_profile sample_world john_header renaming
     john_db).2 <> john_db
  /\ exists id u,
       authenticates sample_world john_header john_db id u
       /\ User.role u = User.Owner.
Proof.
  assert (Hne : (routes.put_profile sample_world john_header
                   renaming john_db).2 <> john_db).
  { intros Heq.
    apply (f_equal (fun d => Business.name <$> businesses d !! 0)) in Heq.
    vm_compute in Heq. discriminate Heq. }
  split; [exact Hne|].
  exact (writes_need_owner sample_world (fun _ => None)
           john_header renaming only_box john_db (or_introl Hne)).
Defined.

Lemma non_owner_forbidden_witness :
  authenticates sample_world john_header staff_db 0
    (employed john_account)
  /\ User.role (employed john_account) <> User.Owner
  /\ routes.put_profile sample_world john_header renaming
       staff_db
     = (Send (failure 403
          "User role 'employee' is not authorized to access this route"),
        staff_db)
  /\ routes.put_preferences sample_world (fun _ => None)
       john_header only_box staff_db
     = (Send (failure 403
          "User role 'employee' is not authorized to access this route"),
        staff_db).
Proof.
  assert (Hr : User.role (employed john_account) <> User.Owner)
    by discriminate.
  split; [exact staff_authenticates|]. split; [exact Hr|].
  exact (non_owner_forbidden sample_world (fun _ => None)
           john_header renaming only_box staff_db 0 (employed john_account)
           staff_authenticates Hr).
Defined.

Lemma writes_stay_in_tenant_witness :
  authenticates sample_world john_header john_db 0
    john_account
  /\ users (routes.put_profile sample_world john_header
              renaming john_db).2 = users john_db
  /\ businesses (routes.put_update_password
                   sample_world john_header new_password john_db).2
     = businesses john_db.
Proof.
  split; [exact john_authenticates|].
  pose proof (writes_stay_in_tenant sample_world
                (fun _ => None) john_header renaming only_box new_password
                john_db 0 john_account john_authenticates)
    as ((H1 & _) & _ & (H3 & _)).
  split; [exact H1|exact H3].
Defined.

Lemma updatePreferences_then_get_witness :
  updatePreferences sample_world 0 only_box john_db
  = (Send (ok 200 "Preferences updated successfully"
             (PreferencesView boxed (stats_of boxed))), boxed_db)
  /\ getPreferences strict_world 0 boxed_db
     = (Send (ok 200 "Preferences retrieved successfully"
                (PreferencesView boxed (stats_of boxed))), boxed_db).
Proof.
  split; [exact john_boxes|].
  exact (updatePreferences_then_get sample_world strict_world 0 only_box
           john_db boxed (stats_of boxed) boxed_db john_boxes).
Defined.

Lemma updateProfile_then_get_witness :
  businesses john_db !! 0 = Some john_business
  /\ users john_db !! Business.owner john_business = Some john_account
  /\ getProfile 0 renamed_db
     = Data {| profile_business :=
                 Business.toPublicProfile (hydrate 0 renamed_business);
               owner_name := "John Doe";
               owner_email := "john@example.com" |}.
Proof.
  split; [reflexivity|]. split; [reflexivity|].
  exact (updateProfile_then_get later_world 0 renaming john_db _ renamed_db
           john_business john_account eq_refl eq_refl john_renames).
Defined.

Lemma register_then_login_witness :
  authController.register sample_world john empty_db
  = (Send (ok 201 "Registration successful" john_session), john_db)
  /\ exists user' db'',
       authController.login later_world
         (credentials " John@Example.COM " "Password123") john_db
       = (Send (ok 200 "Login successful"
                  (PopulatedSession
                     (authController.generateToken later_world 0) user'
                     (Business.toPublicProfile (hydrate 0 john_business)))),
          db'')
       /\ depopulate user' = User.toPublicProfile (hydrate 0 john_account)
       /\ Business.toPublicProfile <$> Populated.pub_business user'
          = Some (Business.toPublicProfile (hydrate 0 john_business))
       /\ businesses db'' = businesses john_db.
Proof.
  split; [exact john_registers|].
  refine (register_then_login sample_world john empty_db _ _ _
            john_db later_world
            (credentials " John@Example.COM " "Password123")
            " John@Example.COM " john_registers _ _ _ _ _ _).
  - intros pw [= <-]. vm_compute. reflexivity.
  - reflexivity.
  - discriminate.
  - vm_compute. reflexivity.
  - reflexivity.
  - reflexivity.
Defined.

Lemma register_then_get_me_witness :
  authController.register sample_world john empty_db
  = (Send (ok 201 "Registration successful" john_session), john_db)
  /\ exists me,
       routes.get_me sample_world john_header john_db
       = Data me
       /\ depopulate (authController.me_user me)
          = User.toPublicProfile (hydrate 0 john_account)
       /\ authController.me_business me
          = Some (Business.toPublicProfile (hydrate 0 john_business)).
Proof.
  split; [exact john_registers|].
  destruct (register_then_get_me sample_world
              john empty_db _ _ _ john_db sample_world john_registers
              john_spaceless ltac:(discriminate) eq_refl)
    as (me & Hme & Hu & _ & Hb).
  exists me. split; [exact Hme|]. split; [exact Hu|exact Hb].
Defined.

Lemma register_then_get_profile_witness :
  authController.register sample_world john empty_db
  = (Send (ok 201 "Registration successful" john_session), john_db)
  /\ routes.get_profile sample_world john_header john_db
     = Data {| profile_business :=
                 Business.toPublicProfile (hydrate 0 john_business);
               owner_name := "John Doe";
               owner_email := "john@example.com" |}.
Proof.
  split; [exact john_registers|].
  exact (register_then_get_profile sample_world
           john empty_db _ _ _ john_db sample_world john_registers
           john_spaceless ltac:(discriminate) eq_refl).
Defined.

Lemma login_frame_witness :
  (authController.login sample_world
     (credentials "john@example.com" "Password123") john_db).2 = john_db
  /\ (authController.login later_world
        (credentials "john@example.com" "Password123") john_db).2
     = {| users :=
            {[ 0 := User.stamp false (now later_world)
                      (User.with_lastLogin (Some (now later_world))
                         john_account) ]};
          businesses := businesses john_db |}.
Proof.
  assert (Hok : succeeded (authController.login sample_world
                             (credentials "john@example.com" "Password123")
                             john_db).1 = true)
    by (vm_compute; reflexivity).
  assert (Hok' : succeeded (authController.login later_world
                              (credentials "john@example.com" "Password123")
                              john_db).1 = true)
    by (vm_compute; reflexivity).
  split.
  - destruct (proj2 (login_frame sample_world
                       (credentials "john@example.com" "Password123")
                       john_db _ _ (surjective_pairing _))
                Hok)
      as (email & id & u & _ & Hu & _ & Hsame & _).
    apply Hsame. simpl in Hu.
    apply lookup_singleton_Some in Hu as [_ <-]. reflexivity.
  - destruct (proj2 (login_frame later_world
                       (credentials "john@example.com" "Password123")
                       john_db _ _ (surjective_pairing _))
                Hok')
      as (email & id & u & _ & Hu & _ & _ & Hlater).
    simpl in Hu. apply lookup_singleton_Some in Hu as [<- <-].
    rewrite Hlater by discriminate. simpl.
    by rewrite insert_singleton_eq.
Defined.

Lemma updatePassword_effect_witness :
  exists u,
    users john_db !! 0 = Some u
    /\ 6 <= Js.length "Secret456"
    /\ (authController.updatePassword later_world 0 new_password john_db).2
       = {| users :=
              <[0 := User.stamp false (now later_world)
                       (User.with_password
                          (Some ("$2a$10$N9qo8uLOickgx2ZMRZoMye"
                                 ++ "Secret456")) u)]>
                (users john_db);
            businesses := businesses john_db |}.
Proof.
  assert (Hok : succeeded (authController.updatePassword later_world 0
                             new_password john_db).1 = true)
    by (vm_compute; reflexivity).
  destruct (proj2 (updatePassword_effect later_world 0
                     new_password john_db _ _ (surjective_pairing _)) Hok)
    as (c & n & u & Hc & Hn & Hlen & Hu & _ & _ & _ & Hdb).
  exists u. split; [exact Hu|].
  injection Hn as <-. split; [exact Hlen|].
  rewrite Hdb; [reflexivity|].
  simpl in Hu. apply lookup_singleton_Some in Hu as [_ <-]. discriminate.
Defined.

Lemma register_conflict_normalized_witness :
  complete john_again
  /\ User.cast_email " John@Example.COM "
     = User.cast_email "john@example.com"
  /\ authController.register sample_world john_again john_db
     = (Send (failure 400 authController.msg_exists), john_db).
Proof.
  assert (Hc : complete john_again) by (repeat constructor).
  assert (He : User.cast_email " John@Example.COM "
               = User.cast_email "john@example.com")
    by (vm_compute; reflexivity).
  split; [exact Hc|]. split; [exact He|].
  exact (register_conflict_normalized sample_world john empty_db
           _ john_db sample_world john_again "john@example.com"
           " John@Example.COM " john_registers eq_refl Hc eq_refl He).
Defined.

Lemma register_contact_fallback_witness :
  authController.register sample_world john empty_db
  = (Send (ok 201 "Registration successful" john_session), john_db)
  /\ Business.pub_email (Business.toPublicProfile (hydrate 0 john_business))
     = Some "john@example.com"
  /\ Business.pub_phone (Business.toPublicProfile (hydrate 0 john_business))
     = Some "+2348012345678"
  /\ Business.pub_industry
       (Business.toPublicProfile (hydrate 0 john_business)) = "retail".
Proof.
  split; [exact john_registers|].
  exact (register_contact_fallback sample_world john empty_db
           _ _ _ john_db john_registers).
Defined.

Lemma john_is_new :
  complete john /\ ~ email_taken john empty_db.
Proof.
  split; [repeat constructor|].
  intros (e & id & u & _ & Hu & _). simpl in Hu.
  rewrite lookup_empty in Hu. discriminate Hu.
Qed.


Lemma register_first_save_unvalidated_witness :
  outcome fussy_world 0 = Invalid ["Path `business` is required."]
  /\ exists payload db',
       authController.register fussy_world john empty_db
       = (Send (ok 201 "Registration successful" payload), db').
Proof.
  split; [reflexivity|].
  refine (register_first_save_unvalidated fussy_world john
            empty_db _ (proj1 john_is_new) (proj2 john_is_new) eq_refl _).
  intros [|[|[|[|k]]]] Hk; try lia; reflexivity.
Defined.

Lemma updateProfile_protected_witness :
  users (updateProfile sample_world 0 renaming john_db).2 = users john_db
  /\ exists b',
       businesses (updateProfile sample_world 0 renaming john_db).2 !! 0
       = Some b'
       /\ Business.owner b' = Business.owner john_business
       /\ Business.subscriptionPlan b'
          = Business.subscriptionPlan john_business.
Proof.
  destruct (updateProfile_protected sample_world 0 renaming john_db _ _
              (surjective_pairing _)) as (Hu & _ & _ & Hb).
  split; [exact Hu|].
  destruct (Hb john_business eq_refl)
    as (b' & Hb' & Ho & _ & _ & Hp & _).
  exists b'. split; [exact Hb'|]. split; [exact Ho|exact Hp].
Defined.

Lemma updateProfile_address_witness :
  businesses john_db !! 0 = Some john_business
  /\ exists b',
       businesses renamed_db !! 0 = Some b'
       /\ Business.address b' !! "city" = Some "Lagos"
       /\ Business.address b' !! "country" = Some "Nigeria".
Proof.
  split; [reflexivity|].
  destruct (updateProfile_address later_world 0 renaming john_db
              john_business _ _ eq_refl john_renames eq_refl)
    as (b' & Hb' & Ha).
  exists b'. split; [exact Hb'|]. simpl in Ha.
  split; [exact (Ha "city")|exact (Ha "country")].
Defined.


Lemma updatePreferences_replaces_witness :
  updatePreferences sample_world 0 only_box john_db
  = (Send (ok 200 "Preferences updated successfully"
             (PreferencesView boxed (stats_of boxed))), boxed_db)
  /\ (exists b', businesses boxed_db !! 0 = Some b'
        /\ Business.preferences b' = boxed)
  /\ Unit.name <$> Preferences.units boxed = ["Box"]
  /\ Unit.abbreviation <$> Preferences.units boxed = ["BX"]
  /\ totalUnits (stats_of boxed) = 1.
Proof.
  split; [exact john_boxes|].
  destruct (updatePreferences_replaces sample_world 0 only_box john_db _ _ _
              john_boxes) as (Hstored & _ & Hu & _).
  split; [exact Hstored|].
  destruct (Hu _ eq_refl) as (Hn & Ha & Ht).
  split; [exact Hn|]. split; [exact Ha|exact Ht].
Defined.

Lemma reachable_linked_witness :
  reachable john_db /\ linked john_db.
Proof.
  split; [exact john_db_reachable|].
  exact (reachable_linked john_db john_db_reachable).
Defined.

Lemma reachable_unique_emails_witness :
  reachable john_db /\ unique_emails john_db.
Proof.
  split; [exact john_db_reachable|].
  exact (proj1 (reachable_unique_emails john_db
                  john_db_reachable)).
Defined.

Lemma reachable_standing_witness :
  reachable john_db
  /\ forall id u, users john_db !! id = Some u ->
       User.role u = User.Owner /\ User.isActive u = true
       /\ is_Some (User.password u).
Proof.
  split; [exact john_db_reachable|].
  exact (proj1 (reachable_standing john_db john_db_reachable)).
Defined.

Lemma boxed_db_reachable : reachable boxed_db.
Proof.
  pose proof (reach_updatePreferences sample_world 0 only_box _
                john_db_reachable) as Hr.
  by rewrite john_boxes in Hr.
Qed.

Lemma reachable_tidy_witness :
  reachable boxed_db
  /\ Preferences.units boxed
     = [ {| Unit.name := "Box"; Unit.abbreviation := "BX";
            Unit.type := "quantity"; Unit.isActive := true;
            Unit.createdAt := now sample_world |} ]
  /\ tidy_preferences boxed.
Proof.
  split; [exact boxed_db_reachable|]. split; [reflexivity|].
  exact (reachable_tidy boxed_db 0
           (Business.stamp false (now sample_world)
              (Business.with_preferences boxed john_business))
           boxed_db_reachable eq_refl).
Defined.

Lemma reachable_reads_answer_witness :
  reachable john_db
  /\ authenticates sample_world john_header john_db 0
       john_account
  /\ exists bid b,
       User.business john_account = Some bid
       /\ businesses john_db !! bid = Some b
       /\ routes.get_preferences sample_world john_header
            john_db
          = (Send (ok 200 "Preferences retrieved successfully"
                     (PreferencesView (Business.preferences b)
                        (stats_of (Business.preferences b)))), john_db).
Proof.
  split; [exact john_db_reachable|]. split; [exact john_authenticates|].
  destruct (reachable_reads_answer sample_world
              john_header john_db 0 john_account john_db_reachable
              john_authenticates)
    as (bid & b & Hub & Hb & _ & _ & Hp & _).
  exists bid, b. split; [exact Hub|]. split; [exact Hb|exact Hp].
Defined.

Lemma updatePassword_then_login_witness :
  let db' := (authController.updatePassword sample_world 0
                new_password john_db).2 in
  succeeded (authController.login sample_world
               (credentials "john@example.com" "Secret456") db').1 = true
  /\ authController.login sample_world
       (credentials "john@example.com" "Password123") db'
     = (Send (failure 401 authController.msg_invalid), db').
Proof.
  cbv zeta. split.
  - destruct (updatePassword_then_login sample_world 0
                new_password john_db _ _ sample_world
                (credentials "john@example.com" "Secret456")
                "john@example.com" "Secret456" john_db_reachable
                (surjective_pairing _) eq_refl eq_refl eq_refl
                ltac:(discriminate) ltac:(discriminate))
      as (u & n & h & Hu & _ & Hh & _ & Hlogin).
    vm_compute in Hh. injection Hh as <-.
    simpl in Hu. apply lookup_singleton_Some in Hu as [_ <-].
    apply (Hlogin eq_refl); [vm_compute|]; reflexivity.
  - destruct (updatePassword_then_login sample_world 0
                new_password john_db _ _ sample_world
                (credentials "john@example.com" "Password123")
                "john@example.com" "Password123" john_db_reachable
                (surjective_pairing _) eq_refl eq_refl eq_refl
                ltac:(discriminate) ltac:(discriminate))
      as (u & n & h & Hu & _ & Hh & _ & Hlogin).
    vm_compute in Hh. injection Hh as <-.
    simpl in Hu. apply lookup_singleton_Some in Hu as [_ <-].
    apply (Hlogin eq_refl). vm_compute. reflexivity.
Defined.
